(** * vscode-docker: task and debug configuration resolution

    A shallow embedding of the option resolvers, the command-line assembly
    and the post-debug cleanup of the Docker extension, with the properties
    its specification states about them.

    Conventions of the embedding:
    - an optional TypeScript field [f?: T] is an [option T];
    - JavaScript truthiness is written out ([truthy], [or_else]);
    - an `async` function that may throw returns a [result];
    - an array that the source mutates in place is threaded through the
      function and returned next to the function's own return value. *)

From Stdlib Require Import ZArith Ascii String List Bool Lia.
From stdpp Require Import base option list strings gmap.
Import ListNotations.

Local Open Scope string_scope.
Local Open Scope list_scope.

#[local] Set Warnings "-register-all".

(** ** JavaScript values that the resolvers test for truthiness *)

Module Js.

(** [x || d] on an optional string: the empty string and [undefined] are
    falsy. *)
Definition truthy (x : option string) : bool :=
  match x with
  | Some s => negb (String.eqb s "")
  | None => false
  end.

Definition or_else (x : option string) (d : string) : string :=
  match x with
  | Some s => if String.eqb s "" then d else s
  | None => d
  end.

(** [x || d] where [x] is an optional object or array: every object is
    truthy. *)
Definition or_obj {A : Type} (x : option A) (d : A) : A :=
  match x with
  | Some a => a
  | None => d
  end.

End Js.

(** ** Errors and the result of an `await` *)

Inductive error : Type :=
| TypeError (msg : string)        (* thrown by the JavaScript runtime *)
| Error (msg : string)            (* [throw new Error(msg)] in the source *)
| Rejected (what : string).       (* a rejected promise of a collaborator *)

Inductive result (A : Type) : Type :=
| Ok (a : A)
| Err (e : error).
Arguments Ok {A} a.
Arguments Err {A} e.

#[global] Instance result_ret : MRet result := fun _ a => Ok a.
#[global] Instance result_bind : MBind result := fun _ _ f m =>
  match m with
  | Ok a => f a
  | Err e => Err e
  end.

(** [try { body } catch { handler }] *)
Definition try_catch {A : Type} (body : result A) (handler : error -> result A) : result A :=
  match body with
  | Ok a => Ok a
  | Err e => handler e
  end.

(** ** Strings: the regular expressions and string methods of the source *)

(** A [string] stands for the JavaScript string with the same code units:
    a character of the model is a code unit below 256, the Latin-1 part of
    Unicode.  On these strings the definitions below give what the
    built-ins give, code unit by code unit. *)

Module Str.

(** The lower-case form of a code unit below 256: [A] to [Z], and the
    letters from U+00C0 to U+00DE (without the multiplication sign,
    U+00D7), lie 32 below their lower-case forms; every other code unit
    is its own. *)
Definition lower (c : ascii) : ascii :=
  let n := nat_of_ascii c in
  if ((65 <=? n)%nat && (n <=? 90)%nat)
     || ((192 <=? n)%nat && (n <=? 222)%nat && negb (n =? 215)%nat)
  then ascii_of_nat (n + 32) else c.

(** [String.prototype.toLowerCase] *)
Fixpoint toLowerCase (s : string) : string :=
  match s with
  | EmptyString => EmptyString
  | String c s' => String (lower c) (toLowerCase s')
  end.

(** A literal pattern under the [i] flag matches at the start of [s]: code
    units match when their canonical forms are the same.  Without the [u]
    flag a code unit outside ASCII never folds onto an ASCII letter, and
    below 256 two code units have the same canonical form exactly when
    they have the same lower-case form. *)
Fixpoint ci_prefix (pat s : string) : bool :=
  match pat, s with
  | EmptyString, _ => true
  | String _ _, EmptyString => false
  | String p pat', String c s' => Ascii.eqb (lower p) (lower c) && ci_prefix pat' s'
  end.

(** [/pat/i.test(s)] for a literal [pat]: is there a match anywhere. *)
Fixpoint ci_test (pat s : string) : bool :=
  ci_prefix pat s ||
  match s with
  | EmptyString => false
  | String _ s' => ci_test pat s'
  end.

(** [\s] below 256: tab, line feed, vertical tab, form feed, carriage
    return, space and the no-break space U+00A0. *)
Definition is_space (c : ascii) : bool :=
  let n := nat_of_ascii c in
  ((9 <=? n)%nat && (n <=? 13)%nat) || (n =? 32)%nat || (n =? 160)%nat.

(** [s.replace(/\s/i, '')]: no [g] flag, the first match only. *)
Fixpoint remove_first_space (s : string) : string :=
  match s with
  | EmptyString => EmptyString
  | String c s' => if is_space c then s' else String c (remove_first_space s')
  end.

Fixpoint take (n : nat) (s : string) : string :=
  match n, s with
  | O, _ => EmptyString
  | S _, EmptyString => EmptyString
  | S n', String c s' => String c (take n' s')
  end.

Fixpoint drop (n : nat) (s : string) : string :=
  match n, s with
  | O, _ => s
  | S _, EmptyString => EmptyString
  | S n', String _ s' => drop n' s'
  end.

Definition dollar : ascii := "$"%char.

(** The text that [String.prototype.replace] puts in for a match, for a
    replacement [repl] given as a string and a pattern without groups:
    [$$] stands for one [$], [$&] for the matched text, [$`] for the text
    before the match and [$'] for the text after it; any other [$] is kept
    as it is. *)
Fixpoint expand (repl matched before after : string) : string :=
  match repl with
  | EmptyString => EmptyString
  | String c rest =>
      if Ascii.eqb c dollar then
        match rest with
        | EmptyString => String c EmptyString
        | String d rest' =>
            if Ascii.eqb d dollar then String dollar (expand rest' matched before after)
            else if Ascii.eqb d "&"%char then matched +:+ expand rest' matched before after
            else if Ascii.eqb d "`"%char then before +:+ expand rest' matched before after
            else if Ascii.eqb d "'"%char then after +:+ expand rest' matched before after
            else String c (expand rest matched before after)
        end
      else String c (expand rest matched before after)
  end.

(** [s.replace(/pat/gi, repl)] for a literal, non-empty [pat]; matches
    are found left to right and do not overlap.  [skip] counts the
    characters of the current match still to be dropped, [before] is the
    text already passed. *)
Fixpoint replace_all_from (skip : nat) (pat repl before s : string) : string :=
  match s with
  | EmptyString => EmptyString
  | String c s' =>
      match skip with
      | S k => replace_all_from k pat repl (before +:+ String c EmptyString) s'
      | O =>
          if ci_prefix pat s
          then expand repl (take (String.length pat) s) before (drop (String.length pat) s)
               +:+ replace_all_from (String.length pat - 1) pat repl
                     (before +:+ String c EmptyString) s'
          else String c (replace_all_from 0 pat repl (before +:+ String c EmptyString) s')
      end
  end.

Definition replace_all_ci (pat repl s : string) : string :=
  replace_all_from 0 pat repl EmptyString s.

End Str.

(** ** Plain JavaScript objects with string values ([{ [key: string]: string }]) *)

Module Dict.

Definition t : Type := list (string * string).

Fixpoint get (d : t) (k : string) : option string :=
  match d with
  | [] => None
  | (k', v) :: d' => if String.eqb k' k then Some v else get d' k
  end.

(** [d[k] = v]: an existing key keeps its place, a new key goes last. *)
Fixpoint set (d : t) (k v : string) : t :=
  match d with
  | [] => [(k, v)]
  | (k', v') :: d' => if String.eqb k' k then (k', v) :: d' else (k', v') :: set d' k v
  end.

End Dict.

(** ** Values read from a JSON file *)

Module Json.

Inductive value : Type :=
| VUndefined
| VNull
| VBool (b : bool)
| VNum (n : Z)          (* a fractional number behaves here as a non-zero one *)
| VStr (s : string)
| VArr (items : list value)
| VObj (props : list (string * value)).   (* in [Object.keys] order *)

Definition truthy (v : value) : bool :=
  match v with
  | VUndefined | VNull => false
  | VBool b => b
  | VNum n => negb (n =? 0)%Z
  | VStr s => negb (String.eqb s "")
  | VArr _ | VObj _ => true
  end.

Fixpoint lookup (props : list (string * value)) (k : string) : value :=
  match props with
  | [] => VUndefined
  | (k', v) :: rest => if String.eqb k' k then v else lookup rest k
  end.

(** [v.k] for a property name that no prototype defines (the resolvers
    read [profiles], [commandName] and [applicationUrl]): reading a
    property of [undefined] or [null] throws, a primitive or an array
    has no such property. *)
Definition getProp (v : value) (k : string) : result value :=
  match v with
  | VUndefined | VNull => Err (TypeError ("Cannot read property '" +:+ k +:+ "'"))
  | VObj props => Ok (lookup props k)
  | VBool _ | VNum _ | VStr _ | VArr _ => Ok VUndefined
  end.

Fixpoint chars (s : string) : list value :=
  match s with
  | EmptyString => []
  | String c s' => VStr (String c EmptyString) :: chars s'
  end.

(** [Object.values(v)] *)
Definition objectValues (v : value) : result (list value) :=
  match v with
  | VUndefined | VNull => Err (TypeError "Cannot convert undefined or null to object")
  | VObj props => Ok (map snd props)
  | VArr items => Ok items
  | VStr s => Ok (chars s)
  | VBool _ | VNum _ => Ok []
  end.

(** [xs.find(p)] where the callback may throw. *)
Fixpoint find (p : value -> result bool) (xs : list value) : result value :=
  match xs with
  | [] => Ok VUndefined
  | x :: rest =>
      b ← p x;
      if (b : bool) then Ok x else find p rest
  end.

Definition digit (n : nat) : ascii := ascii_of_nat (48 + n).

Fixpoint digits (fuel : nat) (n : nat) (acc : string) : string :=
  match fuel with
  | O => acc
  | S fuel' =>
      let acc' := String (digit (n mod 10)) acc in
      if (n <? 10)%nat then acc' else digits fuel' (n / 10) acc'
  end.

Definition numToString (n : Z) : string :=
  let m := Z.to_nat (Z.abs n) in
  let d := digits (S m) m EmptyString in
  if (n <? 0)%Z then String "-" d else d.

(** [String(v)], the conversion [RegExp.prototype.test] applies to its
    argument. *)
Fixpoint toString (v : value) : string :=
  match v with
  | VUndefined => "undefined"
  | VNull => "null"
  | VBool true => "true"
  | VBool false => "false"
  | VNum n => numToString n
  | VStr s => s
  | VObj _ => "[object Object]"
  | VArr items =>
      (fix join (l : list value) : string :=
         match l with
         | [] => EmptyString
         | x :: rest =>
             let sx := match x with
                       | VUndefined | VNull => EmptyString
                       | _ => toString x
                       end in
             match rest with
             | [] => sx
             | _ :: _ => sx +:+ "," +:+ join rest
             end
         end) items
  end.

End Json.

(** ** The host: Node's [path], [os], [process] and [fs-extra], and the
    collaborators of the task helpers whose files are not part of the
    sources.  Every theorem below holds for every host. *)

Inductive PlatformOS : Type := Linux | Windows.

Record WorkspaceFolder : Type := mkFolder {
  fsPath : string;        (* folder.uri.fsPath *)
  folderName : string     (* folder.name *)
}.

Record SecretsFolders : Type := mkSecretsFolders {
  certificateFolder : string;
  userSecretsFolder : string
}.

Record Host : Type := mkHost {
  path_dirname : string -> string;
  path_join : list string -> string;
  path_parse_name : string -> string;                   (* path.parse(p).name *)
  path_extname : string -> string;
  path_normalize : string -> string;
  path_relative : string -> string -> string;
  os_platform : string;                                 (* os.platform() *)
  os_homedir : string;
  process_env_ProgramFiles : option string;
  fse_pathExists : string -> bool;
  fse_readJson : string -> result Json.value;
  fse_readFile : string -> result string;               (* contents.toString() *)
  (* utils/quick-pick-file: the picked item's absoluteFilePath, or a throw
     with the given message when there is nothing to pick *)
  quickPickProjectFileItem : WorkspaceFolder -> string -> result string;
  getHostDebuggerPathBase : string;                     (* NetCoreDebugHelper *)
  getHostSecretsFolders : SecretsFolders;               (* LocalAspNetCoreSslManager *)
  getContainerSecretsFolders : option PlatformOS -> SecretsFolders
}.

(** ** Volume and port lists (tasks/DockerRunTaskProvider, tasks/TaskHelper) *)

Inductive Permissions : Type := ro | rw.

Record DockerContainerVolume : Type := mkVolume {
  localPath : string;
  containerPath : string;
  permissions : option Permissions
}.

Record DockerContainerPort : Type := mkPort {
  containerPort : Z;
  hostPort : option Z
}.

Module TaskHelper.

(** NetCoreTaskHelper.addVolumeWithoutConflicts. [Array.prototype.find]
    returns the first element whose container path is the new volume's;
    an element is an object, hence truthy.  The array is mutated by
    [push]; the function returns the flag and the array after the call. *)
Definition addVolumeWithoutConflicts
    (volumes : list DockerContainerVolume) (volume : DockerContainerVolume)
    : bool * list DockerContainerVolume :=
  match List.find (fun v => String.eqb (containerPath v) (containerPath volume)) volumes with
  | Some _ => (false, volumes)
  | None => (true, volumes ++ [volume])
  end.

(** Modelled from the spec: [addPortWithoutConflicts] of tasks/TaskHelper.ts
    is imported by PythonTaskHelper.ts but its file is not among the
    sources.  The specification describes port lists as "ordered sequences
    deduplicated by container-side path/port" with "first write wins per
    key": a port whose container port is already mapped is not added. *)
Definition addPortWithoutConflicts
    (ports : list DockerContainerPort) (port : DockerContainerPort)
    : bool * list DockerContainerPort :=
  match List.find (fun p => Z.eqb (containerPort p) (containerPort port)) ports with
  | Some _ => (false, ports)
  | None => (true, ports ++ [port])
  end.

(** The loop [for (const x of xs) add(acc, x)] that every [infer*]
    function runs over the user's list. *)
Definition addAll {A : Type} (add : list A -> A -> bool * list A)
    (acc : list A) (xs : list A) : list A :=
  fold_left (fun acc x => snd (add acc x)) xs acc.

End TaskHelper.

(** ** Build and run options (tasks/DockerBuildTaskProvider.ts and the
    run-task counterpart) *)

Record DockerBuildOptions : Type := mkBuildOptions {
  args : option Dict.t;
  context : option string;
  dockerfile : option string;
  buildLabels : option Dict.t;
  tag : option string;
  target : option string;
  pull : option bool
}.

Record DockerRunOptions : Type := mkRunOptions {
  command : option string;
  containerName : option string;
  entrypoint : option string;
  env : option Dict.t;
  envFiles : option (list string);
  extraHosts : option (list (string * string));
  image : option string;
  labels : option Dict.t;
  network : option string;
  networkAlias : option string;
  os : option PlatformOS;
  ports : option (list DockerContainerPort);
  volumes : option (list DockerContainerVolume)
}.

(** Assignments [runOptions.f = v]. *)
Definition set_command (r : DockerRunOptions) (v : option string) : DockerRunOptions :=
  mkRunOptions v (containerName r) (entrypoint r) (env r) (envFiles r) (extraHosts r)
    (image r) (labels r) (network r) (networkAlias r) (os r) (ports r) (volumes r).
Definition set_containerName (r : DockerRunOptions) (v : option string) : DockerRunOptions :=
  mkRunOptions (command r) v (entrypoint r) (env r) (envFiles r) (extraHosts r)
    (image r) (labels r) (network r) (networkAlias r) (os r) (ports r) (volumes r).
Definition set_entrypoint (r : DockerRunOptions) (v : option string) : DockerRunOptions :=
  mkRunOptions (command r) (containerName r) v (env r) (envFiles r) (extraHosts r)
    (image r) (labels r) (network r) (networkAlias r) (os r) (ports r) (volumes r).
Definition set_env (r : DockerRunOptions) (v : option Dict.t) : DockerRunOptions :=
  mkRunOptions (command r) (containerName r) (entrypoint r) v (envFiles r) (extraHosts r)
    (image r) (labels r) (network r) (networkAlias r) (os r) (ports r) (volumes r).
Definition set_image (r : DockerRunOptions) (v : option string) : DockerRunOptions :=
  mkRunOptions (command r) (containerName r) (entrypoint r) (env r) (envFiles r) (extraHosts r)
    v (labels r) (network r) (networkAlias r) (os r) (ports r) (volumes r).
Definition set_labels (r : DockerRunOptions) (v : option Dict.t) : DockerRunOptions :=
  mkRunOptions (command r) (containerName r) (entrypoint r) (env r) (envFiles r) (extraHosts r)
    (image r) v (network r) (networkAlias r) (os r) (ports r) (volumes r).
Definition set_os (r : DockerRunOptions) (v : option PlatformOS) : DockerRunOptions :=
  mkRunOptions (command r) (containerName r) (entrypoint r) (env r) (envFiles r) (extraHosts r)
    (image r) (labels r) (network r) (networkAlias r) v (ports r) (volumes r).
Definition set_ports (r : DockerRunOptions) (v : option (list DockerContainerPort))
    : DockerRunOptions :=
  mkRunOptions (command r) (containerName r) (entrypoint r) (env r) (envFiles r) (extraHosts r)
    (image r) (labels r) (network r) (networkAlias r) (os r) v (volumes r).
Definition set_volumes (r : DockerRunOptions) (v : option (list DockerContainerVolume))
    : DockerRunOptions :=
  mkRunOptions (command r) (containerName r) (entrypoint r) (env r) (envFiles r) (extraHosts r)
    (image r) (labels r) (network r) (networkAlias r) (os r) (ports r) v.

Record NetCoreTaskOptions : Type := mkNetCoreTaskOptions {
  appProject : option string;
  configureSsl : option bool
}.

(** What the helpers store in [TaskCache] under the project's path. *)
Record CacheEntry : Type := mkCacheEntry {
  cachedImage : option string;
  cachedConfigureSsl : option bool;
  cachedContainerName : option string;
  cachedOs : option PlatformOS
}.

(** [TaskCache] of tasks/TaskHelper.ts is not among the sources; its three
    operations are taken as an interface over an arbitrary store. *)
Class TaskCache (C : Type) : Type := {
  cache_get : C -> string -> option CacheEntry;
  cache_set : C -> string -> CacheEntry -> C;
  cache_update : C -> string -> CacheEntry -> C
}.

(** ** tasks/netcore/NetCoreTaskHelper.ts *)

Module NetCoreTaskHelper.

Definition defaultLabels : Dict.t :=
  [("com.microsoft.created-by", "visual-studio-code")].

Definition MacNuGetPackageFallbackFolderPath : string :=
  "/usr/local/share/dotnet/sdk/NuGetFallbackFolder".
Definition LinuxNuGetPackageFallbackFolderPath : string :=
  "/usr/share/dotnet/sdk/NuGetFallbackFolder".

(** [UserSecretsRegex.test(s)] with [UserSecretsRegex = /UserSecretsId/i] *)
Definition UserSecretsRegex_test (s : string) : bool :=
  Str.ci_test "UserSecretsId" s.

(** [/https:\/\//i.test(s)] *)
Definition httpsRegex_test (s : string) : bool :=
  Str.ci_test "https://" s.

Definition resolveWorkspaceFolderPath (folder : WorkspaceFolder) (folderPath : string) : string :=
  Str.replace_all_ci "${workspaceFolder}" (fsPath folder) folderPath.

Definition inferAppProject (h : Host) (folder : WorkspaceFolder)
    (helperOptions : NetCoreTaskOptions) : result string :=
  match appProject helperOptions with
  | Some project =>
      if Js.truthy (Some project)
      then Ok (resolveWorkspaceFolderPath folder project)
      else quickPickProjectFileItem h folder
             "The 'netCore.appProject' in the Docker task definition is undefined or does not exist. Ensure that the property is set to the appropriate .NET Core project."
  | None =>
      quickPickProjectFileItem h folder
        "The 'netCore.appProject' in the Docker task definition is undefined or does not exist. Ensure that the property is set to the appropriate .NET Core project."
  end.

(** [path.parse(undefined)] throws. *)
Definition inferAppName (h : Host) (helperOptions : NetCoreTaskOptions) : result string :=
  match appProject helperOptions with
  | None => Err (TypeError "The path argument must be of type string")
  | Some p => Ok (Str.toLowerCase (Str.remove_first_space (path_parse_name h p)))
  end.

(** The body of the [try] block of [inferSsl]; [Ok false] stands for
    falling out of the block without returning. *)
Definition inferSsl_try (h : Host) (helperOptions : NetCoreTaskOptions) : result bool :=
  match appProject helperOptions with
  | None => Err (TypeError "The path argument must be of type string")
  | Some project =>
      let launchSettingsPath :=
        path_join h [path_dirname h project; "Properties"; "launchSettings.json"] in
      if fse_pathExists h launchSettingsPath then
        launchSettings ← fse_readJson h launchSettingsPath;
        if Json.truthy launchSettings then
          profiles ← Json.getProp launchSettings "profiles";
          if Json.truthy profiles then
            values ← Json.objectValues profiles;
            projectProfile ←
              Json.find (fun p =>
                           name ← Json.getProp p "commandName";
                           Ok match name with
                              | Json.VStr n => String.eqb n "Project"
                              | _ => false
                              end) values;
            if Json.truthy projectProfile then
              applicationUrl ← Json.getProp projectProfile "applicationUrl";
              Ok (Json.truthy applicationUrl
                  && httpsRegex_test (Json.toString applicationUrl))
            else Ok false
          else Ok false
        else Ok false
      else Ok false
  end.

Definition inferSsl (h : Host) (folder : WorkspaceFolder)
    (helperOptions : NetCoreTaskOptions) : result bool :=
  try_catch (inferSsl_try h helperOptions) (fun _ => Ok false).

Definition inferUserSecrets (h : Host) (folder : WorkspaceFolder)
    (helperOptions : NetCoreTaskOptions) : result bool :=
  match appProject helperOptions with
  | None => Err (TypeError "The path argument must be of type string")
  | Some project =>
      contents ← fse_readFile h project;
      Ok (UserSecretsRegex_test contents)
  end.

Definition isWindows (o : option PlatformOS) : bool :=
  match o with
  | Some Windows => true
  | _ => false
  end.

Definition add (volumes : list DockerContainerVolume) (volume : DockerContainerVolume)
    : list DockerContainerVolume :=
  snd (TaskHelper.addVolumeWithoutConflicts volumes volume).

Definition inferVolumes (h : Host) (folder : WorkspaceFolder) (runOptions : DockerRunOptions)
    (helperOptions : NetCoreTaskOptions) (ssl userSecrets : bool)
    : result (list DockerContainerVolume) :=
  let volumes :=
    match volumes runOptions with
    | Some user => TaskHelper.addAll TaskHelper.addVolumeWithoutConflicts [] user
    | None => []
    end in
  project ← match appProject helperOptions with
            | Some p => Ok p
            | None => Err (TypeError "The path argument must be of type string")
            end;
  let win := isWindows (os runOptions) in
  let appVolume :=
    mkVolume (path_dirname h project) (if win then "C:\app" else "/app") (Some rw) in
  let srcVolume :=
    mkVolume (fsPath folder) (if win then "C:\src" else "/src") (Some rw) in
  let debuggerVolume :=
    mkVolume (getHostDebuggerPathBase h)
             (if win then "C:\remote_debugger" else "/remote_debugger") (Some ro) in
  let nugetVolume :=
    mkVolume (path_join h [os_homedir h; ".nuget"; "packages"])
             (if win then "C:\.nuget\packages" else "/root/.nuget/packages") (Some ro) in
  fallbackPath ←
    (if String.eqb (os_platform h) "win32" then
       match process_env_ProgramFiles h with
       | None => Err (Error "The environment variable 'ProgramFiles' is not defined. This variable is used to locate the NuGet fallback folder.")
       | Some programFiles =>
           Ok (path_join h [programFiles; "dotnet"; "sdk"; "NuGetFallbackFolder"])
       end
     else if String.eqb (os_platform h) "darwin"
          then Ok MacNuGetPackageFallbackFolderPath
          else Ok LinuxNuGetPackageFallbackFolderPath);
  let nugetFallbackVolume :=
    mkVolume fallbackPath
             (if win then "C:\.nuget\fallbackpackages" else "/root/.nuget/fallbackpackages")
             (Some ro) in
  let volumes := add volumes appVolume in
  let volumes := add volumes srcVolume in
  let volumes := add volumes debuggerVolume in
  let volumes := add volumes nugetVolume in
  let volumes := add volumes nugetFallbackVolume in
  if userSecrets || ssl then
    let hostSecretsFolders := getHostSecretsFolders h in
    let containerSecretsFolders := getContainerSecretsFolders h (os runOptions) in
    let userSecretsVolume :=
      mkVolume (userSecretsFolder hostSecretsFolders)
               (userSecretsFolder containerSecretsFolders) (Some ro) in
    let volumes := add volumes userSecretsVolume in
    if ssl then
      let certVolume :=
        mkVolume (certificateFolder hostSecretsFolders)
                 (certificateFolder containerSecretsFolders) (Some ro) in
      Ok (add volumes certVolume)
    else Ok volumes
  else Ok volumes.

(** [a || b ? x : y] parses as [(a || b) ? x : y]: the conditional
    operator binds weaker than [||]. *)
Definition entrypointOf (runOptions : DockerRunOptions) : string :=
  if Js.truthy (entrypoint runOptions) || isWindows (os runOptions)
  then "ping" else "tail".

Definition commandOf (runOptions : DockerRunOptions) : string :=
  if Js.truthy (command runOptions) || isWindows (os runOptions)
  then "-t localhost" else "-f /dev/null".

(** [ssl === true ? true : await this.inferUserSecrets(folder, helperOptions)] *)
Definition userSecretsOf (h : Host) (folder : WorkspaceFolder)
    (helperOptions : NetCoreTaskOptions) (ssl : bool) : result bool :=
  if ssl then Ok true else inferUserSecrets h folder helperOptions.

(** The block [if (userSecrets) { runOptions.env = ... }] *)
Definition envOf (runOptions : DockerRunOptions) (ssl userSecrets : bool) : option Dict.t :=
  if userSecrets then
    let env := Js.or_obj (env runOptions) [] in
    let env :=
      Dict.set env "ASPNETCORE_ENVIRONMENT"
        (Js.or_else (Dict.get env "ASPNETCORE_ENVIRONMENT") "Development") in
    if ssl then
      Some (Dict.set env "ASPNETCORE_URLS"
              (Js.or_else (Dict.get env "ASPNETCORE_URLS") "http://+:80;https://+:443"))
    else Some env
  else env runOptions.

Section WithCache.

Context {C : Type} `{TaskCache C}.

(** The options are mutated in place and returned; the helper options
    (whose [appProject] is assigned) and the cache are returned with
    them. *)
Definition resolveDockerBuildOptions (h : Host) (folder : WorkspaceFolder)
    (buildOptions : DockerBuildOptions) (helperOptions : option NetCoreTaskOptions)
    (cache : C) : result (DockerBuildOptions * NetCoreTaskOptions * C) :=
  let helperOptions := Js.or_obj helperOptions (mkNetCoreTaskOptions None None) in
  project ← inferAppProject h folder helperOptions;
  let helperOptions := mkNetCoreTaskOptions (Some project) (configureSsl helperOptions) in
  appName ← inferAppName h helperOptions;
  let newTag := Js.or_else (tag buildOptions) (appName +:+ ":dev") in
  let buildOptions :=
    {| args := args buildOptions;
       context := Some (Js.or_else (context buildOptions) "${workspaceFolder}");
       dockerfile := Some (Js.or_else (dockerfile buildOptions)
                             (path_join h ["${workspaceFolder}"; "Dockerfile"]));
       buildLabels := Some (Js.or_obj (buildLabels buildOptions) defaultLabels);
       tag := Some newTag;
       target := Some (Js.or_else (target buildOptions) "base");
       pull := pull buildOptions |} in
  let cache := cache_set cache project (mkCacheEntry (tag buildOptions) None None None) in
  Ok (buildOptions, helperOptions, cache).

Definition resolveDockerRunOptions (h : Host) (folder : WorkspaceFolder)
    (runOptions : DockerRunOptions) (helperOptions : option NetCoreTaskOptions)
    (cache : C) : result (DockerRunOptions * NetCoreTaskOptions * C) :=
  let helperOptions := Js.or_obj helperOptions (mkNetCoreTaskOptions None None) in
  project ← inferAppProject h folder helperOptions;
  let helperOptions := mkNetCoreTaskOptions (Some project) (configureSsl helperOptions) in
  let cached := cache_get cache project in
  appName ← inferAppName h helperOptions;
  let runOptions :=
    set_containerName runOptions
      (Some (Js.or_else (containerName runOptions) (appName +:+ "-dev"))) in
  let runOptions :=
    set_labels runOptions (Some (Js.or_obj (labels runOptions) defaultLabels)) in
  let runOptions := set_os runOptions (Some (Js.or_obj (os runOptions) Linux)) in
  let runOptions :=
    set_image runOptions
      (Some (Js.or_else (image runOptions)
               (Js.or_else (cached ≫= cachedImage) (appName +:+ ":dev")))) in
  let runOptions := set_entrypoint runOptions (Some (entrypointOf runOptions)) in
  let runOptions := set_command runOptions (Some (commandOf runOptions)) in
  ssl ← match configureSsl helperOptions with
        | Some b => Ok b
        | None => inferSsl h folder helperOptions
        end;
  userSecrets ← userSecretsOf h folder helperOptions ssl;
  let runOptions := set_env runOptions (envOf runOptions ssl userSecrets) in
  newVolumes ← inferVolumes h folder runOptions helperOptions ssl userSecrets;
  let runOptions := set_volumes runOptions (Some newVolumes) in
  let cache :=
    cache_update cache project
      (mkCacheEntry None (Some ssl) (containerName runOptions) (os runOptions)) in
  Ok (runOptions, helperOptions, cache).

End WithCache.

End NetCoreTaskHelper.

(** ** utils/commandLineBuilder and the build command line *)

Inductive ShellQuoting : Type := Escape | Strong.

Record ShellQuotedString : Type := mkToken {
  value : string;
  quoting : ShellQuoting
}.

Module CommandLineBuilder.

(** The arguments pushed so far. *)
Definition t : Type := list ShellQuotedString.

Definition escaped (s : string) : ShellQuotedString := mkToken s Escape.

(** Modelled from the spec: utils/commandLineBuilder.ts is imported by
    DockerBuildTaskProvider.ts but is not among the sources.  The
    specification (section 4.2) gives the grammar
    [build --rm [--pull] [-f dockerfile] [--build-arg k=v]* [--label k=v]*
     [-t tag] [--target stage] context]
    and says "Optional fields are omitted entirely (not passed as empty
    flags) when unset"; [{dockerfile: undefined}] yields no [-f] token and
    [{dockerfile: "Dockerfile"}] yields [-f Dockerfile]. *)
Definition create (words : list string) : t := map escaped words.

(** Modelled from the spec: a flag without argument is present when the
    boolean option is set to true. *)
Definition withFlagArg (name : string) (v : option bool) (b : t) : t :=
  match v with
  | Some true => b ++ [escaped name]
  | Some false | None => b
  end.

(** Modelled from the spec: the flag and its argument, or nothing. *)
Definition withNamedArg (name : string) (v : option string) (b : t) : t :=
  match v with
  | Some x => b ++ [escaped name; escaped x]
  | None => b
  end.

(** Modelled from the spec: one [name k=v] pair per entry, in the order of
    the entries. *)
Definition withKeyValueArgs (name : string) (vs : option Dict.t) (b : t) : t :=
  match vs with
  | Some d =>
      fold_left (fun b kv => b ++ [escaped name; escaped (fst kv +:+ "=" +:+ snd kv)]) d b
  | None => b
  end.

(** Modelled from the spec: the positional argument, quoted. *)
Definition withQuotedArg (v : option string) (b : t) : t :=
  match v with
  | Some x => b ++ [mkToken x Strong]
  | None => b
  end.

Definition buildShellQuotedStrings (b : t) : list ShellQuotedString := b.

End CommandLineBuilder.

Module DockerBuildTaskProvider.

Import CommandLineBuilder.

Local Notation "b |> f" := (f b) (at level 45, left associativity, only parsing).

Definition resolveCommandLine (options : DockerBuildOptions) : list ShellQuotedString :=
  create ["docker"; "build"; "--rm"]
    |> withFlagArg "--pull" (pull options)
    |> withNamedArg "-f" (dockerfile options)
    |> withKeyValueArgs "--build-arg" (args options)
    |> withKeyValueArgs "--label" (buildLabels options)
    |> withNamedArg "-t" (tag options)
    |> withNamedArg "--target" (target options)
    |> withQuotedArg (context options)
    |> buildShellQuotedStrings.

End DockerBuildTaskProvider.

(** ** tasks/python/PythonTaskHelper.ts: the volume and port lists *)

Module PythonTaskHelper.

Definition inferVolumes (runOptions : DockerRunOptions) (launcherFolder : string)
    : list DockerContainerVolume :=
  let volumes :=
    match volumes runOptions with
    | Some user => TaskHelper.addAll TaskHelper.addVolumeWithoutConflicts [] user
    | None => []
    end in
  let dbgVolume := mkVolume launcherFolder "/pydbg" (Some ro) in
  snd (TaskHelper.addVolumeWithoutConflicts volumes dbgVolume).

Definition inferPorts (runOptions : DockerRunOptions) : list DockerContainerPort :=
  let ports :=
    match ports runOptions with
    | Some user => TaskHelper.addAll TaskHelper.addPortWithoutConflicts [] user
    | None => []
    end in
  let dbgPort := mkPort 5678 (Some 5678%Z) in
  snd (TaskHelper.addPortWithoutConflicts ports dbgPort).

End PythonTaskHelper.

(** ** The later revision of tasks/netcore/NetCoreTaskHelper.ts: scaffolding *)

Inductive ImageTag : Type := dev | latest.

Definition tagName (t : ImageTag) : string :=
  match t with
  | dev => "dev"
  | latest => "latest"
  end.

Record DockerBuildTaskDefinition : Type := mkBuildTask {
  buildType : string;
  buildLabel : string;
  buildDependsOn : list string;
  dockerBuild : DockerBuildOptions;
  buildNetCore : option NetCoreTaskOptions
}.

Record DockerRunTaskDefinition : Type := mkRunTask {
  runType : string;
  runLabel : string;
  runDependsOn : list string;
  dockerRun : DockerRunOptions;
  runNetCore : option NetCoreTaskOptions
}.

Record NetCoreTaskScaffoldingOptions : Type := mkScaffoldingOptions {
  scaffoldAppProject : option string;
  platformOS : option PlatformOS
}.

Module NetCoreScaffolding.

(** Modelled from the spec: [getDefaultImageName] of tasks/TaskHelper.ts is
    imported by the helper but is not among the sources.  The
    specification describes the "default image tag derived from folder
    name plus a dev/latest suffix" and gives [myapp:dev] for the folder
    name [myapp]. *)
Definition getDefaultImageName (nameHint : string) (t : ImageTag) : string :=
  nameHint +:+ ":" +:+ tagName t.


Definition emptyRunOptions : DockerRunOptions :=
  mkRunOptions None None None None None None None None None None None None None.

(** [inferAppProject(folder)] without helper options: the quick pick. *)
Definition inferAppProject (h : Host) (folder : WorkspaceFolder) : result string :=
  quickPickProjectFileItem h folder
    "No .NET Core project file (.csproj or .fsproj) could be found.".


Definition provideDockerRunTasks (h : Host)
    (unresolveFilePath : string -> WorkspaceFolder -> string)
    (folder : WorkspaceFolder) (options : option NetCoreTaskScaffoldingOptions)
    : result (list DockerRunTaskDefinition) :=
  let options := Js.or_obj options (mkScaffoldingOptions None None) in
  project ← (if Js.truthy (scaffoldAppProject options)
             then Ok (Js.or_else (scaffoldAppProject options) "")
             else inferAppProject h folder);
  let platform := Js.or_obj (platformOS options) Linux in
  let win := match platform with Windows => true | Linux => false end in
  Ok [ mkRunTask "docker-run" "docker-run: debug" ["docker-build: debug"]
         (set_os
            (set_command
               (set_entrypoint emptyRunOptions (Some (if win then "ping" else "tail")))
               (Some (if win then "-t localhost" else "-f /dev/null")))
            (if win then Some Windows else None))
         (Some (mkNetCoreTaskOptions (Some (unresolveFilePath project folder)) None)) ].

(** [resolveDockerBuildOptions] of the later revision, for the folder of
    its context.  [getDefaultImageName(context.folder.name)] is called
    without a tag: the tag that it then takes is the parameter
    [defaultTag]. *)
Definition resolveDockerBuildOptions (defaultTag : ImageTag) (folder : WorkspaceFolder)
    (buildDefinition : DockerBuildTaskDefinition) : DockerBuildOptions :=
  let buildOptions := dockerBuild buildDefinition in
  mkBuildOptions (args buildOptions)
    (Some (Js.or_else (context buildOptions) "${workspaceFolder}"))
    (Some (Js.or_else (dockerfile buildOptions) "${workspaceFolder}/Dockerfile"))
    (Some (Js.or_obj (buildLabels buildOptions) NetCoreTaskHelper.defaultLabels))
    (Some (Js.or_else (tag buildOptions)
             (getDefaultImageName (folderName folder) defaultTag)))
    (target buildOptions) (pull buildOptions).

Record DockerRunTaskContext : Type := mkRunContext {
  contextFolder : WorkspaceFolder;
  buildDefinition : option DockerBuildTaskDefinition
}.

(** The helpers of tasks/TaskHelper.ts and utils/resolveFilePath.ts that the
    later revision imports; their files are not among the sources. *)
Record Imports : Type := mkImports {
  resolveFilePath : string -> WorkspaceFolder -> string;
  getDefaultContainerName : string -> string;
  inferImageName :
    DockerRunTaskDefinition -> DockerRunTaskContext -> string -> ImageTag -> string
}.

Definition inferAppProjectWith (h : Host) (im : Imports) (folder : WorkspaceFolder)
    (helperOptions : NetCoreTaskOptions) : result string :=
  match appProject helperOptions with
  | Some project =>
      if Js.truthy (Some project)
      then Ok (resolveFilePath im project folder)
      else inferAppProject h folder
  | None => inferAppProject h folder
  end.

Definition envOf (runOptions : DockerRunOptions) (ssl userSecrets : bool) : option Dict.t :=
  if userSecrets then
    let env := Js.or_obj (env runOptions) [] in
    let env :=
      Dict.set env "ASPNETCORE_ENVIRONMENT"
        (Js.or_else (Dict.get env "ASPNETCORE_ENVIRONMENT") "Development") in
    if ssl then
      Some (Dict.set env "ASPNETCORE_URLS"
              (Js.or_else (Dict.get env "ASPNETCORE_URLS") "https://+:443;http://+:80"))
    else Some env
  else env runOptions.

(** [runOptions] is [runDefinition.dockerRun] itself: what is assigned to
    it is seen by [inferImageName] through [runDefinition].  [inferSsl],
    [inferUserSecrets] and [inferVolumes] have the text of the earlier
    revision. *)
Definition resolveDockerRunOptions (h : Host) (im : Imports)
    (context : DockerRunTaskContext) (runDefinition : DockerRunTaskDefinition)
    : result DockerRunOptions :=
  let runOptions := dockerRun runDefinition in
  let helperOptions := Js.or_obj (runNetCore runDefinition) (mkNetCoreTaskOptions None None) in
  let folder := contextFolder context in
  project ← inferAppProjectWith h im folder helperOptions;
  let helperOptions := mkNetCoreTaskOptions (Some project) (configureSsl helperOptions) in
  let runOptions :=
    set_containerName runOptions
      (Some (Js.or_else (containerName runOptions)
               (getDefaultContainerName im (folderName folder)))) in
  let runOptions :=
    set_labels runOptions
      (Some (Js.or_obj (labels runOptions) NetCoreTaskHelper.defaultLabels)) in
  let runOptions := set_os runOptions (Some (Js.or_obj (os runOptions) Linux)) in
  let runDefinition :=
    mkRunTask (runType runDefinition) (runLabel runDefinition) (runDependsOn runDefinition)
      runOptions
      (match runNetCore runDefinition with
       | Some _ => Some helperOptions
       | None => None
       end) in
  let runOptions :=
    set_image runOptions
      (Some (inferImageName im runDefinition context (folderName folder) dev)) in
  ssl ← match configureSsl helperOptions with
        | Some b => Ok b
        | None => NetCoreTaskHelper.inferSsl h folder helperOptions
        end;
  userSecrets ← NetCoreTaskHelper.userSecretsOf h folder helperOptions ssl;
  let runOptions := set_env runOptions (envOf runOptions ssl userSecrets) in
  newVolumes ←
    NetCoreTaskHelper.inferVolumes h folder runOptions helperOptions ssl userSecrets;
  Ok (set_volumes runOptions (Some newVolumes)).

End NetCoreScaffolding.

(** ** debugging/DebugHelper.ts: adding a configuration to launch.json *)

Record DebugConfiguration : Type := mkDebugConfiguration {
  cfgName : string;
  cfgType : string;
  cfgRequest : string;
  cfgPreLaunchTask : option string;
  cfgPlatform : option string
}.

(** [workspace.getConfiguration('launch')]: the persisted [configurations]
    array, absent when launch.json has none. *)
Record WorkspaceLaunch : Type := mkLaunch {
  configurations : option (list DebugConfiguration)
}.

Module DebugHelper.

(** [workspaceLaunch.update('configurations', allConfigs)] persists the
    array; the write is taken to succeed (a rejection of the host would
    propagate to the caller). *)
Definition update_configurations (launch : WorkspaceLaunch)
    (allConfigs : list DebugConfiguration) : WorkspaceLaunch :=
  mkLaunch (Some allConfigs).

(** Returns the flag and the persisted configuration after the call. *)
Definition addDebugConfiguration (debugConfiguration : DebugConfiguration)
    (workspaceLaunch : WorkspaceLaunch) : bool * WorkspaceLaunch :=
  let allConfigs := Js.or_obj (configurations workspaceLaunch) [] in
  if existsb (fun c => String.eqb (cfgName c) (cfgName debugConfiguration)) allConfigs
  then (false, workspaceLaunch)
  else
    let allConfigs := allConfigs ++ [debugConfiguration] in
    (true, update_configurations workspaceLaunch allConfigs).

End DebugHelper.

(** ** debugging/DockerDebugConfigurationProvider.ts: removal of the
    container after the debug session *)

Record ResolvedDebugConfigurationOptions : Type := mkDockerOptions {
  containerNameToKill : option string;
  removeContainerAfterDebug : option bool
}.

Record ResolvedDebugConfiguration : Type := mkResolved {
  resolvedType : option string;
  resolvedRequest : option string;
  dockerOptions : option ResolvedDebugConfigurationOptions
}.

(** A listener registered with [debug.onDidTerminateDebugSession]: the
    disposable that removes it, and the container name of the resolved
    configuration its closure holds. *)
Record Listener : Type := mkListener {
  disposable : nat;
  watched : string
}.

(** The extension host as the provider sees it: the registered listeners,
    the next disposable to hand out, and the [removeContainer] calls made
    on the Docker client so far (oldest first). *)
Record DebugHost : Type := mkDebugHost {
  listeners : list Listener;
  nextDisposable : nat;
  removeCalls : list string
}.

Module DockerDebugConfigurationProvider.

Section WithClient.

(** [dockerClient.removeContainer(name, { force: true })] succeeds or
    throws; which one may depend on the calls made before. *)
Variable removeSucceeds : list string -> string -> bool.

Definition removeContainer (name : string) (host : DebugHost) : result DebugHost :=
  let host' := mkDebugHost (listeners host) (nextDisposable host)
                 (removeCalls host ++ [name]) in
  if removeSucceeds (removeCalls host) name
  then Ok host'
  else Err (Rejected "docker rm failed").

(** After a rejected call the call has still been made. *)
Definition afterFailedRemove (name : string) (host : DebugHost) : DebugHost :=
  mkDebugHost (listeners host) (nextDisposable host) (removeCalls host ++ [name]).

Definition dispose (d : nat) (host : DebugHost) : DebugHost :=
  mkDebugHost (List.filter (fun l => negb (Nat.eqb (disposable l) d)) (listeners host))
    (nextDisposable host) (removeCalls host).

Definition validateResolvedConfiguration (c : ResolvedDebugConfiguration) : result unit :=
  if negb (Js.truthy (resolvedType c)) then Err (Error "No debug type was resolved.")
  else if negb (Js.truthy (resolvedRequest c)) then Err (Error "No debug request was resolved.")
  else Ok tt.

(** The name for which cleanup is registered, when the guard of
    [registerRemoveContainerAfterDebugging] passes. *)
Definition cleanupName (c : ResolvedDebugConfiguration) : option string :=
  match dockerOptions c with
  | Some o =>
      match removeContainerAfterDebug o with
      | Some false => None
      | Some true | None =>
          if Js.truthy (containerNameToKill o) then containerNameToKill o else None
      end
  | None => None
  end.

Definition registerRemoveContainerAfterDebugging (c : ResolvedDebugConfiguration)
    (host : DebugHost) : DebugHost :=
  match cleanupName c with
  | Some name =>
      let host :=
        match removeContainer name host with
        | Ok host' => host'
        | Err _ => afterFailedRemove name host
        end in
      mkDebugHost (listeners host ++ [mkListener (nextDisposable host) name])
        (S (nextDisposable host)) (removeCalls host)
  | None => host
  end.

(** The callback given to [onDidTerminateDebugSession], for the
    session's configuration (absent when the session has none).  The
    callback is run to completion before the next one starts. *)
Definition onTerminate (l : Listener) (sessionConfiguration : option ResolvedDebugConfiguration)
    (host : DebugHost) : DebugHost :=
  match sessionConfiguration with
  | Some sc =>
      match dockerOptions sc with
      | Some o =>
          match containerNameToKill o with
          | Some n =>
              if String.eqb n (watched l) then
                match removeContainer (watched l) host with
                | Ok host' => dispose (disposable l) host'
                | Err _ => dispose (disposable l) (afterFailedRemove (watched l) host)
                end
              else host
          | None => host
          end
      | None => host
      end
  | None => host
  end.

(** The event is delivered to the listeners registered when it fires. *)
Definition fireDidTerminateDebugSession
    (sessionConfiguration : option ResolvedDebugConfiguration) (host : DebugHost) : DebugHost :=
  fold_left (fun host l => onTerminate l sessionConfiguration host) (listeners host) host.

End WithClient.

End DockerDebugConfigurationProvider.

(** ** debugging/coreclr/dockerNetCoreDebugConfigurationProvider.ts *)

Module CoreClr.

Record DockerDebugBuildOptions : Type := mkDebugBuild {
  args : option Dict.t;
  context : option string;
  dockerfile : option string;
  labels : option Dict.t;
  tag : option string;
  target : option string
}.

Record DockerDebugRunOptions : Type := mkDebugRun {
  containerName : option string;
  env : option Dict.t;
  envFiles : option (list string);
  extraHosts : option (list (string * string));
  runLabels : option Dict.t;
  network : option string;
  networkAlias : option string;
  os : option PlatformOS;
  ports : option (list DockerContainerPort);
  volumes : option (list DockerContainerVolume)
}.

Record DockerDebugConfiguration : Type := mkDebugConfig {
  name : string;
  preLaunchTask : option string;
  appFolder : option string;
  appOutput : option string;
  appProject : option string;
  dockerBuild : option DockerDebugBuildOptions;
  dockerRun : option DockerDebugRunOptions;
  configureAspNetCoreSsl : option bool
}.

Record LaunchBuildOptions : Type := mkLaunchBuild {
  launchArgs : option Dict.t;
  launchContext : string;
  launchDockerfile : string;
  launchLabels : Dict.t;
  launchTag : string;
  launchTarget : string
}.

Record LaunchRunOptions : Type := mkLaunchRun {
  launchContainerName : string;
  launchEnv : option Dict.t;
  launchEnvFiles : option (list string);
  launchExtraHosts : option (list (string * string));
  launchRunLabels : Dict.t;
  launchNetwork : option string;
  launchNetworkAlias : option string;
  launchOs : PlatformOS;
  launchPorts : option (list DockerContainerPort);
  launchVolumes : list DockerContainerVolume;
  launchConfigureAspNetCoreSsl : bool;
  launchConfigureDotNetUserSecrets : option bool    (* [undefined] when not inferred *)
}.

Record LaunchOptions : Type := mkLaunchOptions {
  launchAppFolder : string;
  launchAppOutput : string;
  launchAppProject : string;
  build : LaunchBuildOptions;
  run : LaunchRunOptions
}.

Record LaunchResult : Type := mkLaunchResult {
  browserUrl : option string;
  debuggerPath : string;
  pipeArgs : list string;
  pipeCwd : string;
  pipeProgram : string;
  program : string;
  programArgs : list string;
  programCwd : string;
  programEnv : Dict.t
}.

Record BrowserOptions : Type := mkBrowser {
  browserEnabled : bool;
  browserArgs : option string;
  windowsCommand : option (string * string);
  osxCommand : option string;
  linuxCommand : option string
}.

Record ResolvedConfiguration : Type := mkConfiguration {
  outName : string;
  outType : string;
  outRequest : string;
  outProgram : string;
  outArgs : string;
  outCwd : string;
  outEnv : Dict.t;
  launchBrowser : BrowserOptions;
  pipeTransport : LaunchResult;      (* pipeCwd, pipeProgram, pipeArgs, debuggerPath *)
  outPreLaunchTask : option string;
  sourceFileMap : Dict.t
}.

(** The collaborators handed to the provider's constructor, and
    [resolveFilePath] of utils/resolveFilePath; none of them is among the
    sources. *)
Record Services : Type := mkServices {
  dirExists : string -> bool;
  fileExists : string -> bool;
  readDir : string -> result (list string);
  readFile : string -> result string;
  pathNormalize : PlatformOS -> string -> string;
  getTargetPath : string -> result string;
  checkPrerequisite : LaunchOptions -> result bool;
  prepareForLaunch : LaunchOptions -> result LaunchResult;
  resolveFilePath : string -> WorkspaceFolder -> string
}.

Definition defaultLabels : Dict.t :=
  [("com.microsoft.created-by", "visual-studio-code")].

Definition appFolderMissing (resolvedAppFolder : string) : string :=
  "The application folder '" +:+ resolvedAppFolder +:+
  "' does not exist. Ensure that the 'appFolder' or 'appProject' property is set correctly in the Docker debug configuration.".

Definition appProjectNotInferred : string :=
  "Unable to infer the application project file. Set either the 'appFolder' or 'appProject' property in the Docker debug configuration.".

Definition appProjectMissing (resolvedAppProject : string) : string :=
  "The application project file '" +:+ resolvedAppProject +:+
  "' does not exist. Ensure that the 'appFolder' or 'appProject' property is set correctly in the Docker debug configuration.".

Definition contextMissing (resolvedContext : string) : string :=
  "The context folder '" +:+ resolvedContext +:+
  "' does not exist. Ensure that the 'context' property is set correctly in the Docker debug configuration.".

Definition dockerfileMissing (dockerfile : string) : string :=
  "The Dockerfile '" +:+ dockerfile +:+
  "' does not exist. Ensure that the 'dockerfile' property is set correctly in the Docker debug configuration.".

Section WithServices.

Variable h : Host.
Variable sv : Services.

(** [c && c.dockerBuild && c.dockerBuild.f], truthy or not *)
Definition buildField (f : DockerDebugBuildOptions -> option string)
    (configuration : DockerDebugConfiguration) : option string :=
  match dockerBuild configuration with
  | Some b => if Js.truthy (f b) then f b else None
  | None => None
  end.

Definition inferAppFolder (folder : WorkspaceFolder)
    (configuration : DockerDebugConfiguration) : result (string * string) :=
  let appFolder :=
    if Js.truthy (appFolder configuration)
    then Js.or_else (appFolder configuration) ""
    else if Js.truthy (appProject configuration)
         then path_dirname h (Js.or_else (appProject configuration) "")
         else fsPath folder in
  let resolvedAppFolder := resolveFilePath sv appFolder folder in
  if negb (dirExists sv resolvedAppFolder)
  then Err (Error (appFolderMissing resolvedAppFolder))
  else Ok (appFolder, resolvedAppFolder).

Definition isProjectFile (file : string) : bool :=
  existsb (String.eqb (path_extname h file)) [".csproj"; ".fsproj"].

Definition inferAppProject (folder : WorkspaceFolder)
    (configuration : DockerDebugConfiguration) (resolvedAppFolder : string)
    : result (string * string) :=
  appProject ←
    (if Js.truthy (appProject configuration)
     then Ok (appProject configuration)
     else
       files ← readDir sv resolvedAppFolder;
       match List.find isProjectFile files with
       | Some projectFile =>
           if Js.truthy (Some projectFile)
           then Ok (Some (path_join h [resolvedAppFolder; projectFile]))
           else Ok None
       | None => Ok None
       end);
  match appProject with
  | None => Err (Error appProjectNotInferred)
  | Some appProject =>
      let resolvedAppProject := resolveFilePath sv appProject folder in
      if negb (fileExists sv resolvedAppProject)
      then Err (Error (appProjectMissing resolvedAppProject))
      else Ok (appProject, resolvedAppProject)
  end.

Definition inferAppOutput (configuration : DockerDebugConfiguration)
    (targetOS : PlatformOS) (resolvedAppProject : string) : result string :=
  if Js.truthy (appOutput configuration)
  then Ok (Js.or_else (appOutput configuration) "")
  else
    targetPath ← getTargetPath sv resolvedAppProject;
    Ok (pathNormalize sv targetOS
          (path_relative h (path_dirname h resolvedAppProject) targetPath)).

Definition inferContext (folder : WorkspaceFolder) (resolvedAppFolder : string)
    (configuration : DockerDebugConfiguration) : result string :=
  let context :=
    match buildField context configuration with
    | Some c => c
    | None =>
        if String.eqb (path_normalize h resolvedAppFolder) (path_normalize h (fsPath folder))
        then resolvedAppFolder
        else path_dirname h resolvedAppFolder
    end in
  let resolvedContext := resolveFilePath sv context folder in
  if negb (dirExists sv resolvedContext)
  then Err (Error (contextMissing resolvedContext))
  else Ok resolvedContext.

Definition inferDockerfile (folder : WorkspaceFolder) (resolvedAppFolder : string)
    (configuration : DockerDebugConfiguration) : result string :=
  let dockerfile :=
    match buildField dockerfile configuration with
    | Some d => d
    | None => path_join h [resolvedAppFolder; "Dockerfile"]
    end in
  let dockerfile := resolveFilePath sv dockerfile folder in
  if negb (fileExists sv dockerfile)
  then Err (Error (dockerfileMissing dockerfile))
  else Ok dockerfile.

(** The body of the [try] block of [inferSsl]. *)
Definition inferSsl_try (projectFile : string) : result bool :=
  let launchSettingsPath :=
    path_join h [path_dirname h projectFile; "Properties"; "launchSettings.json"] in
  if fileExists sv launchSettingsPath then
    launchSettings ← fse_readJson h launchSettingsPath;
    if Json.truthy launchSettings then
      profiles ← Json.getProp launchSettings "profiles";
      if Json.truthy profiles then
        values ← Json.objectValues profiles;
        projectProfile ←
          Json.find (fun p =>
                       name ← Json.getProp p "commandName";
                       Ok match name with
                          | Json.VStr n => String.eqb n "Project"
                          | _ => false
                          end) values;
        if Json.truthy projectProfile then
          applicationUrl ← Json.getProp projectProfile "applicationUrl";
          Ok (Json.truthy applicationUrl
              && NetCoreTaskHelper.httpsRegex_test (Json.toString applicationUrl))
        else Ok false
      else Ok false
    else Ok false
  else Ok false.

Definition inferSsl (debugConfiguration : DockerDebugConfiguration)
    (projectFile : string) : result bool :=
  match configureAspNetCoreSsl debugConfiguration with
  | Some b => Ok b
  | None => try_catch (inferSsl_try projectFile) (fun _ => Ok false)
  end.

(** Falls off the end, returning [undefined], when the file is absent. *)
Definition inferUserSecrets (ssl : bool) (projectFile : string) : result (option bool) :=
  if ssl then Ok (Some true)
  else if fileExists sv projectFile then
    contents ← readFile sv projectFile;
    Ok (Some (NetCoreTaskHelper.UserSecretsRegex_test contents))
  else Ok None.

Definition inferBuildOptions (folder : WorkspaceFolder)
    (debugConfiguration : DockerDebugConfiguration)
    (appFolder resolvedAppFolder appName : string) : result LaunchBuildOptions :=
  resolvedContext ← inferContext folder resolvedAppFolder debugConfiguration;
  dockerfile ← inferDockerfile folder resolvedAppFolder debugConfiguration;
  let args := dockerBuild debugConfiguration ≫= args in
  let labels := Js.or_obj (dockerBuild debugConfiguration ≫= labels) defaultLabels in
  let tag :=
    match buildField tag debugConfiguration with
    | Some t => t
    | None => Str.toLowerCase appName +:+ ":dev"
    end in
  let target :=
    match buildField target debugConfiguration with
    | Some t => t
    | None => "base"
    end in
  Ok (mkLaunchBuild args resolvedContext dockerfile labels tag target).

Definition inferVolumes (folder : WorkspaceFolder)
    (dockerRun : option DockerDebugRunOptions) : list DockerContainerVolume :=
  match dockerRun ≫= volumes with
  | Some vs =>
      map (fun volume =>
             mkVolume (resolveFilePath sv (localPath volume) folder)
               (containerPath volume) (permissions volume)) vs
  | None => []
  end.

Definition inferRunOptions (folder : WorkspaceFolder)
    (debugConfiguration : DockerDebugConfiguration) (appName : string)
    (os : PlatformOS) (ssl : bool) (userSecrets : option bool) : LaunchRunOptions :=
  let dockerRun :=
    Js.or_obj (dockerRun debugConfiguration)
      (mkDebugRun None None None None None None None None None None) in
  let envFiles :=
    match envFiles dockerRun with
    | Some files => Some (map (fun file => resolveFilePath sv file folder) files)
    | None => None
    end in
  let env :=
    if ssl || Js.or_obj userSecrets false then
      let env := Js.or_obj (env dockerRun) [] in
      let env :=
        Dict.set env "ASPNETCORE_ENVIRONMENT"
          (Js.or_else (Dict.get env "ASPNETCORE_ENVIRONMENT") "Development") in
      if ssl then
        Some (Dict.set env "ASPNETCORE_URLS"
                (Js.or_else (Dict.get env "ASPNETCORE_URLS") "http://+:80;https://+:443"))
      else Some env
    else env dockerRun in
  mkLaunchRun
    (Js.or_else (containerName dockerRun) (appName +:+ "-dev"))
    env envFiles (extraHosts dockerRun)
    (Js.or_obj (runLabels dockerRun) defaultLabels)
    (network dockerRun) (networkAlias dockerRun) os (ports dockerRun)
    (inferVolumes folder (Some dockerRun))
    ssl userSecrets.

Definition createLaunchBrowserConfiguration (result : LaunchResult) : BrowserOptions :=
  if Js.truthy (browserUrl result) then
    let url := Js.or_else (browserUrl result) "" in
    mkBrowser true (Some url) (Some ("cmd.exe", "/C start " +:+ url))
      (Some "open") (Some "xdg-open")
  else mkBrowser false None None None None.

Definition join_spaces (parts : list string) : string :=
  match parts with
  | [] => EmptyString
  | p :: rest => fold_left (fun acc q => acc +:+ " " +:+ q) rest p
  end.

Definition createConfiguration (debugConfiguration : DockerDebugConfiguration)
    (appFolder : string) (result : LaunchResult) : ResolvedConfiguration :=
  mkConfiguration (name debugConfiguration) "coreclr" "launch"
    (program result) (join_spaces (programArgs result)) (programCwd result)
    (programEnv result) (createLaunchBrowserConfiguration result) result
    (preLaunchTask debugConfiguration)
    [("/app/Views", path_join h [appFolder; "Views"])].

(** [undefined] is returned when the prerequisite check declines.  The
    assignments of [inferRunOptions] to [debugConfiguration.dockerRun]
    are not read again: [createConfiguration] uses the name and the
    pre-launch task only. *)
Definition resolveDockerDebugConfiguration (folder : option WorkspaceFolder)
    (debugConfiguration : DockerDebugConfiguration)
    : result (option ResolvedConfiguration) :=
  match folder with
  | None => Err (Error "No workspace folder is associated with debugging.")
  | Some folder =>
      '(appFolder, resolvedAppFolder) ← inferAppFolder folder debugConfiguration;
      '(_, resolvedAppProject) ← inferAppProject folder debugConfiguration resolvedAppFolder;
      let appName := path_parse_name h resolvedAppProject in
      let os := Js.or_obj (dockerRun debugConfiguration ≫= os) Linux in
      appOutput ← inferAppOutput debugConfiguration os resolvedAppProject;
      ssl ← inferSsl debugConfiguration resolvedAppProject;
      userSecrets ← inferUserSecrets ssl resolvedAppProject;
      buildOptions ←
        inferBuildOptions folder debugConfiguration appFolder resolvedAppFolder appName;
      let runOptions :=
        inferRunOptions folder debugConfiguration appName os ssl userSecrets in
      let launchOptions :=
        mkLaunchOptions resolvedAppFolder appOutput resolvedAppProject
          buildOptions runOptions in
      prerequisiteSatisfied ← checkPrerequisite sv launchOptions;
      if negb prerequisiteSatisfied then Ok None
      else
        result ← prepareForLaunch sv launchOptions;
        Ok (Some (createConfiguration debugConfiguration appFolder result))
  end.

End WithServices.

End CoreClr.

(** ** A concrete host, for running the resolvers on examples *)

Module Sample.

Definition slash : ascii := "/"%char.
Definition dot : ascii := "."%char.

(** The part after the last [/] and, when there is a [/], the part
    before it. *)
Fixpoint split_last (s : string) : option string * string :=
  match s with
  | EmptyString => (None, EmptyString)
  | String c s' =>
      match split_last s' with
      | (Some d, b) => (Some (String c d), b)
      | (None, b) =>
          if Ascii.eqb c slash then (Some EmptyString, b) else (None, String c b)
      end
  end.

Definition dirname (p : string) : string :=
  match fst (split_last p) with
  | None => "."
  | Some EmptyString => "/"
  | Some d => d
  end.

Definition basename (p : string) : string := snd (split_last p).

(** The base name up to its last dot, when that dot is not its first
    character; the base name otherwise. *)
Fixpoint strip_ext (first : bool) (b : string) : option string :=
  match b with
  | EmptyString => None
  | String c b' =>
      match strip_ext false b' with
      | Some n => Some (String c n)
      | None => if Ascii.eqb c dot && negb first then Some EmptyString else None
      end
  end.

Definition parse_name (p : string) : string :=
  let b := basename p in
  match strip_ext true b with
  | Some n => n
  | None => b
  end.

Definition extname (p : string) : string :=
  let b := basename p in
  match strip_ext true b with
  | Some n => substring (String.length n) (String.length b - String.length n) b
  | None => EmptyString
  end.

Definition join (parts : list string) : string :=
  match parts with
  | [] => "."
  | p :: rest => fold_left (fun acc q => acc +:+ "/" +:+ q) rest p
  end.

Definition projectPath : string := "/ws/myapp/WebApi.csproj".

Definition projectText : string :=
  "<Project Sdk='Microsoft.NET.Sdk.Web'><PropertyGroup><TargetFramework>netcoreapp2.2</TargetFramework></PropertyGroup></Project>".

(** A Linux machine with one workspace folder [/ws/myapp] that holds
    [WebApi.csproj] and no launch settings. *)
Definition host : Host :=
  {| path_dirname := dirname;
     path_join := join;
     path_parse_name := parse_name;
     path_extname := extname;
     path_normalize := fun p => p;
     path_relative := fun _ to => to;
     os_platform := "linux";
     os_homedir := "/home/dev";
     process_env_ProgramFiles := None;
     fse_pathExists := fun p => String.eqb p projectPath;
     fse_readJson := fun _ => Err (Rejected "ENOENT");
     fse_readFile := fun p =>
       if String.eqb p projectPath then Ok projectText else Err (Rejected "ENOENT");
     quickPickProjectFileItem := fun _ msg => Err (Error msg);
     getHostDebuggerPathBase := "/home/dev/.vsdbg";
     getHostSecretsFolders :=
       mkSecretsFolders "/home/dev/.aspnet/https" "/home/dev/.microsoft/usersecrets";
     getContainerSecretsFolders := fun _ =>
       mkSecretsFolders "/root/.aspnet/https" "/root/.microsoft/usersecrets" |}.

Definition folder : WorkspaceFolder := mkFolder "/ws/myapp" "myapp".

Definition helperOptions : NetCoreTaskOptions :=
  mkNetCoreTaskOptions (Some "${workspaceFolder}/WebApi.csproj") None.

(** A [TaskCache] kept in a finite map from project paths. *)
Definition merge (old new : CacheEntry) : CacheEntry :=
  mkCacheEntry
    (match cachedImage new with Some x => Some x | None => cachedImage old end)
    (match cachedConfigureSsl new with Some x => Some x | None => cachedConfigureSsl old end)
    (match cachedContainerName new with Some x => Some x | None => cachedContainerName old end)
    (match cachedOs new with Some x => Some x | None => cachedOs old end).

#[global] Instance mapCache : TaskCache (gmap string CacheEntry) :=
  {| cache_get := fun c k => c !! k;
     cache_set := fun c k v => <[k := v]> c;
     cache_update := fun c k v =>
       match c !! k with
       | Some old => <[k := merge old v]> c
       | None => <[k := v]> c
       end |}.

Definition services : CoreClr.Services :=
  {| CoreClr.dirExists := fun p => String.eqb p "/ws/myapp";
     CoreClr.fileExists := fun p => String.eqb p projectPath;
     CoreClr.readDir := fun p =>
       if String.eqb p "/ws/myapp" then Ok ["README.md"; "Dockerfile"]
       else Err (Rejected "ENOENT");
     CoreClr.readFile := fun p =>
       if String.eqb p projectPath then Ok projectText else Err (Rejected "ENOENT");
     CoreClr.pathNormalize := fun _ p => p;
     CoreClr.getTargetPath := fun _ => Ok "/ws/myapp/bin/Debug/netcoreapp2.2/WebApi.dll";
     CoreClr.checkPrerequisite := fun _ => Ok true;
     CoreClr.prepareForLaunch := fun _ => Err (Rejected "docker build failed");
     CoreClr.resolveFilePath := fun p folder =>
       NetCoreTaskHelper.resolveWorkspaceFolderPath folder p |}.

End Sample.

(** ** Vocabulary of the statements *)

(** The configurations that launch.json holds. *)
Definition persisted (launch : WorkspaceLaunch) : list DebugConfiguration :=
  match configurations launch with
  | Some cs => cs
  | None => []
  end.

Definition attachNode : DebugConfiguration :=
  mkDebugConfiguration "Docker Node.js Launch and Attach" "docker" "launch"
    (Some "docker-run: debug") (Some "node").

Definition launchPython : DebugConfiguration :=
  mkDebugConfiguration "Docker Python Launch and Attach" "docker" "launch"
    (Some "docker-run: debug") (Some "python").

(** The grammar of section 4.2 of the specification:
    [build --rm [--pull] [-f dockerfile] [--build-arg k=v]* [--label k=v]*
     [-t tag] [--target stage] context]. *)
Definition flag (name : string) (v : option bool) : list string :=
  match v with
  | Some true => [name]
  | _ => []
  end.

Definition optional (name : string) (v : option string) : list string :=
  match v with
  | Some x => [name; x]
  | None => []
  end.

Definition repeated (name : string) (d : option Dict.t) : list string :=
  match d with
  | Some kvs => flat_map (fun kv => [name; fst kv +:+ "=" +:+ snd kv]) kvs
  | None => []
  end.

(** The container that a terminated session's configuration names. *)
Definition sessionName (sessionConfiguration : option ResolvedDebugConfiguration)
    : option string :=
  (sessionConfiguration ≫= dockerOptions) ≫= containerNameToKill.

(** Disposables are handed out once: the registered listeners have distinct
    disposables, all below the next one. *)
Definition well_formed (host : DebugHost) : Prop :=
  List.NoDup (map disposable (listeners host)) /\
  Forall (fun l => disposable l < nextDisposable host) (listeners host).

Definition watches (n : string) (l : Listener) : bool := String.eqb n (watched l).

Definition freshHost : DebugHost := mkDebugHost [] 0 [].

Definition resolvedFor (n : string) : ResolvedDebugConfiguration :=
  mkResolved (Some "coreclr") (Some "launch") (Some (mkDockerOptions (Some n) None)).

(** [contents] holds the token [pat] written in some character case. *)
Definition has_token (pat contents : string) : Prop :=
  exists pre tok post,
    contents = pre +:+ tok +:+ post /\ Str.toLowerCase tok = Str.toLowerCase pat.

(** The sample host, with a project file that declares user secrets. *)
Definition secretsText : string :=
  "<PropertyGroup><usersecretsid>6c1f</usersecretsid></PropertyGroup>".

Definition secretsHost : Host :=
  mkHost Sample.dirname Sample.join Sample.parse_name Sample.extname (fun p => p)
    (fun _ to => to) "linux" "/home/dev" None (fun _ => false)
    (fun _ => Err (Rejected "ENOENT"))
    (fun p => if String.eqb p Sample.projectPath then Ok secretsText
              else Err (Rejected "ENOENT"))
    (fun _ msg => Err (Error msg)) "/home/dev/.vsdbg"
    (getHostSecretsFolders Sample.host) (getContainerSecretsFolders Sample.host).

(** The launch settings next to a project file. *)
Definition launchSettingsPath (h : Host) (project : string) : string :=
  path_join h [path_dirname h project; "Properties"; "launchSettings.json"].

(** The launch settings hold a profile whose command is [Project] and
    whose application URL, read as a string, mentions [https://]. *)
Definition https_project_profile (launchSettings : Json.value) : Prop :=
  exists profiles values p url,
    Json.getProp launchSettings "profiles" = Ok profiles /\
    Json.objectValues profiles = Ok values /\
    In p values /\
    Json.getProp p "commandName" = Ok (Json.VStr "Project") /\
    Json.getProp p "applicationUrl" = Ok url /\
    NetCoreTaskHelper.httpsRegex_test (Json.toString url) = true.

(** What both [inferSsl] functions do with the settings they have read. *)
Definition sslOfSettings (launchSettings : Json.value) : result bool :=
  if Json.truthy launchSettings then
    profiles ← Json.getProp launchSettings "profiles";
    if Json.truthy profiles then
      values ← Json.objectValues profiles;
      projectProfile ←
        Json.find (fun p =>
                     name ← Json.getProp p "commandName";
                     Ok match name with
                        | Json.VStr n => String.eqb n "Project"
                        | _ => false
                        end) values;
      if Json.truthy projectProfile then
        applicationUrl ← Json.getProp projectProfile "applicationUrl";
        Ok (Json.truthy applicationUrl
            && NetCoreTaskHelper.httpsRegex_test (Json.toString applicationUrl))
      else Ok false
    else Ok false
  else Ok false.

(** The sample host, with launch settings that cannot be parsed. *)
Definition brokenSettingsHost : Host :=
  mkHost Sample.dirname Sample.join Sample.parse_name Sample.extname (fun p => p)
    (fun _ to => to) "linux" "/home/dev" None (fun _ => true)
    (fun _ => Err (Rejected "Unexpected token in JSON"))
    (fse_readFile Sample.host)
    (fun _ msg => Err (Error msg)) "/home/dev/.vsdbg"
    (getHostSecretsFolders Sample.host) (getContainerSecretsFolders Sample.host).

(** Run options in which the user has chosen the entry point and the
    command. *)
Definition userRunOptions : DockerRunOptions :=
  set_command (set_entrypoint NetCoreScaffolding.emptyRunOptions (Some "dotnet"))
    (Some "WebApi.dll").

Definition emptyCache : gmap string CacheEntry := ∅.

(** The run options that a resolution returns. *)
Definition resolvedRunOptions {C : Type}
    (r : result (DockerRunOptions * NetCoreTaskOptions * C)) : option DockerRunOptions :=
  match r with
  | Ok (runOptions, _, _) => Some runOptions
  | Err _ => None
  end.


(** Resolving, and resolving the result again with the helper options and
    the cache that the first resolution left. *)
Definition resolveTwice {C : Type} `{TaskCache C} (h : Host) (folder : WorkspaceFolder)
    (runOptions : DockerRunOptions) (helperOptions : option NetCoreTaskOptions) (cache : C)
    : result (DockerRunOptions * NetCoreTaskOptions * C) :=
  '(runOptions, helperOptions, cache) ←
    NetCoreTaskHelper.resolveDockerRunOptions h folder runOptions helperOptions cache;
  NetCoreTaskHelper.resolveDockerRunOptions h folder runOptions (Some helperOptions) cache.

Definition sampleDebugConfiguration : CoreClr.DockerDebugConfiguration :=
  CoreClr.mkDebugConfig "Docker .NET Core Launch" None None None None None None None.

(** [message] names [part]: it holds it, letter for letter. *)
Definition names (message part : string) : Prop :=
  exists before after, message = before +:+ part +:+ after.

(** The same as a test. *)
Fixpoint mentions (part message : string) : bool :=
  String.prefix part message ||
  match message with
  | EmptyString => false
  | String _ rest => mentions part rest
  end.

(** The paths that the debug configuration provider looks for. *)
Definition appFolderOf (h : Host) (folder : WorkspaceFolder)
    (configuration : CoreClr.DockerDebugConfiguration) : string :=
  if Js.truthy (CoreClr.appFolder configuration)
  then Js.or_else (CoreClr.appFolder configuration) ""
  else if Js.truthy (CoreClr.appProject configuration)
       then path_dirname h (Js.or_else (CoreClr.appProject configuration) "")
       else fsPath folder.

Definition resolvedAppFolderOf (h : Host) (sv : CoreClr.Services) (folder : WorkspaceFolder)
    (configuration : CoreClr.DockerDebugConfiguration) : string :=
  CoreClr.resolveFilePath sv (appFolderOf h folder configuration) folder.

Definition contextOf (h : Host) (sv : CoreClr.Services) (folder : WorkspaceFolder)
    (configuration : CoreClr.DockerDebugConfiguration) : string :=
  let resolvedAppFolder := resolvedAppFolderOf h sv folder configuration in
  CoreClr.resolveFilePath sv
    match CoreClr.buildField CoreClr.context configuration with
    | Some c => c
    | None =>
        if String.eqb (path_normalize h resolvedAppFolder) (path_normalize h (fsPath folder))
        then resolvedAppFolder
        else path_dirname h resolvedAppFolder
    end folder.

Definition dockerfileOf (h : Host) (sv : CoreClr.Services) (folder : WorkspaceFolder)
    (configuration : CoreClr.DockerDebugConfiguration) : string :=
  CoreClr.resolveFilePath sv
    match CoreClr.buildField CoreClr.dockerfile configuration with
    | Some d => d
    | None => path_join h [resolvedAppFolderOf h sv folder configuration; "Dockerfile"]
    end folder.

Definition targetOsOf (configuration : CoreClr.DockerDebugConfiguration) : PlatformOS :=
  Js.or_obj (CoreClr.dockerRun configuration ≫= CoreClr.os) Linux.

(** The steps between the project file and the build options: the output
    path, SSL and user secrets. *)
Definition middleSteps (h : Host) (sv : CoreClr.Services)
    (configuration : CoreClr.DockerDebugConfiguration) (resolvedAppProject : string)
    : result (string * bool * option bool) :=
  appOutput ←
    CoreClr.inferAppOutput h sv configuration (targetOsOf configuration) resolvedAppProject;
  ssl ← CoreClr.inferSsl h sv configuration resolvedAppProject;
  userSecrets ← CoreClr.inferUserSecrets sv ssl resolvedAppProject;
  Ok (appOutput, ssl, userSecrets).

(** The volumes that [NetCoreTaskHelper.inferVolumes] adds after the
    user's, in the order it adds them. *)
Definition defaultVolumes (h : Host) (folder : WorkspaceFolder) (os : option PlatformOS)
    (helperOptions : NetCoreTaskOptions) (ssl userSecrets : bool)
    : result (list DockerContainerVolume) :=
  project ← match appProject helperOptions with
            | Some p => Ok p
            | None => Err (TypeError "The path argument must be of type string")
            end;
  let win := NetCoreTaskHelper.isWindows os in
  fallbackPath ←
    (if String.eqb (os_platform h) "win32" then
       match process_env_ProgramFiles h with
       | None => Err (Error "The environment variable 'ProgramFiles' is not defined. This variable is used to locate the NuGet fallback folder.")
       | Some programFiles =>
           Ok (path_join h [programFiles; "dotnet"; "sdk"; "NuGetFallbackFolder"])
       end
     else if String.eqb (os_platform h) "darwin"
          then Ok NetCoreTaskHelper.MacNuGetPackageFallbackFolderPath
          else Ok NetCoreTaskHelper.LinuxNuGetPackageFallbackFolderPath);
  Ok ([ mkVolume (path_dirname h project) (if win then "C:\app" else "/app") (Some rw);
        mkVolume (fsPath folder) (if win then "C:\src" else "/src") (Some rw);
        mkVolume (getHostDebuggerPathBase h)
          (if win then "C:\remote_debugger" else "/remote_debugger") (Some ro);
        mkVolume (path_join h [os_homedir h; ".nuget"; "packages"])
          (if win then "C:\.nuget\packages" else "/root/.nuget/packages") (Some ro);
        mkVolume fallbackPath
          (if win then "C:\.nuget\fallbackpackages" else "/root/.nuget/fallbackpackages")
          (Some ro) ]
      ++ (if userSecrets || ssl
          then mkVolume (userSecretsFolder (getHostSecretsFolders h))
                 (userSecretsFolder (getContainerSecretsFolders h os)) (Some ro)
               :: (if ssl
                   then [mkVolume (certificateFolder (getHostSecretsFolders h))
                           (certificateFolder (getContainerSecretsFolders h os)) (Some ro)]
                   else [])
          else [])).

(** ** Vocabulary of the further properties *)

(** The first volume of a list that maps the container path [p]. *)
Definition volumeAt (p : string) (vs : list DockerContainerVolume)
    : option DockerContainerVolume :=
  List.find (fun v => String.eqb (containerPath v) p) vs.

(** Run options with two volumes for the same container path. *)
Definition clashingRunOptions : DockerRunOptions :=
  set_volumes NetCoreScaffolding.emptyRunOptions
    (Some [mkVolume "/data/site" "/app" (Some ro);
           mkVolume "/data/other" "/app" (Some rw);
           mkVolume "/data/logs" "/logs" (Some rw)]).

Definition resolvedHelperOptions : NetCoreTaskOptions :=
  mkNetCoreTaskOptions (Some Sample.projectPath) None.

(** The steps of [NetCoreTaskHelper.resolveDockerRunOptions] that ask the
    host, and what they returned. *)
Record RunResolution : Type := mkRunResolution {
  resolvedProject : string;
  resolvedAppName : string;
  resolvedSsl : bool;
  resolvedUserSecrets : bool;
  resolvedDefaults : list DockerContainerVolume
}.

(** A task cache gives back what was stored under a key. *)
Definition cache_keeps {C : Type} `{TaskCache C} : Prop :=
  forall (c : C) (k : string) (v : CacheEntry), cache_get (cache_set c k v) k = Some v.

(** Run options that carry the user's environment. *)
Definition envRunOptions : DockerRunOptions :=
  set_env NetCoreScaffolding.emptyRunOptions
    (Some [("LOG_LEVEL", "debug"); ("ASPNETCORE_ENVIRONMENT", "Staging")]).

(** Run options that name the container and the image. *)
Definition namedRunOptions : DockerRunOptions :=
  set_image (set_containerName NetCoreScaffolding.emptyRunOptions (Some "api"))
    (Some "registry/api:1").

(** Build options with a tag of the user. *)
Definition taggedBuildOptions : DockerBuildOptions :=
  {| args := None; context := None; dockerfile := None; buildLabels := None;
     tag := Some "registry/api:2"; target := None; pull := None |}.

(** A task cache kept as a list of entries, the newest first. *)
#[global] Instance listCache : TaskCache (list (string * CacheEntry)) :=
  {| cache_get := fun c k => option_map snd (List.find (fun kv => String.eqb (fst kv) k) c);
     cache_set := fun c k v => (k, v) :: c;
     cache_update := fun c k v =>
       match option_map snd (List.find (fun kv => String.eqb (fst kv) k) c) with
       | Some old => (k, Sample.merge old v) :: c
       | None => (k, v) :: c
       end |}.

Definition noEntries : list (string * CacheEntry) := [].


(** The number of white-space characters of [s]. *)
Fixpoint spaces (s : string) : nat :=
  match s with
  | EmptyString => 0
  | String c s' => (if Str.is_space c then 1 else 0) + spaces s'
  end.

(** A project file whose name is a capital E with an acute accent (the
    code unit 201), [COLE], a no-break space (the code unit 160) and
    [Web App]. *)
Definition latinProject : string :=
  "/ws/" +:+ String (ascii_of_nat 201) "COLE" +:+ String (ascii_of_nat 160) "Web App.csproj".

(** A profile of the launch settings whose command is read without an
    error and is not [Project]. *)
Definition otherCommand (profile : Json.value) : Prop :=
  exists name, Json.getProp profile "commandName" = Ok name /\ name <> Json.VStr "Project".

(** Launch settings with an IIS Express profile before the project's
    profile, both with an https address. *)
Definition sampleLaunchSettings : list (string * Json.value) :=
  [("iisSettings", Json.VObj [("windowsAuthentication", Json.VBool false)]);
   ("profiles",
    Json.VObj
      [("IIS Express",
        Json.VObj [("commandName", Json.VStr "IISExpress");
                   ("applicationUrl", Json.VStr "https://localhost:44300")]);
       ("WebApi",
        Json.VObj [("commandName", Json.VStr "Project");
                   ("applicationUrl", Json.VStr "http://localhost:5000")]);
       ("WebApi (https)",
        Json.VObj [("commandName", Json.VStr "Project");
                   ("applicationUrl", Json.VStr "HTTPS://localhost:5001")])])].

(** The sample host, with these launch settings. *)
Definition launchSettingsHost : Host :=
  mkHost Sample.dirname Sample.join Sample.parse_name Sample.extname (fun p => p)
    (fun _ to => to) "linux" "/home/dev" None (fun _ => true)
    (fun _ => Ok (Json.VObj sampleLaunchSettings))
    (fse_readFile Sample.host)
    (fun _ msg => Err (Error msg)) "/home/dev/.vsdbg"
    (getHostSecretsFolders Sample.host) (getContainerSecretsFolders Sample.host).

(** ** debugging/DockerDebugConfigurationProvider.ts: resolution of a debug
    configuration *)

Module DebugResolution.

Section WithHelpers.

Variable removeSucceeds : list string -> string -> bool.

(** The debug configuration of the user and the run task associated with
    it; the provider only hands them on. *)
Variables Configuration RunDefinition : Type.

(** [DockerDebugContext]; [telemetryPlatform] is
    [actionContext.telemetry.properties.platform]. *)
Record DockerDebugContext : Type := mkContext {
  contextFolder : WorkspaceFolder;
  platform : option string;
  telemetryPlatform : option string;
  runDefinition : option RunDefinition
}.

Definition DebugHelper : Type :=
  DockerDebugContext -> Configuration -> result (option ResolvedDebugConfiguration).

Variable getAssociatedDockerRunTask : Configuration -> result (option RunDefinition).

(** [this.helpers], by property name. *)
Variable helpers : string -> option DebugHelper.

(** The platform as a property name and in a template string. *)
Definition platformText (p : option string) : string :=
  match p with
  | Some name => name
  | None => "undefined"
  end.

Definition getHelper (p : option string) : result DebugHelper :=
  match helpers (platformText p) with
  | Some helper => Ok helper
  | None =>
      Err (Error ("The platform '" +:+ platformText p
                  +:+ "' is not currently supported for Docker debugging."))
  end.

(** The result, and the debug host as the call leaves it, also when it
    throws. *)
Definition resolveDebugConfigurationInternal (context : DockerDebugContext)
    (originalConfiguration : Configuration) (host : DebugHost)
    : result (option ResolvedDebugConfiguration) * DebugHost :=
  let context :=
    mkContext (contextFolder context) (platform context) (platform context)
      (runDefinition context) in
  match getAssociatedDockerRunTask originalConfiguration with
  | Err e => (Err e, host)
  | Ok associated =>
      let context :=
        mkContext (contextFolder context) (platform context) (telemetryPlatform context)
          associated in
      match getHelper (platform context) with
      | Err e => (Err e, host)
      | Ok helper =>
          match helper context originalConfiguration with
          | Err e => (Err e, host)
          | Ok None => (Ok None, host)
          | Ok (Some resolvedConfiguration) =>
              match DockerDebugConfigurationProvider.validateResolvedConfiguration
                      resolvedConfiguration with
              | Err e => (Err e, host)
              | Ok _ =>
                  (Ok (Some resolvedConfiguration),
                   DockerDebugConfigurationProvider.registerRemoveContainerAfterDebugging
                     removeSucceeds resolvedConfiguration host)
              end
          end
      end
  end.

End WithHelpers.

Arguments mkContext {RunDefinition} _ _ _ _.
Arguments contextFolder {RunDefinition} _.
Arguments platform {RunDefinition} _.
Arguments telemetryPlatform {RunDefinition} _.
Arguments runDefinition {RunDefinition} _.
Arguments getHelper {Configuration RunDefinition} _ _.
Arguments resolveDebugConfigurationInternal _ {Configuration RunDefinition} _ _ _ _ _.

End DebugResolution.

(** What happens to the debug host: a configuration is resolved and its
    cleanup registered, or a debug session ends. *)
Inductive DebugEvent : Type :=
| Registered (resolvedConfiguration : ResolvedDebugConfiguration)
| Terminated (sessionConfiguration : option ResolvedDebugConfiguration).

Definition handle (removeSucceeds : list string -> string -> bool) (host : DebugHost)
    (event : DebugEvent) : DebugHost :=
  match event with
  | Registered c =>
      DockerDebugConfigurationProvider.registerRemoveContainerAfterDebugging removeSucceeds c host
  | Terminated sc =>
      DockerDebugConfigurationProvider.fireDidTerminateDebugSession removeSucceeds sc host
  end.

Definition handleAll (removeSucceeds : list string -> string -> bool)
    (events : list DebugEvent) (host : DebugHost) : DebugHost :=
  fold_left (handle removeSucceeds) events host.

(** Does the event register cleanup for the container [n]. *)
Definition registers (n : string) (event : DebugEvent) : bool :=
  match event with
  | Registered c =>
      match DockerDebugConfigurationProvider.cleanupName c with
      | Some m => String.eqb n m
      | None => false
      end
  | Terminated _ => false
  end.

(** The [removeContainer] calls made for [n], and the listeners that still
    wait to remove it. *)
Definition removals (n : string) (host : DebugHost) : nat :=
  count_occ string_dec (removeCalls host) n.

Definition waiting (n : string) (host : DebugHost) : nat :=
  length (List.filter (watches n) (listeners host)).

(** A provider with one helper, for [netCore], which always resolves to
    the configuration [resolvedFor "c1"]; no run task is associated. *)
Definition sampleHelpers (name : string)
    : option (DebugResolution.DebugHelper unit unit) :=
  if String.eqb name "netCore"
  then Some (fun _ _ => Ok (Some (resolvedFor "c1")))
  else None.

Definition sampleContext : DebugResolution.DockerDebugContext unit :=
  DebugResolution.mkContext Sample.folder (Some "netCore") None None.

(** ** tree/LocalRootTreeItemBase.ts *)

(** [ITreeSettingInfo] and [ITreeArraySettingInfo]: of each [propInfo] the
    [property], and the default. *)
Record ITreeSettingInfo : Type := mkSettingInfo {
  properties : list string;
  defaultProperty : string
}.

Record ITreeArraySettingInfo : Type := mkArraySettingInfo {
  arrayProperties : list string;
  arrayDefaultProperty : list string
}.

(** What Docker answers at the time of a call: [ext.dockerodeInitError]
    and the outcome of [getItems()]. *)
Record Docker (TItem : Type) : Type := mkDocker {
  dockerodeInitError : option error;
  getItems : result (option (list TItem))
}.
Arguments mkDocker {TItem} _ _.
Arguments dockerodeInitError {TItem} _.
Arguments getItems {TItem} _.

(** An array object: [ref] tells one object from another ([===]). *)
Record ItemArray (TItem : Type) : Type := mkArray {
  ref : nat;
  elems : list TItem
}.
Arguments mkArray {TItem} _ _.
Arguments ref {TItem} _.
Arguments elems {TItem} _.

(** What [createTreeItemsWithErrorHandling] is given: an item, or an entry
    [[groupName, groupedItems]] of the group map. *)
Inductive ItemOrGroup (TItem : Type) : Type :=
| Item (item : TItem)
| Group (groupName : string) (groupedItems : list TItem).
Arguments Item {TItem} _.
Arguments Group {TItem} _ _.

(** The tree items that the root returns, by constructor. *)
Inductive TreeItem (TItem : Type) : Type :=
| InvalidTreeItem (e : error) (label contextValue description : string)
| OpenUrlTreeItem (label url : string)
| GenericTreeItem (label icon contextValue : string)
| Created (itemOrGroup : ItemOrGroup TItem).
Arguments InvalidTreeItem {TItem} _ _ _ _.
Arguments OpenUrlTreeItem {TItem} _ _.
Arguments GenericTreeItem {TItem} _ _ _.
Arguments Created {TItem} _.

(** The fields of the root that change; the settings are [undefined]
    until children with items are loaded.  [nextRef] is the next array
    object. *)
Record RootState (TItem : Type) : Type := mkRootState {
  currentItems : option (ItemArray TItem);
  itemsFromPolling : option (ItemArray TItem);
  failedToConnect : bool;
  groupBySetting : option string;
  sortBySetting : option string;
  labelSetting : option string;
  descriptionSetting : option (list string);
  nextRef : nat
}.
Arguments mkRootState {TItem} _ _ _ _ _ _ _ _.
Arguments currentItems {TItem} _.
Arguments itemsFromPolling {TItem} _.
Arguments failedToConnect {TItem} _.
Arguments groupBySetting {TItem} _.
Arguments sortBySetting {TItem} _.
Arguments labelSetting {TItem} _.
Arguments descriptionSetting {TItem} _.
Arguments nextRef {TItem} _.

Module LocalRootTreeItemBase.

Definition groupByKey : string := "groupBy".
Definition sortByKey : string := "sortBy".
Definition labelKey : string := "label".
Definition descriptionKey : string := "description".

(** [propInfo.property === value]: a string is strictly equal to a string
    with the same characters and to nothing else. *)
Definition strictEquals (property : string) (value : Json.value) : bool :=
  match value with
  | Json.VStr s => String.eqb property s
  | _ => false
  end.

Fixpoint join_with (separator : string) (parts : list string) : string :=
  match parts with
  | [] => EmptyString
  | [p] => p
  | p :: rest => p +:+ separator +:+ join_with separator rest
  end.

Section WithItems.

Variable TItem : Type.
Variable treeId : TItem -> string.

(** [getPropertyValue(item, property)], abstract in the class; where it is
    called its result is taken as [string | undefined]. *)
Variable getPropertyValue : TItem -> string -> option string.

(** [this.config.get(setting)] *)
Variable config : string -> Json.value.

(** [items.sort((a, b) => a.treeId.localeCompare(b.treeId))]: the order
    is the locale's. *)
Variable sortByTreeId : list TItem -> list TItem.

Variable labelSettingInfo : ITreeSettingInfo.
Variable descriptionSettingInfo : ITreeArraySettingInfo.
Variable groupBySettingInfo : ITreeSettingInfo.

(** [sortByProperties] of settings/CommonProperties *)
Variable sortByProperties : list string.

Definition sortBySettingInfo : ITreeSettingInfo :=
  mkSettingInfo sortByProperties "CreatedTime".

(** The value is returned when it is truthy and a property info is found
    for it; a value that is found is a string. *)
Definition getTreeSetting (setting : string) (settingInfo : ITreeSettingInfo) : string :=
  let value := config setting in
  match List.find (fun property => strictEquals property value) (properties settingInfo) with
  | Some _ =>
      match value with
      | Json.VStr s => if Json.truthy value then s else defaultProperty settingInfo
      | _ => defaultProperty settingInfo
      end
  | None => defaultProperty settingInfo
  end.

(** The strings of an array whose elements are all strings. *)
Fixpoint strings (values : list Json.value) : option (list string) :=
  match values with
  | [] => Some []
  | Json.VStr s :: rest => option_map (cons s) (strings rest)
  | _ :: _ => None
  end.

Definition getTreeArraySetting (setting : string) (settingInfo : ITreeArraySettingInfo)
    : list string :=
  match config setting with
  | Json.VArr values =>
      if forallb (fun v1 =>
                    match List.find (fun v2 => strictEquals v2 v1)
                            (arrayProperties settingInfo) with
                    | Some _ => true
                    | None => false
                    end) values
      then match strings values with
           | Some value => value
           | None => arrayDefaultProperty settingInfo
           end
      else arrayDefaultProperty settingInfo
  | _ => arrayDefaultProperty settingInfo
  end.

(** [groupMap.get(groupName)] on the entries of the map, which are kept in
    insertion order. *)
Fixpoint mapGet (groupMap : list (string * list TItem)) (groupName : string)
    : option (list TItem) :=
  match groupMap with
  | [] => None
  | (name, groupedItems) :: rest =>
      if String.eqb name groupName then Some groupedItems else mapGet rest groupName
  end.

(** [groupedItems.push(item)] for the array stored under [groupName] *)
Fixpoint mapPush (groupMap : list (string * list TItem)) (groupName : string) (item : TItem)
    : list (string * list TItem) :=
  match groupMap with
  | [] => []
  | (name, groupedItems) :: rest =>
      if String.eqb name groupName
      then (name, groupedItems ++ [item]) :: rest
      else (name, groupedItems) :: mapPush rest groupName item
  end.

(** One turn of the loop of [groupItems]. *)
Definition groupItem (groupBy : string)
    (acc : list TItem * list (string * list TItem)) (item : TItem)
    : list TItem * list (string * list TItem) :=
  let '(itemsWithNoGroup, groupMap) := acc in
  let groupName := getPropertyValue item groupBy in
  if negb (Js.truthy groupName) then (itemsWithNoGroup ++ [item], groupMap)
  else
    let groupName := Js.or_else groupName "" in
    match mapGet groupMap groupName with
    | Some _ => (itemsWithNoGroup, mapPush groupMap groupName item)
    | None => (itemsWithNoGroup, groupMap ++ [(groupName, [item])])
    end.

(** The list handed to [createTreeItemsWithErrorHandling], which makes one
    tree item of each entry. *)
Definition groupItems (groupBy : string) (items : list TItem) : list (ItemOrGroup TItem) :=
  let '(itemsWithNoGroup, groupMap) :=
    if String.eqb groupBy "None" then (items, [])
    else fold_left (groupItem groupBy) items ([], []) in
  map Item itemsWithNoGroup ++ map (fun entry => Group (fst entry) (snd entry)) groupMap.

(** [array1.some((item1, index) => item1.treeId !== array2[index].treeId)],
    from [index] on; reading [treeId] of a missing element throws. *)
Fixpoint someDiffers (index : nat) (array1 array2 : list TItem) : result bool :=
  match array1 with
  | [] => Ok false
  | item1 :: rest =>
      match nth_error array2 index with
      | None => Err (TypeError "Cannot read property 'treeId' of undefined")
      | Some item2 =>
          if negb (String.eqb (treeId item1) (treeId item2)) then Ok true
          else someDiffers (S index) rest array2
      end
  end.

Definition areArraysEqual (array1 array2 : option (ItemArray TItem)) : result bool :=
  match array1, array2 with
  | None, None => Ok true
  | Some a1, Some a2 =>
      if Nat.eqb (ref a1) (ref a2) then Ok true
      else if negb (Nat.eqb (length (elems a1)) (length (elems a2))) then Ok false
      else differs ← someDiffers 0 (elems a1) (elems a2); Ok (negb differs)
  | _, _ => Ok false
  end.

(** The array is taken to be a new object at every call. *)
Definition getSortedItems (docker : Docker TItem) (state : RootState TItem)
    : result (ItemArray TItem) * RootState TItem :=
  match dockerodeInitError docker with
  | None =>
      match getItems docker with
      | Ok items =>
          (Ok (mkArray (nextRef state) (sortByTreeId (Js.or_obj items []))),
           mkRootState (currentItems state) (itemsFromPolling state) (failedToConnect state)
             (groupBySetting state) (sortBySetting state) (labelSetting state)
             (descriptionSetting state) (S (nextRef state)))
      | Err e => (Err e, state)
      end
  | Some e => (Err e, state)
  end.

Definition hasChanged (docker : Docker TItem) (state : RootState TItem)
    : result bool * RootState TItem :=
  let '(polled, state) := getSortedItems docker state in
  let polled :=
    match polled with
    | Ok items => Some items
    | Err _ => None
    end in
  let state :=
    mkRootState (currentItems state) polled (failedToConnect state)
      (groupBySetting state) (sortBySetting state) (labelSetting state)
      (descriptionSetting state) (nextRef state) in
  (equal ← areArraysEqual (currentItems state) (itemsFromPolling state); Ok (negb equal),
   state).

(** [inDevContainer]: the extension runs in the workspace of a dev
    container, by [getVSCodeRemoteInfo]. *)
Definition getDockerErrorTreeItems (inDevContainer : bool) (e : error)
    : list (TreeItem TItem) :=
  [InvalidTreeItem e "Failed to connect. Is Docker installed and running?"
     "dockerConnectionError" "";
   OpenUrlTreeItem "Install Docker..." "https://aka.ms/AA37qtj";
   OpenUrlTreeItem "Additional Troubleshooting..." "https://aka.ms/AA37qt2"]
  ++ (if inDevContainer
      then [OpenUrlTreeItem "Running Docker in a dev container..." "https://aka.ms/AA5xva6"]
      else []).

(** The children, the telemetry properties assigned (in order), and the
    root afterwards. *)
Definition loadMoreChildrenImpl (docker : Docker TItem) (inDevContainer : bool)
    (state : RootState TItem) : list (TreeItem TItem) * Dict.t * RootState TItem :=
  let '(loaded, state) :=
    match itemsFromPolling state with
    | Some items => (Ok items, state)
    | None => getSortedItems docker state
    end in
  match loaded with
  | Err e =>
      (getDockerErrorTreeItems inDevContainer e,
       [("failedToConnect", "true")],
       mkRootState None (itemsFromPolling state) true
         (groupBySetting state) (sortBySetting state) (labelSetting state)
         (descriptionSetting state) (nextRef state))
  | Ok items =>
      if Nat.eqb (length (elems items)) 0
      then
        ([GenericTreeItem "Successfully connected, but no items found." "info" "dockerNoItems"],
         [("noItems", "true")],
         mkRootState (Some items) None false
           (groupBySetting state) (sortBySetting state) (labelSetting state)
           (descriptionSetting state) (nextRef state))
      else
        let groupBy := getTreeSetting groupByKey groupBySettingInfo in
        let sortBy := getTreeSetting sortByKey sortBySettingInfo in
        let label := getTreeSetting labelKey labelSettingInfo in
        let description := getTreeArraySetting descriptionKey descriptionSettingInfo in
        (map Created (groupItems groupBy (elems items)),
         [("groupBySetting", groupBy); ("sortBySetting", sortBy); ("labelSetting", label);
          ("descriptionSetting", join_with "," description)],
         mkRootState (Some items) None false
           (Some groupBy) (Some sortBy) (Some label) (Some description) (nextRef state))
  end.

End WithItems.

End LocalRootTreeItemBase.

(** ** Vocabulary for the tree of local items *)

(** The tree ids of an array, when there is one. *)
Definition idsOf {TItem : Type} (treeId : TItem -> string)
    (array : option (ItemArray TItem)) : option (list string) :=
  option_map (fun a => map treeId (elems a)) array.

(** The item has the group name [name]. *)
Definition inGroup {TItem : Type} (getPropertyValue : TItem -> string -> option string)
    (groupBy name : string) (item : TItem) : bool :=
  match getPropertyValue item groupBy with
  | Some n => String.eqb n name
  | None => false
  end.

(** The item has no group name. *)
Definition ungrouped {TItem : Type} (getPropertyValue : TItem -> string -> option string)
    (groupBy : string) (item : TItem) : bool :=
  negb (Js.truthy (getPropertyValue item groupBy)).

(** What the loop of [groupItems] has built after the items [done]. *)
Definition grouped {TItem : Type} (getPropertyValue : TItem -> string -> option string)
    (groupBy : string) (done : list TItem)
    (acc : list TItem * list (string * list TItem)) : Prop :=
  fst acc = List.filter (ungrouped getPropertyValue groupBy) done /\
  List.NoDup (map fst (snd acc)) /\
  (forall n l, In (n, l) (snd acc) ->
     n <> "" /\ l <> [] /\ l = List.filter (inGroup getPropertyValue groupBy n) done) /\
  (forall item, In item done -> ungrouped getPropertyValue groupBy item = false ->
     In (Js.or_else (getPropertyValue item groupBy) "") (map fst (snd acc))).

(** What [getSortedItems] returns for an answer of Docker, when it
    returns. *)
Definition sortedAnswer {TItem : Type} (sortByTreeId : list TItem -> list TItem)
    (docker : Docker TItem) : option (list TItem) :=
  match dockerodeInitError docker, getItems docker with
  | None, Ok items => Some (sortByTreeId (Js.or_obj items []))
  | _, _ => None
  end.

(** Array objects are told apart by [ref]: the arrays of the root were
    made before [nextRef]. *)
Definition arrays_known {TItem : Type} (state : RootState TItem) : Prop :=
  (forall a, currentItems state = Some a -> ref a < nextRef state) /\
  (forall a, itemsFromPolling state = Some a -> ref a < nextRef state).

(** Containers as sample items: a tree id and an image. *)
Definition sampleTreeId (item : string * string) : string := fst item.

Definition sampleProperty (item : string * string) (property : string) : option string :=
  if String.eqb property "Image" then Some (snd item) else None.

Definition sampleItems : list (string * string) :=
  [("c1", "nginx"); ("c2", ""); ("c3", "redis"); ("c4", "nginx")].

Definition sampleConfig (setting : string) : Json.value :=
  if String.eqb setting "groupBy" then Json.VStr "Image"
  else if String.eqb setting "description" then Json.VArr [Json.VStr "Image"; Json.VNum 3]
  else Json.VUndefined.

Definition sampleSettingInfo : ITreeSettingInfo :=
  mkSettingInfo ["Image"; "None"] "None".

Definition sampleArraySettingInfo : ITreeArraySettingInfo :=
  mkArraySettingInfo ["Image"; "Status"] ["Status"].

Definition sampleRoot : RootState (string * string) :=
  mkRootState (Some (mkArray 0 sampleItems)) None false None None None None 1.

(** ** tree/registries/azure/SubscriptionTreeItem.ts: listing the registries *)

(** [RegistryListResult]: an array of registries with a [nextLink]. *)
Record RegistryListResult (Registry : Type) : Type := mkListResult {
  registries : list Registry;
  nextLink : option string
}.
Arguments mkListResult {Registry} _ _.
Arguments registries {Registry} _.
Arguments nextLink {Registry} _.

Module SubscriptionTreeItem.

Section WithClient.

Variable Registry : Type.

(** [client.registries.list()] and [client.registries.listNext(link)] *)
Variable list_ : result (RegistryListResult Registry).
Variable listNext : string -> result (RegistryListResult Registry).

(** The registries of which [createTreeItemsWithErrorHandling] makes tree
    items, and [_nextLink] afterwards. *)
Definition loadMoreChildrenImpl (clearCache : bool) (nextLink_ : option string)
    : result (list Registry) * option string :=
  let nextLink_ := if clearCache then None else nextLink_ in
  let registryListResult :=
    match nextLink_ with
    | None => list_
    | Some link => listNext link
    end in
  match registryListResult with
  | Ok listed => (Ok (registries listed), nextLink listed)
  | Err e => (Err e, nextLink_)
  end.

Definition hasMoreChildrenImpl (nextLink_ : option string) : bool :=
  Js.truthy nextLink_.

End WithClient.

End SubscriptionTreeItem.

(** Loading the children with [clearCache] and then again for as long as
    [hasMoreChildrenImpl] says so, at most [turns] times. *)
Fixpoint loadAllChildren {Registry : Type}
    (list_ : result (RegistryListResult Registry))
    (listNext : string -> result (RegistryListResult Registry))
    (turns : nat) (clearCache : bool) (nextLink_ : option string)
    : result (list Registry) * option string :=
  match turns with
  | O => (Ok [], nextLink_)
  | S turns' =>
      match SubscriptionTreeItem.loadMoreChildrenImpl Registry list_ listNext
              clearCache nextLink_ with
      | (Err e, link) => (Err e, link)
      | (Ok children, link) =>
          if SubscriptionTreeItem.hasMoreChildrenImpl link
          then match loadAllChildren list_ listNext turns' false link with
               | (Ok more, link') => (Ok (children ++ more), link')
               | (Err e, link') => (Err e, link')
               end
          else (Ok children, link)
      end
  end.

(** The service answers with the pages [pages], starting at [link]: every
    page but the last names the next one. *)
Inductive serves {Registry : Type}
    (list_ : result (RegistryListResult Registry))
    (listNext : string -> result (RegistryListResult Registry))
    : option string -> list (list Registry) -> Prop :=
| serves_last link page last :
    match link with None => list_ | Some l => listNext l end
    = Ok (mkListResult page last) ->
    Js.truthy last = false ->
    serves list_ listNext link [page]
| serves_more link page next pages :
    match link with None => list_ | Some l => listNext l end
    = Ok (mkListResult page (Some next)) ->
    next <> "" ->
    serves list_ listNext (Some next) pages ->
    serves list_ listNext link (page :: pages).

(** A service with three pages of registry names. *)
Definition samplePages (link : string) : result (RegistryListResult string) :=
  if String.eqb link "page2" then Ok (mkListResult ["contoso"] (Some "page3"))
  else if String.eqb link "page3" then Ok (mkListResult ["fabrikam"; "tailspin"] None)
  else Err (Rejected "404").

Definition sampleFirstPage : result (RegistryListResult string) :=
  Ok (mkListResult ["adatum"; "alpine"] (Some "page2")).

(** ** debugging/DebugHelper.ts: the server-ready action *)

Record DockerServerReadyAction : Type := mkServerReadyAction {
  sraContainerName : option string;
  sraPattern : option string;
  sraAction : option string;
  sraUriFormat : option string;
  sraWebRoot : option string
}.

(** Of the debug configuration, the three properties that
    [resolveDockerServerReadyAction] reads; of [launchBrowser] and
    [serverReadyAction] only whether they are defined. *)
Record BrowserConfiguration : Type := mkBrowserConfiguration {
  launchBrowserDefined : bool;
  serverReadyActionDefined : bool;
  dockerServerReadyAction : option DockerServerReadyAction
}.

Module ServerReadyAction.

(** [a || b] on optional strings *)
Definition or_string (a b : option string) : option string :=
  if Js.truthy a then a else b.

Definition isSome {A : Type} (x : option A) : bool :=
  match x with
  | Some _ => true
  | None => false
  end.

Definition resolveDockerServerReadyAction (debugConfiguration : BrowserConfiguration)
    (defaultDockerSRA : DockerServerReadyAction) (createIfUserUndefined : bool)
    : result (option DockerServerReadyAction) :=
  let numBrowserOptions :=
    length (List.filter (fun defined : bool => defined)
              [launchBrowserDefined debugConfiguration;
               serverReadyActionDefined debugConfiguration;
               isSome (dockerServerReadyAction debugConfiguration)]) in
  if (1 <? numBrowserOptions)%nat then
    Err (Error "Only at most one of the 'launchBrowser', 'serverReadyAction', and 'dockerServerReadyAction' properties may be set at a time.")
  else if (numBrowserOptions =? 1)%nat
          && negb (isSome (dockerServerReadyAction debugConfiguration)) then Ok None
  else if (numBrowserOptions =? 0)%nat && negb createIfUserUndefined then Ok None
  else
    let providedDockerSRA :=
      Js.or_obj (dockerServerReadyAction debugConfiguration)
        (mkServerReadyAction None None None None None) in
    Ok (Some (mkServerReadyAction
                (or_string (sraContainerName providedDockerSRA)
                   (sraContainerName defaultDockerSRA))
                (or_string (sraPattern providedDockerSRA) (sraPattern defaultDockerSRA))
                (or_string (sraAction providedDockerSRA) (sraAction defaultDockerSRA))
                (or_string (sraUriFormat providedDockerSRA) (sraUriFormat defaultDockerSRA))
                (or_string (sraWebRoot providedDockerSRA) (sraWebRoot defaultDockerSRA)))).

End ServerReadyAction.

(** ** tasks/python/PythonTaskHelper.ts: the entry point and the command *)

Module PythonLauncher.

(** [s.startsWith(pat)] *)
Fixpoint startsWith (pat s : string) : bool :=
  match pat, s with
  | EmptyString, _ => true
  | String _ _, EmptyString => false
  | String p pat', String c s' => Ascii.eqb p c && startsWith pat' s'
  end.

(** [s.includes(pat)] *)
Fixpoint includes (pat s : string) : bool :=
  startsWith pat s ||
  match s with
  | EmptyString => false
  | String _ s' => includes pat s'
  end.

Fixpoint drop (n : nat) (s : string) : string :=
  match n, s with
  | O, _ => s
  | S _, EmptyString => EmptyString
  | S n', String _ s' => drop n' s'
  end.

(** [s.replace(pat, repl)] for a string [pat]: the first occurrence.  The
    replacement [/pydbg] holds no [$]. *)
Fixpoint replaceFirst (pat repl s : string) : string :=
  if startsWith pat s then repl +:+ drop (String.length pat) s
  else match s with
       | EmptyString => EmptyString
       | String c s' => String c (replaceFirst pat repl s')
       end.

(** [s.replace(/\\/g, '/')] *)
Fixpoint slashes (s : string) : string :=
  match s with
  | EmptyString => EmptyString
  | String c s' => String (if Ascii.eqb c "\"%char then "/"%char else c) (slashes s')
  end.

(** [s.split(/\s/i)]: a part ends at every white-space character. *)
Fixpoint split (s : string) : list string :=
  match s with
  | EmptyString => [EmptyString]
  | String c s' =>
      if Str.is_space c then EmptyString :: split s'
      else match split s' with
           | part :: parts => String c part :: parts
           | [] => [String c EmptyString]
           end
  end.

(** [parts.join(' ')] *)
Fixpoint join (parts : list string) : string :=
  match parts with
  | [] => EmptyString
  | [part] => part
  | part :: rest => part +:+ " " +:+ join rest
  end.

Definition inferEntrypoint (launcherCommand : string) : string :=
  let parts := split launcherCommand in
  match parts with
  | part :: _ => part
  | [] => EmptyString
  end.

(** The function that [inferCommand] maps over the parts. *)
Definition relocate (launcherFolder part : string) : string :=
  if includes launcherFolder part
  then slashes (replaceFirst launcherFolder "/pydbg" part)
  else part.

Definition inferCommand (launcherCommand launcherFolder : string) : string :=
  let parts := split launcherCommand in
  let parts := map (relocate launcherFolder) parts in
  join (tl parts).

End PythonLauncher.

(** [s] with a space for every white-space character. *)
Fixpoint spaced (s : string) : string :=
  match s with
  | EmptyString => EmptyString
  | String c s' => String (if Str.is_space c then " "%char else c) (spaced s')
  end.

(** A debug configuration for the sample project, with a tag and a
    container name of the user. *)
Definition namedDebugConfiguration : CoreClr.DockerDebugConfiguration :=
  CoreClr.mkDebugConfig "Docker .NET Core Launch" None None (Some "bin/WebApi.dll")
    (Some Sample.projectPath)
    (Some (CoreClr.mkDebugBuild None None None None (Some "registry/api:dbg") None))
    None None.

Definition sampleLaunchResult : CoreClr.LaunchResult :=
  CoreClr.mkLaunchResult (Some "http://localhost:5000") "/remote_debugger/vsdbg"
    ["exec"; "-i"; "myapp-dev"] "/ws/myapp" "docker" "/app/bin/WebApi.dll" [] "/app" [].

(** The sample services, with a Dockerfile in the folder and a Docker
    that builds and starts the container. *)
Definition launchServices : CoreClr.Services :=
  CoreClr.mkServices
    (fun p => String.eqb p "/ws/myapp")
    (fun p => String.eqb p Sample.projectPath || String.eqb p "/ws/myapp/Dockerfile")
    (CoreClr.readDir Sample.services) (CoreClr.readFile Sample.services)
    (fun _ p => p) (CoreClr.getTargetPath Sample.services)
    (fun _ => Ok true) (fun _ => Ok sampleLaunchResult)
    (CoreClr.resolveFilePath Sample.services).

(** The helpers that the later revision imports, for the sample. *)
Definition sampleImports : NetCoreScaffolding.Imports :=
  NetCoreScaffolding.mkImports
    (fun p folder => NetCoreTaskHelper.resolveWorkspaceFolderPath folder p)
    (fun nameHint => nameHint +:+ "-dev")
    (fun _ _ nameHint _ => nameHint +:+ ":dev").

Definition windowsScaffolding : NetCoreTaskScaffoldingOptions :=
  mkScaffoldingOptions (Some Sample.projectPath) (Some Windows).

(** The run task scaffolded for Windows. *)
Definition scaffoldedWindowsTask : DockerRunTaskDefinition :=
  mkRunTask "docker-run" "docker-run: debug" ["docker-build: debug"]
    (set_os
       (set_command
          (set_entrypoint NetCoreScaffolding.emptyRunOptions (Some "ping"))
          (Some "-t localhost"))
       (Some Windows))
    (Some (mkNetCoreTaskOptions (Some Sample.projectPath) None)).

(** * Properties *)

(** ** The result monad *)

Lemma bind_Ok {A B : Type} (f : A -> result B) (a : A) : (Ok a ≫= f) = f a.
Proof. reflexivity. Qed.

Lemma bind_Err {A B : Type} (f : A -> result B) (e : error) : (Err e ≫= f) = Err e.
Proof. reflexivity. Qed.

Lemma bind_inv {A B : Type} (f : A -> result B) (m : result A) (b : B) :
  (m ≫= f) = Ok b -> exists a, m = Ok a /\ f a = Ok b.
Proof. destruct m as [a|e]; [exists a; split; auto | discriminate]. Qed.

Lemma try_catch_total {A : Type} (body : result A) (d : A) :
  exists a, try_catch body (fun _ => Ok d) = Ok a.
Proof. destruct body as [a|e]; simpl; eauto. Qed.

(** ** Lists without conflicts *)

Section Dedup.

Import TaskHelper.

Lemma find_none_iff {A : Type} (p : A -> bool) (l : list A) :
  List.find p l = None <-> (forall x, In x l -> p x = false).
Proof.
  induction l as [|a l IH]; simpl.
  - split; [intros _ x [] | reflexivity].
  - destruct (p a) eqn:Ha.
    + split; [discriminate|]. intros H. rewrite H in Ha by now left. discriminate.
    + rewrite IH. split.
      * intros H x [<-|Hx]; auto.
      * intros H x Hx. apply H. now right.
Qed.

Lemma addVolume_conflict volumes volume :
  (exists v, In v volumes /\ containerPath v = containerPath volume) ->
  addVolumeWithoutConflicts volumes volume = (false, volumes).
Proof.
  intros (v & Hin & Heq). unfold addVolumeWithoutConflicts.
  destruct (List.find _ volumes) eqn:Hf; [reflexivity|].
  rewrite find_none_iff in Hf. specialize (Hf v Hin). simpl in Hf.
  rewrite Heq, String.eqb_refl in Hf. discriminate.
Qed.

Lemma addVolume_fresh volumes volume :
  (forall v, In v volumes -> containerPath v <> containerPath volume) ->
  addVolumeWithoutConflicts volumes volume = (true, volumes ++ [volume]).
Proof.
  intros Hfresh. unfold addVolumeWithoutConflicts.
  destruct (List.find _ volumes) eqn:Hf; [|reflexivity].
  apply find_some in Hf as [Hin Heq]. apply String.eqb_eq in Heq.
  now apply Hfresh in Hin.
Qed.

Lemma addPort_conflict ports port :
  (exists p, In p ports /\ containerPort p = containerPort port) ->
  addPortWithoutConflicts ports port = (false, ports).
Proof.
  intros (p & Hin & Heq). unfold addPortWithoutConflicts.
  destruct (List.find _ ports) eqn:Hf; [reflexivity|].
  rewrite find_none_iff in Hf. specialize (Hf p Hin). simpl in Hf.
  rewrite Heq, Z.eqb_refl in Hf. discriminate.
Qed.

(** C1. Adding a volume whose container path is already mapped leaves the
    list as it is and returns false, and so does adding a port whose
    container port is already mapped: the first mapping wins. *)
Theorem add_without_conflicts_first_write_wins
    (volumes : list DockerContainerVolume) (volume : DockerContainerVolume)
    (ports : list DockerContainerPort) (port : DockerContainerPort) :
  ((exists v, In v volumes /\ containerPath v = containerPath volume) ->
   addVolumeWithoutConflicts volumes volume = (false, volumes)) /\
  ((exists p, In p ports /\ containerPort p = containerPort port) ->
   addPortWithoutConflicts ports port = (false, ports)).
Proof. split; [apply addVolume_conflict | apply addPort_conflict]. Qed.

Lemma add_without_conflicts_first_write_wins_witness :
  addVolumeWithoutConflicts
    [mkVolume "/home/dev/app" "/app" (Some rw); mkVolume "/home/dev/src" "/src" (Some rw)]
    (mkVolume "/tmp/other" "/app" (Some ro))
  = (false, [mkVolume "/home/dev/app" "/app" (Some rw); mkVolume "/home/dev/src" "/src" (Some rw)])
  /\
  addPortWithoutConflicts [mkPort 5678 (Some 5678%Z)] (mkPort 5678 (Some 9000%Z))
  = (false, [mkPort 5678 (Some 5678%Z)]).
Proof.
  split.
  - apply (add_without_conflicts_first_write_wins
             [mkVolume "/home/dev/app" "/app" (Some rw); mkVolume "/home/dev/src" "/src" (Some rw)]
             (mkVolume "/tmp/other" "/app" (Some ro)) [] (mkPort 0 None)).
    exists (mkVolume "/home/dev/app" "/app" (Some rw)). split; [simpl; auto | reflexivity].
  - apply (add_without_conflicts_first_write_wins [] (mkVolume "" "" None)
             [mkPort 5678 (Some 5678%Z)] (mkPort 5678 (Some 9000%Z))).
    exists (mkPort 5678 (Some 5678%Z)). split; [simpl; auto | reflexivity].
Defined.

End Dedup.

(** ** Adding a debug configuration *)

Section AddDebugConfiguration.

Import DebugHelper.

(** C10. When a persisted configuration already has the new
    configuration's name, nothing is persisted and the result is false;
    otherwise exactly the new configuration is appended and the result is
    true. *)
Theorem addDebugConfiguration_by_name
    (debugConfiguration : DebugConfiguration) (launch : WorkspaceLaunch) :
  ((exists c, In c (persisted launch) /\ cfgName c = cfgName debugConfiguration) ->
   addDebugConfiguration debugConfiguration launch = (false, launch)) /\
  ((forall c, In c (persisted launch) -> cfgName c <> cfgName debugConfiguration) ->
   fst (addDebugConfiguration debugConfiguration launch) = true /\
   persisted (snd (addDebugConfiguration debugConfiguration launch))
   = persisted launch ++ [debugConfiguration]).
Proof.
  unfold addDebugConfiguration, persisted, Js.or_obj.
  set (cs := match configurations launch with Some a => a | None => [] end).
  split.
  - intros (c & Hin & Heq).
    replace (existsb _ cs) with true; [reflexivity|].
    symmetry. apply existsb_exists. exists c. split; [exact Hin|].
    now apply String.eqb_eq.
  - intros Hfresh.
    replace (existsb (fun c => String.eqb (cfgName c) (cfgName debugConfiguration)) cs)
      with false; [split; reflexivity|].
    symmetry. apply not_true_is_false. intros Hex.
    apply existsb_exists in Hex as (c & Hin & Heq).
    apply String.eqb_eq in Heq. now apply (Hfresh c).
Qed.

Lemma addDebugConfiguration_by_name_witness :
  addDebugConfiguration launchPython (mkLaunch (Some [attachNode; launchPython]))
  = (false, mkLaunch (Some [attachNode; launchPython]))
  /\
  persisted (snd (addDebugConfiguration launchPython (mkLaunch None))) = [launchPython].
Proof.
  split.
  - apply (addDebugConfiguration_by_name launchPython (mkLaunch (Some [attachNode; launchPython]))).
    exists launchPython. split; [simpl; auto | reflexivity].
  - apply (addDebugConfiguration_by_name launchPython (mkLaunch None)).
    intros c [].
Defined.

End AddDebugConfiguration.

(** ** The build command line *)

Section CommandLine.

Import CommandLineBuilder DockerBuildTaskProvider.

Lemma withKeyValueArgs_values name d b :
  map value (withKeyValueArgs name d b) = map value b ++ repeated name d.
Proof.
  destruct d as [kvs|]; simpl; [|now rewrite app_nil_r].
  revert b. induction kvs as [|kv kvs IH]; intros b; simpl.
  - now rewrite app_nil_r.
  - rewrite IH, map_app. simpl. now rewrite <- app_assoc.
Qed.

Lemma withNamedArg_values name v b :
  map value (withNamedArg name v b) = map value b ++ optional name v.
Proof.
  destruct v as [x|]; simpl; [now rewrite map_app | now rewrite app_nil_r].
Qed.

Lemma withFlagArg_values name v b :
  map value (withFlagArg name v b) = map value b ++ flag name v.
Proof.
  destruct v as [[|]|]; simpl; rewrite ?map_app, ?app_nil_r; reflexivity.
Qed.

(** C3. The command line of a resolved build option record is
    [docker build --rm], then [--pull], [-f], [--build-arg], [--label],
    [-t], [--target] in this order, then the context; an option that is
    set contributes its flag followed by its argument, an option that is
    unset contributes no token at all. *)
Theorem build_command_line_grammar (options : DockerBuildOptions) (ctx : string) :
  context options = Some ctx ->
  map value (resolveCommandLine options)
  = ["docker"; "build"; "--rm"]
      ++ flag "--pull" (pull options)
      ++ optional "-f" (dockerfile options)
      ++ repeated "--build-arg" (args options)
      ++ repeated "--label" (buildLabels options)
      ++ optional "-t" (tag options)
      ++ optional "--target" (target options)
      ++ [ctx]
  /\ (forall name v, optional name v = [] <-> v = None)
  /\ (forall name v x, v = Some x -> optional name v = [name; x])
  /\ (forall name v, flag name v = [name] <-> v = Some true)
  /\ (forall name v, flag name v = [] <-> v <> Some true).
Proof.
  intros Hctx. split; [|split; [|split; [|split]]].
  - unfold resolveCommandLine, buildShellQuotedStrings, withQuotedArg.
    rewrite Hctx, map_app.
    rewrite !withNamedArg_values, !withKeyValueArgs_values, withNamedArg_values,
      withFlagArg_values.
    simpl. rewrite <- !app_assoc. reflexivity.
  - intros name v. destruct v; simpl; split; congruence.
  - intros name v x ->. reflexivity.
  - intros name v. destruct v as [[|]|]; simpl; split; congruence.
  - intros name v. destruct v as [[|]|]; simpl; split; congruence.
Qed.

Lemma build_command_line_grammar_witness :
  map value
    (resolveCommandLine
       (mkBuildOptions None (Some "${workspaceFolder}") (Some "Dockerfile")
          (Some [("com.microsoft.created-by", "visual-studio-code")])
          (Some "myapp:dev") None None))
  = ["docker"; "build"; "--rm"; "-f"; "Dockerfile";
     "--label"; "com.microsoft.created-by=visual-studio-code";
     "-t"; "myapp:dev"; "${workspaceFolder}"].
Proof.
  rewrite (proj1 (build_command_line_grammar
                    (mkBuildOptions None (Some "${workspaceFolder}") (Some "Dockerfile")
                       (Some [("com.microsoft.created-by", "visual-studio-code")])
                       (Some "myapp:dev") None None)
                    "${workspaceFolder}" eq_refl)).
  reflexivity.
Defined.

End CommandLine.

(** ** Removal of the container after debugging *)

Section Cleanup.

Import DockerDebugConfigurationProvider.

Variable removeSucceeds : list string -> string -> bool.

Lemma onTerminate_named l sc n host :
  sessionName sc = Some n ->
  onTerminate removeSucceeds l sc host
  = if watches n l
    then mkDebugHost
           (List.filter (fun l' => negb (Nat.eqb (disposable l') (disposable l))) (listeners host))
           (nextDisposable host) (removeCalls host ++ [n])
    else host.
Proof.
  unfold sessionName, onTerminate, watches.
  destruct sc as [sc|]; simpl; [|discriminate].
  destruct (dockerOptions sc) as [o|]; simpl; [|discriminate].
  intros ->. destruct (String.eqb n (watched l)) eqn:E; [|reflexivity].
  apply String.eqb_eq in E. subst n.
  unfold removeContainer, afterFailedRemove, dispose.
  destruct (removeSucceeds _ _); reflexivity.
Qed.

Lemma onTerminate_unnamed l sc host :
  sessionName sc = None -> onTerminate removeSucceeds l sc host = host.
Proof.
  unfold sessionName, onTerminate.
  destruct sc as [sc|]; simpl; [|reflexivity].
  destruct (dockerOptions sc) as [o|]; simpl; [|reflexivity].
  intros ->. reflexivity.
Qed.

(** What delivering the event to the listeners [ls] does to a host. *)
Lemma deliver_named sc n ls host :
  sessionName sc = Some n ->
  fold_left (fun host l => onTerminate removeSucceeds l sc host) ls host
  = mkDebugHost
      (List.filter
         (fun l' => negb (existsb (fun l => watches n l
                                           && Nat.eqb (disposable l') (disposable l)) ls))
         (listeners host))
      (nextDisposable host)
      (removeCalls host ++ repeat n (length (List.filter (watches n) ls))).
Proof.
  intros Hn. revert host. induction ls as [|l ls IH]; intros host; simpl.
  - rewrite app_nil_r. destruct host as [L nx calls]; simpl. f_equal.
    induction L as [|a L IHL]; simpl; [reflexivity | now f_equal].
  - rewrite IH, (onTerminate_named _ _ _ _ Hn).
    destruct (watches n l) eqn:W; simpl.
    + rewrite <- app_assoc. simpl. f_equal.
      induction (listeners host) as [|a L IHL]; simpl; [reflexivity|].
      destruct (Nat.eqb (disposable a) (disposable l)); simpl; [exact IHL|].
      destruct (existsb _ ls); simpl; [exact IHL | now rewrite IHL].
    + reflexivity.
Qed.

Lemma same_disposable_same_listener (L : list Listener) a b :
  List.NoDup (map disposable L) -> In a L -> In b L -> disposable a = disposable b -> a = b.
Proof.
  induction L as [|x L IH]; simpl; [intros _ []|].
  intros Hnd [->|Ha] [->|Hb] Heq; [reflexivity | | |].
  - apply List.NoDup_cons_iff in Hnd as [Hnotin _]. exfalso. apply Hnotin.
    rewrite Heq. now apply in_map.
  - apply List.NoDup_cons_iff in Hnd as [Hnotin _]. exfalso. apply Hnotin.
    rewrite <- Heq. now apply in_map.
  - apply List.NoDup_cons_iff in Hnd as [_ Hnd]. now apply IH.
Qed.

(** On a well-formed host the event removes exactly the listeners that
    watch the session's container, each after one [removeContainer]. *)
Lemma fire_named sc n host :
  well_formed host -> sessionName sc = Some n ->
  listeners (fireDidTerminateDebugSession removeSucceeds sc host)
  = List.filter (fun l => negb (watches n l)) (listeners host)
  /\ removeCalls (fireDidTerminateDebugSession removeSucceeds sc host)
     = removeCalls host ++ repeat n (length (List.filter (watches n) (listeners host))).
Proof.
  intros [Hnd _] Hn. unfold fireDidTerminateDebugSession.
  rewrite (deliver_named _ _ _ _ Hn). simpl. split; [|reflexivity].
  apply filter_ext_in. intros a Ha. f_equal.
  destruct (watches n a) eqn:W.
  - apply existsb_exists. exists a. rewrite W, Nat.eqb_refl. now split.
  - apply not_true_is_false. intros Hex.
    apply existsb_exists in Hex as (b & Hb & Hand).
    apply andb_true_iff in Hand as [Wb Heq]. apply Nat.eqb_eq in Heq.
    rewrite (same_disposable_same_listener _ a b Hnd Ha Hb Heq) in W. congruence.
Qed.

Lemma fire_unnamed sc host :
  sessionName sc = None -> fireDidTerminateDebugSession removeSucceeds sc host = host.
Proof.
  intros Hn. unfold fireDidTerminateDebugSession.
  generalize (listeners host) at 1. intros ls. revert host.
  induction ls as [|l ls IH]; intros host; simpl; [reflexivity|].
  now rewrite onTerminate_unnamed.
Qed.

Lemma register_listeners c n host :
  cleanupName c = Some n ->
  listeners (registerRemoveContainerAfterDebugging removeSucceeds c host)
  = listeners host ++ [mkListener (nextDisposable host) n]
  /\ nextDisposable (registerRemoveContainerAfterDebugging removeSucceeds c host)
     = S (nextDisposable host)
  /\ removeCalls (registerRemoveContainerAfterDebugging removeSucceeds c host)
     = removeCalls host ++ [n].
Proof.
  intros Hc. unfold registerRemoveContainerAfterDebugging. rewrite Hc.
  unfold removeContainer, afterFailedRemove.
  destruct (removeSucceeds _ _); simpl; auto.
Qed.

Lemma register_well_formed c host :
  well_formed host ->
  well_formed (registerRemoveContainerAfterDebugging removeSucceeds c host).
Proof.
  intros [Hnd Hlt]. destruct (cleanupName c) as [n|] eqn:Hc.
  - destruct (register_listeners c n host Hc) as (HL & HN & _).
    unfold well_formed. rewrite HL, HN, map_app. simpl. split.
    + apply List.NoDup_app; [exact Hnd | repeat constructor; intros [] |].
      intros x Hx [Hx'|[]]. subst x. apply in_map_iff in Hx as (l & Hl & Hin).
      rewrite List.Forall_forall in Hlt. specialize (Hlt l Hin). lia.
    + apply List.Forall_app. split.
      * eapply List.Forall_impl; [|exact Hlt]. simpl. intros; lia.
      * repeat constructor.
  - unfold registerRemoveContainerAfterDebugging. rewrite Hc. now split.
Qed.

Lemma filter_none {A : Type} (p : A -> bool) (l : list A) :
  (forall x, In x l -> p x = false) -> List.filter p l = [].
Proof.
  induction l as [|a l IH]; simpl; [reflexivity|].
  intros H. rewrite (H a) by now left. apply IH. intros x Hx. apply H. now right.
Qed.

Lemma filter_all {A : Type} (p : A -> bool) (l : list A) :
  (forall x, In x l -> p x = true) -> List.filter p l = l.
Proof.
  induction l as [|a l IH]; simpl; [reflexivity|].
  intros H. rewrite (H a) by now left. f_equal. apply IH. intros x Hx. apply H. now right.
Qed.

Lemma filter_watches_others (n m : string) (L : list Listener) :
  n <> m ->
  List.filter (watches n) (List.filter (fun l => negb (watches m l)) L)
  = List.filter (watches n) L.
Proof.
  intros Hne. induction L as [|a L IH]; simpl; [reflexivity|].
  destruct (watches m a) eqn:Wm; simpl.
  - destruct (watches n a) eqn:Wn; [|exact IH].
    unfold watches in Wm, Wn. apply String.eqb_eq in Wm, Wn. congruence.
  - destruct (watches n a); [now rewrite IH | exact IH].
Qed.

Lemma filter_watches_none (n : string) (L : list Listener) :
  List.filter (watches n) (List.filter (fun l => negb (watches n l)) L) = [].
Proof.
  induction L as [|a L IH]; simpl; [reflexivity|].
  destruct (watches n a) eqn:W; simpl; [exact IH | now rewrite W].
Qed.

(** C2, as the code has it.  Once cleanup is registered for the container
    [c1], the end of a session that names another container [c2] removes
    only [c2] (if anything) and leaves registered the new listener and
    every other listener for [c1]; a session without container changes
    nothing.  The end of a session that names [c1] calls [removeContainer]
    for [c1] once for every listener that waits for [c1], the new one and
    those that earlier registrations left, and removes them all; it is
    exactly one call, and the listeners are those from before the
    registration, when no earlier listener waits for [c1]. *)
Theorem cleanup_only_for_own_container
    (host : DebugHost) (c : ResolvedDebugConfiguration) (c1 : string) :
  well_formed host ->
  cleanupName c = Some c1 ->
  let registered := registerRemoveContainerAfterDebugging removeSucceeds c host in
  let mine := mkListener (nextDisposable host) c1 in
  let earlier := length (List.filter (watches c1) (listeners host)) in
  In mine (listeners registered) /\
  (forall session c2, sessionName session = Some c2 -> c2 <> c1 ->
     In mine (listeners (fireDidTerminateDebugSession removeSucceeds session registered)) /\
     List.filter (watches c1)
       (listeners (fireDidTerminateDebugSession removeSucceeds session registered))
     = List.filter (watches c1) (listeners registered) /\
     exists k,
       removeCalls (fireDidTerminateDebugSession removeSucceeds session registered)
       = removeCalls registered ++ repeat c2 k) /\
  (forall session, sessionName session = None ->
     fireDidTerminateDebugSession removeSucceeds session registered = registered) /\
  (forall session, sessionName session = Some c1 ->
     removeCalls (fireDidTerminateDebugSession removeSucceeds session registered)
     = removeCalls registered ++ repeat c1 (S earlier) /\
     listeners (fireDidTerminateDebugSession removeSucceeds session registered)
     = List.filter (fun l => negb (watches c1 l)) (listeners host) /\
     ~ In mine (listeners (fireDidTerminateDebugSession removeSucceeds session registered)) /\
     (forall l,
        In l (listeners (fireDidTerminateDebugSession removeSucceeds session registered)) ->
        watched l <> c1)) /\
  ((forall l, In l (listeners host) -> watched l <> c1) ->
   forall session, sessionName session = Some c1 ->
     removeCalls (fireDidTerminateDebugSession removeSucceeds session registered)
     = removeCalls registered ++ [c1] /\
     listeners (fireDidTerminateDebugSession removeSucceeds session registered)
     = listeners host).
Proof.
  intros Hwf Hc registered mine earlier.
  assert (Hwf' : well_formed registered) by now apply register_well_formed.
  destruct (register_listeners c c1 host Hc) as (HL & _ & _).
  fold registered in HL. fold mine in HL.
  assert (Hmine : watches c1 mine = true) by (unfold watches, mine; simpl; apply String.eqb_refl).
  assert (Hown : forall session, sessionName session = Some c1 ->
            removeCalls (fireDidTerminateDebugSession removeSucceeds session registered)
            = removeCalls registered ++ repeat c1 (S earlier) /\
            listeners (fireDidTerminateDebugSession removeSucceeds session registered)
            = List.filter (fun l => negb (watches c1 l)) (listeners host)).
  { intros session Hs.
    destruct (fire_named session c1 registered Hwf' Hs) as [Hl Hr]. split.
    - rewrite Hr, HL, List.filter_app, List.length_app. simpl. rewrite Hmine. simpl.
      fold earlier. now rewrite Nat.add_1_r.
    - rewrite Hl, HL, List.filter_app. simpl. rewrite Hmine. simpl. apply app_nil_r. }
  split; [rewrite HL; apply in_or_app; right; now left|].
  split; [|split; [|split]].
  - intros session c2 Hs Hne.
    destruct (fire_named session c2 registered Hwf' Hs) as [Hl Hr].
    split; [|split; [|eauto]].
    + rewrite Hl, HL. apply List.filter_In. split; [apply in_or_app; right; now left|].
      unfold watches, mine; simpl. apply negb_true_iff.
      apply not_true_is_false. intros E. now apply String.eqb_eq in E.
    + rewrite Hl. apply filter_watches_others. congruence.
  - intros session Hs. now apply fire_unnamed.
  - intros session Hs. destruct (Hown session Hs) as [Hr Hl].
    split; [exact Hr|]. split; [exact Hl|]. rewrite Hl. split.
    + intros Hin. apply List.filter_In in Hin as [_ Hin]. now rewrite Hmine in Hin.
    + intros l Hin Hwatched. apply List.filter_In in Hin as [_ Hin].
      unfold watches in Hin. rewrite Hwatched, String.eqb_refl in Hin. discriminate.
  - intros Hnone session Hs. destruct (Hown session Hs) as [Hr Hl].
    assert (Hothers : forall x, In x (listeners host) -> watches c1 x = false).
    { intros x Hx. unfold watches. apply not_true_is_false. intros E.
      apply String.eqb_eq in E. now apply (Hnone x Hx). }
    split.
    + rewrite Hr. unfold earlier. now rewrite (filter_none _ _ Hothers).
    + rewrite Hl. apply filter_all. intros x Hx. now rewrite (Hothers x Hx).
Qed.

End Cleanup.

Lemma cleanup_only_for_own_container_witness :
  let registered :=
    DockerDebugConfigurationProvider.registerRemoveContainerAfterDebugging
      (fun _ _ => true) (resolvedFor "c1") freshHost in
  In (mkListener 0 "c1")
     (listeners (DockerDebugConfigurationProvider.fireDidTerminateDebugSession
                   (fun _ _ => true) (Some (resolvedFor "c2")) registered))
  /\ removeCalls (DockerDebugConfigurationProvider.fireDidTerminateDebugSession
                    (fun _ _ => true) (Some (resolvedFor "c1")) registered)
     = removeCalls registered ++ ["c1"]
  /\ listeners (DockerDebugConfigurationProvider.fireDidTerminateDebugSession
                  (fun _ _ => true) (Some (resolvedFor "c1")) registered) = [].
Proof.
  assert (Hwf : well_formed freshHost) by (split; constructor).
  assert (Hnone : forall l, In l (listeners freshHost) -> watched l <> "c1") by (intros l []).
  destruct (cleanup_only_for_own_container (fun _ _ => true) freshHost (resolvedFor "c1") "c1"
              Hwf eq_refl) as (_ & Hother & _ & _ & Hown).
  split; [|split].
  - apply (Hother (Some (resolvedFor "c2")) "c2" eq_refl). discriminate.
  - apply (Hown Hnone (Some (resolvedFor "c1")) eq_refl).
  - apply (Hown Hnone (Some (resolvedFor "c1")) eq_refl).
Defined.

(** C2, as the claim states it, fails: when an earlier resolution for [c1]
    left its listener (its session never ended), the end of one session
    that names [c1] calls [removeContainer] for [c1] twice. *)
Lemma stale_listener_removes_twice :
  let host :=
    DockerDebugConfigurationProvider.registerRemoveContainerAfterDebugging
      (fun _ _ => true) (resolvedFor "c1") freshHost in
  let registered :=
    DockerDebugConfigurationProvider.registerRemoveContainerAfterDebugging
      (fun _ _ => true) (resolvedFor "c1") host in
  let ended :=
    DockerDebugConfigurationProvider.fireDidTerminateDebugSession
      (fun _ _ => true) (Some (resolvedFor "c1")) registered in
  listeners host = [mkListener 0 "c1"] /\
  sessionName (Some (resolvedFor "c1")) = Some "c1" /\
  removeCalls ended = removeCalls registered ++ ["c1"; "c1"] /\
  removeCalls ended <> removeCalls registered ++ ["c1"].
Proof. vm_compute. repeat split; try reflexivity. discriminate. Qed.

(** ** User secrets *)

Section UserSecrets.

Lemma ci_prefix_token pat tok post :
  Str.toLowerCase tok = Str.toLowerCase pat -> Str.ci_prefix pat (tok +:+ post) = true.
Proof.
  revert tok. induction pat as [|p pat IH]; intros tok H; [reflexivity|].
  destruct tok as [|c tok]; simpl in H; [discriminate|].
  injection H as Hc Htl. simpl. rewrite Hc, Ascii.eqb_refl. simpl. now apply IH.
Qed.

Lemma ci_test_skip pat pre rest :
  Str.ci_test pat rest = true -> Str.ci_test pat (pre +:+ rest) = true.
Proof.
  intros H. induction pre as [|c pre IH]; [exact H|].
  simpl. rewrite IH. apply orb_true_r.
Qed.

Lemma ci_test_token pat contents :
  has_token pat contents -> Str.ci_test pat contents = true.
Proof.
  intros (pre & tok & post & -> & Htok).
  apply ci_test_skip.
  destruct (tok +:+ post) eqn:E; simpl;
    rewrite <- E, (ci_prefix_token pat tok post Htok); reflexivity.
Qed.

(** The converse: a match of the regular expression is a token in some
    character case. *)
Lemma ci_prefix_inv pat s :
  Str.ci_prefix pat s = true ->
  exists tok post, s = tok +:+ post /\ Str.toLowerCase tok = Str.toLowerCase pat.
Proof.
  revert s. induction pat as [|p pat IH]; intros s H.
  - exists EmptyString, s. now split.
  - destruct s as [|c s]; simpl in H; [discriminate|].
    apply andb_true_iff in H as [Hc Hs]. apply Ascii.eqb_eq in Hc.
    destruct (IH s Hs) as (tok & post & -> & Htok).
    exists (String c tok), post. split; [reflexivity|]. simpl. now rewrite Hc, Htok.
Qed.

Lemma ci_test_inv pat contents :
  Str.ci_test pat contents = true -> has_token pat contents.
Proof.
  induction contents as [|c s IH]; simpl; intros H.
  - rewrite orb_false_r in H. destruct (ci_prefix_inv _ _ H) as (tok & post & E & Htok).
    exists EmptyString, tok, post. now split.
  - apply orb_true_iff in H as [H|H].
    + destruct (ci_prefix_inv _ _ H) as (tok & post & E & Htok).
      exists EmptyString, tok, post. now split.
    + destruct (IH H) as (pre & tok & post & -> & Htok).
      exists (String c pre), tok, post. now split.
Qed.

(** C6. When the project file holds [UserSecretsId] in any character case,
    user secrets are inferred, in the task helper and in the debug
    configuration provider, also when SSL is not; and when SSL is inferred,
    user secrets are inferred without looking at the file. *)
Theorem user_secrets_inferred
    (h : Host) (sv : CoreClr.Services) (folder : WorkspaceFolder)
    (project contents : string) (configureSsl : option bool) :
  has_token "UserSecretsId" contents ->
  let helperOptions := mkNetCoreTaskOptions (Some project) configureSsl in
  (fse_readFile h project = Ok contents ->
   NetCoreTaskHelper.inferUserSecrets h folder helperOptions = Ok true /\
   NetCoreTaskHelper.userSecretsOf h folder helperOptions false = Ok true) /\
  (CoreClr.fileExists sv project = true -> CoreClr.readFile sv project = Ok contents ->
   CoreClr.inferUserSecrets sv false project = Ok (Some true)) /\
  NetCoreTaskHelper.userSecretsOf h folder helperOptions true = Ok true /\
  CoreClr.inferUserSecrets sv true project = Ok (Some true).
Proof.
  intros Htok helperOptions.
  pose proof (ci_test_token _ _ Htok) as Htest.
  split; [|split; [|split]]; try reflexivity.
  - intros Hread.
    assert (NetCoreTaskHelper.inferUserSecrets h folder helperOptions = Ok true) as Hi.
    { unfold NetCoreTaskHelper.inferUserSecrets, helperOptions; simpl.
      rewrite Hread, bind_Ok. unfold NetCoreTaskHelper.UserSecretsRegex_test.
      now rewrite Htest. }
    split; [exact Hi | exact Hi].
  - intros Hex Hread. unfold CoreClr.inferUserSecrets. rewrite Hex, Hread, bind_Ok.
    unfold NetCoreTaskHelper.UserSecretsRegex_test. now rewrite Htest.
Qed.

Lemma user_secrets_inferred_witness :
  NetCoreTaskHelper.inferUserSecrets secretsHost Sample.folder
    (mkNetCoreTaskOptions (Some Sample.projectPath) None)
  = Ok true.
Proof.
  refine (proj1 (proj1 (user_secrets_inferred secretsHost Sample.services Sample.folder
                          Sample.projectPath secretsText None _) eq_refl)).
  exists "<PropertyGroup><", "usersecretsid", ">6c1f</usersecretsid></PropertyGroup>".
  split; reflexivity.
Defined.

End UserSecrets.

(** ** Inference of SSL *)

Section Ssl.

Lemma find_found p xs x :
  Json.find p xs = Ok x -> Json.truthy x = true -> In x xs /\ p x = Ok true.
Proof.
  induction xs as [|y ys IH]; simpl; intros Hf Ht.
  - injection Hf as <-. discriminate.
  - destruct (p y) as [[|]|e] eqn:Hp; simpl in Hf; try discriminate.
    + injection Hf as <-. split; [now left | exact Hp].
    + destruct (IH Hf Ht) as [Hin Hpx]. split; [now right | exact Hpx].
Qed.

Lemma sslOfSettings_true launchSettings :
  sslOfSettings launchSettings = Ok true -> https_project_profile launchSettings.
Proof.
  unfold sslOfSettings. intros H.
  destruct (Json.truthy launchSettings); [|discriminate].
  apply bind_inv in H as (profiles & Hprofiles & H).
  destruct (Json.truthy profiles); [|discriminate].
  apply bind_inv in H as (values & Hvalues & H).
  apply bind_inv in H as (projectProfile & Hfind & H).
  destruct (Json.truthy projectProfile) eqn:Htruthy; [|discriminate].
  apply bind_inv in H as (url & Hurl & H).
  injection H as H. apply andb_true_iff in H as [_ Hhttps].
  destruct (find_found _ _ _ Hfind Htruthy) as [Hin Hname].
  apply bind_inv in Hname as (name & Hname & Hproject).
  exists profiles, values, projectProfile, url.
  repeat split; try assumption.
  destruct name; try discriminate.
  injection Hproject as Hproject. apply String.eqb_eq in Hproject. now subst.
Qed.

Lemma task_inferSsl_try h helperOptions project :
  appProject helperOptions = Some project ->
  NetCoreTaskHelper.inferSsl_try h helperOptions
  = if fse_pathExists h (launchSettingsPath h project)
    then fse_readJson h (launchSettingsPath h project) ≫= sslOfSettings
    else Ok false.
Proof. intros Hp. unfold NetCoreTaskHelper.inferSsl_try. now rewrite Hp. Qed.

Lemma debug_inferSsl_try h sv project :
  CoreClr.inferSsl_try h sv project
  = if CoreClr.fileExists sv (launchSettingsPath h project)
    then fse_readJson h (launchSettingsPath h project) ≫= sslOfSettings
    else Ok false.
Proof. reflexivity. Qed.

(** Whatever was read, the guarded body yields false unless the settings
    hold an https project profile. *)
Lemma guarded_settings (exists_ : bool) (read : result Json.value) :
  (forall launchSettings, read = Ok launchSettings -> ~ https_project_profile launchSettings) ->
  try_catch (if exists_ then read ≫= sslOfSettings else Ok false) (fun _ => Ok false)
  = Ok false.
Proof.
  intros Hno. destruct exists_; [|reflexivity].
  destruct read as [launchSettings|e]; [|reflexivity].
  rewrite bind_Ok. destruct (sslOfSettings launchSettings) as [[|]|e] eqn:Hs; try reflexivity.
  exfalso. apply (Hno launchSettings eq_refl). now apply sslOfSettings_true.
Qed.

Lemma task_inferSsl_total h folder helperOptions :
  exists b, NetCoreTaskHelper.inferSsl h folder helperOptions = Ok b.
Proof. apply try_catch_total. Qed.

Lemma inferVolumes_total h folder runOptions project configureSsl ssl userSecrets :
  (os_platform h = "win32" -> process_env_ProgramFiles h <> None) ->
  exists vs,
    NetCoreTaskHelper.inferVolumes h folder runOptions
      (mkNetCoreTaskOptions (Some project) configureSsl) ssl userSecrets = Ok vs.
Proof.
  intros Hwin. unfold NetCoreTaskHelper.inferVolumes. simpl.
  destruct (String.eqb (os_platform h) "win32") eqn:Ew.
  - apply String.eqb_eq in Ew. specialize (Hwin Ew).
    destruct (process_env_ProgramFiles h) as [pf|]; [|congruence].
    simpl. destruct (userSecrets || ssl), ssl; eauto.
  - destruct (String.eqb (os_platform h) "darwin");
      simpl; destruct (userSecrets || ssl), ssl; eauto.
Qed.

(** C8. Inference of SSL never fails: both [inferSsl] functions return a
    boolean on every host; they return false when the launch settings
    are absent, cannot be read or parsed, or hold no project profile with
    an https application URL; the resolution of the run options goes on to
    its result whatever the launch settings are, and in the debug
    configuration provider the steps around it fail only by the output
    path or by the project file. *)
Theorem inferSsl_degrades_to_false
    (h : Host) (sv : CoreClr.Services) (folder : WorkspaceFolder)
    (helperOptions : NetCoreTaskOptions)
    (debugConfiguration : CoreClr.DockerDebugConfiguration) (projectFile : string) :
  (exists b, NetCoreTaskHelper.inferSsl h folder helperOptions = Ok b) /\
  (exists b, CoreClr.inferSsl h sv debugConfiguration projectFile = Ok b) /\
  (forall project,
     appProject helperOptions = Some project ->
     (forall launchSettings,
        fse_readJson h (launchSettingsPath h project) = Ok launchSettings ->
        ~ https_project_profile launchSettings) ->
     NetCoreTaskHelper.inferSsl h folder helperOptions = Ok false) /\
  (CoreClr.configureAspNetCoreSsl debugConfiguration = None ->
   (forall launchSettings,
      fse_readJson h (launchSettingsPath h projectFile) = Ok launchSettings ->
      ~ https_project_profile launchSettings) ->
   CoreClr.inferSsl h sv debugConfiguration projectFile = Ok false) /\
  (forall (C : Type) (TC : TaskCache C) (runOptions : DockerRunOptions) (cache : C)
          (project contents : string),
     NetCoreTaskHelper.inferAppProject h folder helperOptions = Ok project ->
     fse_readFile h project = Ok contents ->
     (os_platform h = "win32" -> process_env_ProgramFiles h <> None) ->
     exists r,
       NetCoreTaskHelper.resolveDockerRunOptions h folder runOptions (Some helperOptions) cache
       = Ok r) /\
  (forall e,
     middleSteps h sv debugConfiguration projectFile = Err e ->
     CoreClr.inferAppOutput h sv debugConfiguration (targetOsOf debugConfiguration) projectFile
     = Err e
     \/ exists ssl, CoreClr.inferUserSecrets sv ssl projectFile = Err e).
Proof.
  split; [apply task_inferSsl_total|].
  split; [unfold CoreClr.inferSsl;
          destruct (CoreClr.configureAspNetCoreSsl debugConfiguration);
          [eauto | apply try_catch_total]|].
  split; [|split; [|split]].
  - intros project Hp Hno. unfold NetCoreTaskHelper.inferSsl.
    rewrite (task_inferSsl_try _ _ _ Hp). now apply guarded_settings.
  - intros Hc Hno. unfold CoreClr.inferSsl. rewrite Hc, debug_inferSsl_try.
    now apply guarded_settings.
  - intros C TC runOptions cache project contents Hproject Hread Hwin.
    unfold NetCoreTaskHelper.resolveDockerRunOptions. simpl Js.or_obj.
    rewrite Hproject, bind_Ok.
    cbn [mbind result_bind NetCoreTaskHelper.inferAppName appProject].
    set (ho := mkNetCoreTaskOptions (Some project) (configureSsl helperOptions)).
    assert (Hssl : exists b,
               match configureSsl ho with
               | Some b => Ok b
               | None => NetCoreTaskHelper.inferSsl h folder ho
               end = Ok b).
    { destruct (configureSsl ho); [eauto | apply task_inferSsl_total]. }
    destruct Hssl as [ssl ->]. rewrite bind_Ok.
    assert (Hus : exists b, NetCoreTaskHelper.userSecretsOf h folder ho ssl = Ok b).
    { unfold NetCoreTaskHelper.userSecretsOf, NetCoreTaskHelper.inferUserSecrets.
      destruct ssl; [eauto|]. simpl. rewrite Hread, bind_Ok. eauto. }
    destruct Hus as [userSecrets ->]. rewrite bind_Ok.
    match goal with
    | |- context [NetCoreTaskHelper.inferVolumes h folder ?ro ho ssl userSecrets] =>
        destruct (inferVolumes_total h folder ro project (configureSsl helperOptions)
                    ssl userSecrets Hwin) as [vs Hvs]
    end.
    fold ho in Hvs. rewrite Hvs, bind_Ok. eauto.
  - intros e. unfold middleSteps.
    destruct (CoreClr.inferAppOutput h sv debugConfiguration _ projectFile) as [out|e'];
      [|intros [= ->]; now left].
    rewrite bind_Ok.
    assert (Hssl : exists b, CoreClr.inferSsl h sv debugConfiguration projectFile = Ok b).
    { unfold CoreClr.inferSsl.
      destruct (CoreClr.configureAspNetCoreSsl debugConfiguration);
        [eauto | apply try_catch_total]. }
    destruct Hssl as [ssl ->]. rewrite bind_Ok.
    destruct (CoreClr.inferUserSecrets sv ssl projectFile) as [us|e'] eqn:Hus;
      [discriminate|].
    intros [= ->]. right. eauto.
Qed.

End Ssl.

Lemma inferSsl_degrades_to_false_witness :
  NetCoreTaskHelper.inferSsl brokenSettingsHost Sample.folder
    (mkNetCoreTaskOptions (Some Sample.projectPath) None) = Ok false
  /\ exists r,
       NetCoreTaskHelper.resolveDockerRunOptions brokenSettingsHost Sample.folder
         NetCoreScaffolding.emptyRunOptions
         (Some (mkNetCoreTaskOptions (Some Sample.projectPath) None)) emptyCache
       = Ok r.
Proof.
  destruct (inferSsl_degrades_to_false brokenSettingsHost Sample.services Sample.folder
              (mkNetCoreTaskOptions (Some Sample.projectPath) None)
              sampleDebugConfiguration Sample.projectPath)
    as (_ & _ & Hfalse & _ & Hgoes & _).
  split.
  - apply (Hfalse Sample.projectPath eq_refl). intros launchSettings Hread. discriminate.
  - apply (Hgoes _ _ NetCoreScaffolding.emptyRunOptions emptyCache
             Sample.projectPath Sample.projectText); [reflexivity | reflexivity |].
    intros Hwin. discriminate.
Defined.

(** ** Entry point and command of the run options *)

Section Entrypoint.

Import NetCoreTaskHelper.

Context {C : Type} `{TaskCache C}.

(** What [resolveDockerRunOptions] assigns to the entry point and to the
    command, whatever the host. *)
Lemma resolved_entrypoint_command (h : Host) (folder : WorkspaceFolder)
    (runOptions : DockerRunOptions) (helperOptions : option NetCoreTaskOptions) (cache : C)
    (resolved : DockerRunOptions) (helperOptions' : NetCoreTaskOptions) (cache' : C) :
  resolveDockerRunOptions h folder runOptions helperOptions cache
  = Ok (resolved, helperOptions', cache') ->
  entrypoint resolved
  = Some (if Js.truthy (entrypoint runOptions) || isWindows (os runOptions)
          then "ping" else "tail")
  /\ command resolved
     = Some (if Js.truthy (command runOptions) || isWindows (os runOptions)
             then "-t localhost" else "-f /dev/null")
  /\ os resolved = Some (Js.or_obj (os runOptions) Linux).
Proof.
  unfold resolveDockerRunOptions. intros Hr.
  apply bind_inv in Hr as (project & _ & Hr). cbv zeta in Hr.
  apply bind_inv in Hr as (appName & _ & Hr).
  apply bind_inv in Hr as (ssl & _ & Hr).
  apply bind_inv in Hr as (userSecrets & _ & Hr).
  apply bind_inv in Hr as (newVolumes & _ & Hr).
  injection Hr as <- _ _.
  unfold entrypointOf, commandOf. simpl.
  destruct (os runOptions) as [[|]|]; simpl; auto.
Qed.

(** A user's entry point or command is replaced, by the Windows default. *)
Lemma user_entrypoint_replaced (h : Host) (folder : WorkspaceFolder)
    (runOptions : DockerRunOptions) (helperOptions : option NetCoreTaskOptions) (cache : C)
    (resolved : DockerRunOptions) (helperOptions' : NetCoreTaskOptions) (cache' : C) :
  resolveDockerRunOptions h folder runOptions helperOptions cache
  = Ok (resolved, helperOptions', cache') ->
  (Js.truthy (entrypoint runOptions) = true -> entrypoint resolved = Some "ping") /\
  (Js.truthy (command runOptions) = true -> command resolved = Some "-t localhost").
Proof.
  intros Hr. destruct (resolved_entrypoint_command _ _ _ _ _ _ _ _ Hr) as (He & Hc & _).
  split; intros Ht; [rewrite He | rewrite Hc]; now rewrite Ht.
Qed.

(** Resolving what a resolution returned always ends on the Windows
    defaults, also for a Linux container. *)
Lemma second_resolution_entrypoint (h : Host) (folder : WorkspaceFolder)
    (runOptions : DockerRunOptions) (helperOptions : option NetCoreTaskOptions) (cache : C)
    (resolved : DockerRunOptions) (helperOptions' : NetCoreTaskOptions) (cache' : C) :
  resolveTwice h folder runOptions helperOptions cache = Ok (resolved, helperOptions', cache') ->
  entrypoint resolved = Some "ping" /\ command resolved = Some "-t localhost".
Proof.
  unfold resolveTwice. intros Hr.
  apply bind_inv in Hr as ([[first ho] c] & H1 & H2).
  destruct (resolved_entrypoint_command _ _ _ _ _ _ _ _ H1) as (He & Hc & _).
  destruct (user_entrypoint_replaced _ _ _ _ _ _ _ _ H2) as (He2 & Hc2).
  split.
  - apply He2. rewrite He.
    destruct (Js.truthy (entrypoint runOptions) || isWindows (os runOptions)); reflexivity.
  - apply Hc2. rewrite Hc.
    destruct (Js.truthy (command runOptions) || isWindows (os runOptions)); reflexivity.
Qed.

End Entrypoint.

(** C4. Resolving the empty run options of the sample workspace gives the
    entry point [tail] and the command [-f /dev/null]; resolving the
    result once more, with the helper options and the cache that the first
    resolution left or with those it was given, gives [ping] and
    [-t localhost]: the second resolution does not return what the first
    returned. *)
Theorem resolving_twice_differs :
  let once :=
    resolvedRunOptions
      (NetCoreTaskHelper.resolveDockerRunOptions Sample.host Sample.folder
         NetCoreScaffolding.emptyRunOptions (Some Sample.helperOptions) emptyCache) in
  let twice :=
    resolvedRunOptions
      (resolveTwice Sample.host Sample.folder
         NetCoreScaffolding.emptyRunOptions (Some Sample.helperOptions) emptyCache) in
  let again :=
    once ≫= fun resolved =>
      resolvedRunOptions
        (NetCoreTaskHelper.resolveDockerRunOptions Sample.host Sample.folder
           resolved (Some Sample.helperOptions) emptyCache) in
  (once ≫= entrypoint) = Some "tail" /\
  (once ≫= command) = Some "-f /dev/null" /\
  (once ≫= os) = Some Linux /\
  (twice ≫= entrypoint) = Some "ping" /\
  (twice ≫= command) = Some "-t localhost" /\
  (again ≫= entrypoint) = Some "ping" /\
  (again ≫= command) = Some "-t localhost" /\
  once <> twice /\
  once <> again.
Proof.
  vm_compute. repeat split; try reflexivity; discriminate.
Qed.

(** C5. With the entry point [dotnet] and the command [WebApi.dll] chosen
    by the user, and no operating system given, the resolution returns the
    entry point [ping] and the command [-t localhost]. *)
Theorem user_entrypoint_not_kept :
  let resolved :=
    resolvedRunOptions
      (NetCoreTaskHelper.resolveDockerRunOptions Sample.host Sample.folder
         userRunOptions (Some Sample.helperOptions) emptyCache) in
  entrypoint userRunOptions = Some "dotnet" /\
  command userRunOptions = Some "WebApi.dll" /\
  (resolved ≫= entrypoint) = Some "ping" /\
  (resolved ≫= command) = Some "-t localhost" /\
  (resolved ≫= os) = Some Linux.
Proof. vm_compute. repeat split; reflexivity. Qed.

(** The later revision of the helper does not assign the entry point or
    the command: what the user (or the scaffolded task) chose is kept. *)
Lemma later_revision_keeps_entrypoint (h : Host) (im : NetCoreScaffolding.Imports)
    (context : NetCoreScaffolding.DockerRunTaskContext)
    (runDefinition : DockerRunTaskDefinition) (resolved : DockerRunOptions) :
  NetCoreScaffolding.resolveDockerRunOptions h im context runDefinition = Ok resolved ->
  entrypoint resolved = entrypoint (dockerRun runDefinition) /\
  command resolved = command (dockerRun runDefinition).
Proof.
  unfold NetCoreScaffolding.resolveDockerRunOptions. intros Hr.
  apply bind_inv in Hr as (project & _ & Hr). cbv zeta in Hr.
  apply bind_inv in Hr as (ssl & _ & Hr).
  apply bind_inv in Hr as (userSecrets & _ & Hr).
  apply bind_inv in Hr as (newVolumes & _ & Hr).
  injection Hr as <-. split; reflexivity.
Qed.

(** ** Default image tags *)

Section DefaultTags.

Import NetCoreTaskHelper.






End DefaultTags.

(** ** Missing artifacts of a debug configuration *)

Section MissingArtifacts.

Import CoreClr.

Variable h : Host.
Variable sv : Services.
Variable folder : WorkspaceFolder.
Variable configuration : DockerDebugConfiguration.

Lemma names_between (before part after : string) : names (before +:+ part +:+ after) part.
Proof. now exists before, after. Qed.

Lemma names_mentions (message part : string) :
  names message part -> mentions part message = true.
Proof.
  intros (before & after & ->).
  assert (Hprefix : String.prefix part (part +:+ after) = true).
  { clear. induction part as [|c part IH]; simpl.
    - now destruct after.
    - destruct (ascii_dec c c); [exact IH | congruence]. }
  induction before as [|c before IH].
  - change (EmptyString +:+ part +:+ after) with (part +:+ after).
    destruct (part +:+ after); cbn [mentions]; now rewrite Hprefix.
  - change (String c before +:+ part +:+ after)
      with (String c (before +:+ part +:+ after)).
    cbn [mentions]. rewrite IH. apply orb_true_r.
Qed.

Lemma inferAppFolder_eq :
  inferAppFolder h sv folder configuration
  = if dirExists sv (resolvedAppFolderOf h sv folder configuration)
    then Ok (appFolderOf h folder configuration,
             resolvedAppFolderOf h sv folder configuration)
    else Err (Error (appFolderMissing (resolvedAppFolderOf h sv folder configuration))).
Proof.
  unfold inferAppFolder, resolvedAppFolderOf, appFolderOf.
  now destruct (dirExists sv _).
Qed.

Lemma inferContext_eq :
  inferContext h sv folder (resolvedAppFolderOf h sv folder configuration) configuration
  = if dirExists sv (contextOf h sv folder configuration)
    then Ok (contextOf h sv folder configuration)
    else Err (Error (contextMissing (contextOf h sv folder configuration))).
Proof.
  unfold inferContext, contextOf. now destruct (dirExists sv _).
Qed.

Lemma inferDockerfile_eq :
  inferDockerfile h sv folder (resolvedAppFolderOf h sv folder configuration) configuration
  = if fileExists sv (dockerfileOf h sv folder configuration)
    then Ok (dockerfileOf h sv folder configuration)
    else Err (Error (dockerfileMissing (dockerfileOf h sv folder configuration))).
Proof.
  unfold inferDockerfile, dockerfileOf. now destruct (fileExists sv _).
Qed.

(** The project file that is checked, when there is one. *)
Lemma inferAppProject_checked appProject resolvedAppProject :
  inferAppProject h sv folder configuration (resolvedAppFolderOf h sv folder configuration)
  = Ok (appProject, resolvedAppProject) ->
  resolvedAppProject = resolveFilePath sv appProject folder /\
  fileExists sv resolvedAppProject = true.
Proof.
  unfold inferAppProject. intros H.
  apply bind_inv in H as ([p|] & _ & H); [|discriminate].
  destruct (fileExists sv (resolveFilePath sv p folder)) eqn:E; simpl in H; [|discriminate].
  injection H as <- <-. now split.
Qed.

(** The resolution, step by step. *)
Lemma resolve_steps :
  resolveDockerDebugConfiguration h sv (Some folder) configuration
  = ('(appFolder, resolvedAppFolder) ← inferAppFolder h sv folder configuration;
     '(_, resolvedAppProject) ← inferAppProject h sv folder configuration resolvedAppFolder;
     '(appOutput, ssl, userSecrets) ← middleSteps h sv configuration resolvedAppProject;
     buildOptions ←
       inferBuildOptions h sv folder configuration appFolder resolvedAppFolder
         (path_parse_name h resolvedAppProject);
     let launchOptions :=
       mkLaunchOptions resolvedAppFolder appOutput resolvedAppProject buildOptions
         (inferRunOptions sv folder configuration (path_parse_name h resolvedAppProject)
            (targetOsOf configuration) ssl userSecrets) in
     prerequisiteSatisfied ← checkPrerequisite sv launchOptions;
     if negb prerequisiteSatisfied then Ok None
     else
       result ← prepareForLaunch sv launchOptions;
       Ok (Some (createConfiguration h configuration appFolder result))).
Proof.
  unfold resolveDockerDebugConfiguration, middleSteps, targetOsOf.
  destruct (inferAppFolder h sv folder configuration) as [[af raf]|e]; [|reflexivity].
  simpl. destruct (inferAppProject h sv folder configuration raf) as [[ap rap]|e];
    [|reflexivity].
  simpl. destruct (inferAppOutput h sv configuration _ rap) as [out|e]; [|reflexivity].
  simpl. destruct (inferSsl h sv configuration rap) as [ssl|e]; [|reflexivity].
  simpl. destruct (inferUserSecrets sv ssl rap) as [us|e]; reflexivity.
Qed.

Lemma names_after (before message part : string) :
  names message part -> names (before +:+ message) part.
Proof.
  intros (b & a & ->). exists (before +:+ b), a.
  induction before as [|c before IH]; [reflexivity|].
  transitivity (String c (before +:+ b +:+ part +:+ a)); [reflexivity|].
  rewrite IH. reflexivity.
Qed.

Lemma missing_messages :
  (forall p, names (appFolderMissing p) p /\
             names (appFolderMissing p) "'appFolder'" /\
             names (appFolderMissing p) "'appProject'") /\
  (forall p, names (appProjectMissing p) p /\
             names (appProjectMissing p) "'appFolder'" /\
             names (appProjectMissing p) "'appProject'") /\
  (names appProjectNotInferred "'appFolder'" /\
   names appProjectNotInferred "'appProject'") /\
  (forall p, names (contextMissing p) p /\ names (contextMissing p) "'context'") /\
  (forall p, names (dockerfileMissing p) p /\ names (dockerfileMissing p) "'dockerfile'").
Proof.
  split; [|split; [|split; [|split]]].
  - intros p. split; [apply names_between|].
    split; unfold appFolderMissing; do 2 apply names_after.
    + now exists "' does not exist. Ensure that the ",
        " or 'appProject' property is set correctly in the Docker debug configuration.".
    + now exists "' does not exist. Ensure that the 'appFolder' or ",
        " property is set correctly in the Docker debug configuration.".
  - intros p. split; [apply names_between|].
    split; unfold appProjectMissing; do 2 apply names_after.
    + now exists "' does not exist. Ensure that the ",
        " or 'appProject' property is set correctly in the Docker debug configuration.".
    + now exists "' does not exist. Ensure that the 'appFolder' or ",
        " property is set correctly in the Docker debug configuration.".
  - split.
    + now exists "Unable to infer the application project file. Set either the ",
        " or 'appProject' property in the Docker debug configuration.".
    + now exists "Unable to infer the application project file. Set either the 'appFolder' or ",
        " property in the Docker debug configuration.".
  - intros p. split; [apply names_between|].
    unfold contextMissing; do 2 apply names_after.
    now exists "' does not exist. Ensure that the ",
      " property is set correctly in the Docker debug configuration.".
  - intros p. split; [apply names_between|].
    unfold dockerfileMissing; do 2 apply names_after.
    now exists "' does not exist. Ensure that the ",
      " property is set correctly in the Docker debug configuration.".
Qed.

(** C9, as the code has it. When the application folder, the project
    file, the build context or the Dockerfile cannot be located, the
    resolution ends in the error of the first check that fails (in this
    order, the steps before it having passed) and never in a
    configuration.  The message of a check for a given path names this
    path and the property to set; when no project file is found in the
    application folder, the message names the properties to set and no
    path. *)
Theorem missing_artifact_raises :
  let resolution := resolveDockerDebugConfiguration h sv (Some folder) configuration in
  let resolvedAppFolder := resolvedAppFolderOf h sv folder configuration in
  let context := contextOf h sv folder configuration in
  let dockerfile := dockerfileOf h sv folder configuration in
  (dirExists sv resolvedAppFolder = false ->
   resolution = Err (Error (appFolderMissing resolvedAppFolder))) /\
  (dirExists sv resolvedAppFolder = true ->
   (forall project,
      appProject configuration = Some project -> project <> "" ->
      fileExists sv (resolveFilePath sv project folder) = false ->
      resolution = Err (Error (appProjectMissing (resolveFilePath sv project folder)))) /\
   (Js.truthy (appProject configuration) = false ->
    forall files,
      readDir sv resolvedAppFolder = Ok files ->
      (List.find (isProjectFile h) files = None ->
       resolution = Err (Error appProjectNotInferred)) /\
      (forall file,
         List.find (isProjectFile h) files = Some file -> file <> "" ->
         let project := resolveFilePath sv (path_join h [resolvedAppFolder; file]) folder in
         fileExists sv project = false ->
         resolution = Err (Error (appProjectMissing project))))) /\
  (forall appProject resolvedAppProject middle,
     dirExists sv resolvedAppFolder = true ->
     inferAppProject h sv folder configuration resolvedAppFolder
     = Ok (appProject, resolvedAppProject) ->
     middleSteps h sv configuration resolvedAppProject = Ok middle ->
     (dirExists sv context = false -> resolution = Err (Error (contextMissing context))) /\
     (dirExists sv context = true -> fileExists sv dockerfile = false ->
      resolution = Err (Error (dockerfileMissing dockerfile)))) /\
  (forall configurationOrNothing,
     resolution = Ok configurationOrNothing ->
     dirExists sv resolvedAppFolder = true /\
     (exists appProject,
        inferAppProject h sv folder configuration resolvedAppFolder
        = Ok (appProject, resolveFilePath sv appProject folder) /\
        fileExists sv (resolveFilePath sv appProject folder) = true) /\
     dirExists sv context = true /\
     fileExists sv dockerfile = true) /\
  (forall p, names (appFolderMissing p) p /\ names (appFolderMissing p) "'appFolder'") /\
  (forall p, names (appProjectMissing p) p /\ names (appProjectMissing p) "'appProject'") /\
  names appProjectNotInferred "'appProject'" /\
  (forall p, names (contextMissing p) p /\ names (contextMissing p) "'context'") /\
  (forall p, names (dockerfileMissing p) p /\ names (dockerfileMissing p) "'dockerfile'").
Proof.
  intros resolution resolvedAppFolder context dockerfile.
  subst resolution resolvedAppFolder context dockerfile.
  rewrite resolve_steps, inferAppFolder_eq.
  split; [intros ->; reflexivity|].
  split; [|split; [|split]].
  - intros ->. rewrite bind_Ok. cbv beta iota. split.
    + intros project Hp Hne Hmissing. unfold inferAppProject. rewrite Hp.
      assert (Ht : Js.truthy (Some project) = true).
      { simpl. destruct (String.eqb project "") eqn:E; [|reflexivity].
        apply String.eqb_eq in E. contradiction. }
      rewrite Ht, bind_Ok, Hmissing. reflexivity.
    + intros Hnone files Hfiles. unfold inferAppProject.
      rewrite Hnone, Hfiles, bind_Ok. split.
      * intros ->. reflexivity.
      * intros file Hfind Hne. rewrite Hfind. intros Hmissing.
        assert (Ht : Js.truthy (Some file) = true).
        { simpl. destruct (String.eqb file "") eqn:E; [|reflexivity].
          apply String.eqb_eq in E. contradiction. }
        rewrite Ht, bind_Ok. cbv zeta in Hmissing. now rewrite Hmissing.
  - intros ap rap [[out ssl] us] -> Hproject Hmiddle.
    rewrite bind_Ok. cbv beta iota. rewrite Hproject, bind_Ok. cbv beta iota.
    rewrite Hmiddle, bind_Ok. cbv beta iota.
    unfold inferBuildOptions. rewrite inferContext_eq. split.
    + intros ->. reflexivity.
    + intros -> Hmissing. rewrite bind_Ok, inferDockerfile_eq.
      now rewrite Hmissing.
  - intros r Hr.
    destruct (dirExists sv (resolvedAppFolderOf h sv folder configuration)) eqn:Hfolder;
      [|discriminate].
    rewrite bind_Ok in Hr. cbv beta iota in Hr.
    apply bind_inv in Hr as ([ap rap] & Hproject & Hr).
    apply bind_inv in Hr as ([[out ssl] us] & _ & Hr).
    apply bind_inv in Hr as (buildOptions & Hbuild & _).
    unfold inferBuildOptions in Hbuild. rewrite inferContext_eq in Hbuild.
    destruct (dirExists sv (contextOf h sv folder configuration)); [|discriminate].
    rewrite bind_Ok, inferDockerfile_eq in Hbuild.
    destruct (fileExists sv (dockerfileOf h sv folder configuration)); [|discriminate].
    destruct (inferAppProject_checked _ _ Hproject) as [-> Hexists].
    split; [reflexivity|]. split; [|split; reflexivity].
    exists ap. now split.
  - destruct missing_messages as (Hf & Hp & Hn & Hc & Hd).
    split; [intros p; split; apply (Hf p)|].
    split; [intros p; split; apply (Hp p)|].
    split; [apply Hn|]. split; assumption.
Qed.

End MissingArtifacts.

Lemma missing_artifact_raises_witness :
  CoreClr.resolveDockerDebugConfiguration Sample.host Sample.services (Some Sample.folder)
    (CoreClr.mkDebugConfig "Docker .NET Core Launch" None (Some "/ws/elsewhere")
       None None None None None)
  = Err (Error "The application folder '/ws/elsewhere' does not exist. Ensure that the 'appFolder' or 'appProject' property is set correctly in the Docker debug configuration.").
Proof.
  apply (missing_artifact_raises Sample.host Sample.services Sample.folder
           (CoreClr.mkDebugConfig "Docker .NET Core Launch" None (Some "/ws/elsewhere")
              None None None None None)).
  reflexivity.
Defined.

(** C9, as the claim states it, fails: in a folder without a project file
    and with no [appProject] given, the project file cannot be located and
    the message of the error names no path. *)
Lemma project_not_inferred_names_no_path :
  CoreClr.resolveDockerDebugConfiguration Sample.host Sample.services (Some Sample.folder)
    sampleDebugConfiguration
  = Err (Error "Unable to infer the application project file. Set either the 'appFolder' or 'appProject' property in the Docker debug configuration.")
  /\ ~ names "Unable to infer the application project file. Set either the 'appFolder' or 'appProject' property in the Docker debug configuration." "/ws/myapp"
  /\ mentions "/" "Unable to infer the application project file. Set either the 'appFolder' or 'appProject' property in the Docker debug configuration." = false
  /\ mentions "\" "Unable to infer the application project file. Set either the 'appFolder' or 'appProject' property in the Docker debug configuration." = false.
Proof.
  split; [reflexivity|]. split; [|split; reflexivity].
  intros Hnames. apply names_mentions in Hnames. discriminate.
Qed.

(** ** What a second resolution changes *)

Section SecondResolution.

Import NetCoreTaskHelper.

Lemma add_keeps (vs : list DockerContainerVolume) (v x : DockerContainerVolume) :
  In x vs -> In x (add vs v).
Proof.
  unfold add, TaskHelper.addVolumeWithoutConflicts.
  destruct (List.find _ vs); simpl; [auto | intros; apply in_or_app; now left].
Qed.

Lemma add_maps (vs : list DockerContainerVolume) (v : DockerContainerVolume) :
  exists x, In x (add vs v) /\ containerPath x = containerPath v.
Proof.
  unfold add, TaskHelper.addVolumeWithoutConflicts.
  destruct (List.find _ vs) as [x|] eqn:Hf; simpl.
  - apply find_some in Hf as [Hin Heq]. apply String.eqb_eq in Heq. eauto.
  - exists v. split; [apply in_or_app; right; now left | reflexivity].
Qed.

Lemma add_present (vs : list DockerContainerVolume) (v : DockerContainerVolume) :
  (exists x, In x vs /\ containerPath x = containerPath v) -> add vs v = vs.
Proof. intros Hx. unfold add. now rewrite addVolume_conflict. Qed.

Lemma add_absent (vs : list DockerContainerVolume) (v : DockerContainerVolume) :
  ~ In (containerPath v) (map containerPath vs) -> add vs v = vs ++ [v].
Proof.
  intros Hnot. unfold add. rewrite addVolume_fresh; [reflexivity|].
  intros x Hx Heq. apply Hnot. rewrite <- Heq. now apply in_map.
Qed.

Lemma add_distinct (vs : list DockerContainerVolume) (v : DockerContainerVolume) :
  List.NoDup (map containerPath vs) -> List.NoDup (map containerPath (add vs v)).
Proof.
  intros Hnd. unfold add, TaskHelper.addVolumeWithoutConflicts.
  destruct (List.find _ vs) eqn:Hf; simpl; [exact Hnd|].
  rewrite map_app. simpl. apply List.NoDup_app; [exact Hnd | repeat constructor; intros [] |].
  intros k Hk [<-|[]]. apply in_map_iff in Hk as (x & Hkey & Hin).
  rewrite find_none_iff in Hf. specialize (Hf x Hin). simpl in Hf.
  rewrite Hkey, String.eqb_refl in Hf. discriminate.
Qed.

(** Adding a list of volumes one by one: the result has one volume per
    container path and maps the container path of every volume added. *)
Lemma adds_distinct (l vs : list DockerContainerVolume) :
  List.NoDup (map containerPath vs) -> List.NoDup (map containerPath (fold_left add l vs)).
Proof.
  revert vs. induction l as [|v l IH]; intros vs Hnd; simpl; [exact Hnd|].
  apply IH. now apply add_distinct.
Qed.

Lemma adds_keeps (l vs : list DockerContainerVolume) (x : DockerContainerVolume) :
  In x vs -> In x (fold_left add l vs).
Proof.
  revert vs. induction l as [|v l IH]; intros vs Hin; simpl; [exact Hin|].
  apply IH. now apply add_keeps.
Qed.

Lemma adds_maps (l vs : list DockerContainerVolume) (v : DockerContainerVolume) :
  In v l -> exists x, In x (fold_left add l vs) /\ containerPath x = containerPath v.
Proof.
  revert vs. induction l as [|w l IH]; intros vs; simpl; [intros []|].
  intros [->|Hin]; [|now apply IH].
  destruct (add_maps vs v) as (x & Hx & Hkey). exists x. split; [|exact Hkey].
  now apply adds_keeps.
Qed.

Lemma adds_present (l vs : list DockerContainerVolume) :
  (forall v, In v l -> exists x, In x vs /\ containerPath x = containerPath v) ->
  fold_left add l vs = vs.
Proof.
  induction l as [|v l IH]; intros Hall; simpl; [reflexivity|].
  rewrite add_present by (apply Hall; now left).
  apply IH. intros w Hw. apply Hall. now right.
Qed.

Lemma adds_fresh (l vs : list DockerContainerVolume) :
  List.NoDup (map containerPath (vs ++ l)) -> fold_left add l vs = vs ++ l.
Proof.
  revert vs. induction l as [|v l IH]; intros vs Hnd; simpl; [now rewrite app_nil_r|].
  assert (Hvs : vs ++ v :: l = (vs ++ [v]) ++ l) by now rewrite <- app_assoc.
  rewrite add_absent.
  - rewrite Hvs in Hnd. rewrite (IH _ Hnd). now rewrite <- app_assoc.
  - rewrite map_app in Hnd. simpl in Hnd. apply List.NoDup_remove_2 in Hnd.
    intros Hin. apply Hnd. apply in_or_app. now left.
Qed.

(** Adding again, to the result, what was added to obtain it changes
    nothing. *)
Lemma adds_idempotent (user defaults : list DockerContainerVolume) :
  let vs := fold_left add (user ++ defaults) [] in
  fold_left add (vs ++ defaults) [] = vs.
Proof.
  intros vs. rewrite fold_left_app.
  assert (Hnd : List.NoDup (map containerPath vs)) by (apply adds_distinct; constructor).
  rewrite (adds_fresh vs []) by exact Hnd. simpl.
  apply adds_present. intros v Hv. apply adds_maps. apply in_or_app. now right.
Qed.

Lemma inferVolumes_as_fold (h : Host) (folder : WorkspaceFolder) (runOptions : DockerRunOptions)
    (helperOptions : NetCoreTaskOptions) (ssl userSecrets : bool) :
  inferVolumes h folder runOptions helperOptions ssl userSecrets
  = (defaults ← defaultVolumes h folder (os runOptions) helperOptions ssl userSecrets;
     Ok (fold_left add (Js.or_obj (volumes runOptions) [] ++ defaults) [])).
Proof.
  unfold inferVolumes, defaultVolumes, TaskHelper.addAll.
  destruct (appProject helperOptions) as [project|]; [|reflexivity].
  rewrite !bind_Ok.
  change (fun (acc : list DockerContainerVolume) (x : DockerContainerVolume) =>
            snd (TaskHelper.addVolumeWithoutConflicts acc x)) with add.
  assert (Huser : match volumes runOptions with
                  | Some user => fold_left add user []
                  | None => []
                  end = fold_left add (Js.or_obj (volumes runOptions) []) []).
  { now destruct (volumes runOptions). }
  rewrite Huser.
  match goal with |- context [mbind _ ?m] => destruct m as [fallbackPath|e] end;
    [|reflexivity].
  rewrite !bind_Ok. rewrite fold_left_app.
  destruct (userSecrets || ssl), ssl; reflexivity.
Qed.

Lemma or_else_nonempty (x : option string) (d : string) :
  d <> "" -> Js.or_else x d <> "".
Proof.
  intros Hd. unfold Js.or_else. destruct x as [s|]; [|exact Hd].
  destruct (String.eqb s "") eqn:E; [exact Hd|]. now apply String.eqb_neq.
Qed.

Lemma or_else_some (s d : string) : s <> "" -> Js.or_else (Some s) d = s.
Proof.
  intros Hs. unfold Js.or_else. apply String.eqb_neq in Hs. now rewrite Hs.
Qed.

Lemma append_nonempty (a b : string) : b <> "" -> a +:+ b <> "".
Proof. destruct a; [auto | discriminate]. Qed.

Lemma dict_get_set (d : Dict.t) (k v : string) : Dict.get (Dict.set d k v) k = Some v.
Proof.
  induction d as [|[k' v'] d IH]; simpl; [now rewrite String.eqb_refl|].
  destruct (String.eqb k' k) eqn:E; simpl; rewrite E; [reflexivity | exact IH].
Qed.

Lemma dict_get_set_other (d : Dict.t) (k k' v : string) :
  k <> k' -> Dict.get (Dict.set d k v) k' = Dict.get d k'.
Proof.
  intros Hne. induction d as [|[k0 v0] d IH]; simpl.
  - apply String.eqb_neq in Hne. now rewrite Hne.
  - destruct (String.eqb k0 k) eqn:E; simpl.
    + apply String.eqb_eq in E. subst k0. apply String.eqb_neq in Hne. now rewrite Hne.
    + now rewrite IH.
Qed.

Lemma dict_set_same (d : Dict.t) (k v : string) :
  Dict.get d k = Some v -> Dict.set d k v = d.
Proof.
  induction d as [|[k' v'] d IH]; simpl; [discriminate|].
  destruct (String.eqb k' k) eqn:E.
  - now intros [= ->].
  - intros Hget. now rewrite IH.
Qed.

(** The environment block, run on its own result, changes nothing. *)
Lemma envOf_idempotent (runOptions runOptions' : DockerRunOptions) (ssl userSecrets : bool) :
  env runOptions' = envOf runOptions ssl userSecrets ->
  envOf runOptions' ssl userSecrets = envOf runOptions ssl userSecrets.
Proof.
  unfold envOf. intros ->. destruct userSecrets; [|reflexivity].
  set (e0 := Js.or_obj (env runOptions) []).
  set (v1 := Js.or_else (Dict.get e0 "ASPNETCORE_ENVIRONMENT") "Development").
  set (e1 := Dict.set e0 "ASPNETCORE_ENVIRONMENT" v1).
  assert (Hv1 : v1 <> "") by (apply or_else_nonempty; discriminate).
  destruct ssl; simpl Js.or_obj.
  - set (v2 := Js.or_else (Dict.get e1 "ASPNETCORE_URLS") "http://+:80;https://+:443").
    set (e2 := Dict.set e1 "ASPNETCORE_URLS" v2).
    assert (Hv2 : v2 <> "") by (apply or_else_nonempty; discriminate).
    assert (H1 : Dict.get e2 "ASPNETCORE_ENVIRONMENT" = Some v1).
    { unfold e2. rewrite dict_get_set_other by discriminate. apply dict_get_set. }
    rewrite H1, (or_else_some v1) by exact Hv1.
    rewrite (dict_set_same e2 _ v1 H1).
    assert (H2 : Dict.get e2 "ASPNETCORE_URLS" = Some v2) by apply dict_get_set.
    rewrite H2, (or_else_some v2) by exact Hv2.
    now rewrite (dict_set_same e2 _ v2 H2).
  - assert (H1 : Dict.get e1 "ASPNETCORE_ENVIRONMENT" = Some v1) by apply dict_get_set.
    rewrite H1, (or_else_some v1) by exact Hv1.
    now rewrite (dict_set_same e1 _ v1 H1).
Qed.

Context {C : Type} `{TaskCache C}.

(** Resolving what a resolution returned, with the helper options it
    left (the resolved project path resolving to itself), succeeds and returns
    the same run options except for the entry point and the command, which
    become [ping] and [-t localhost]. *)
Lemma second_resolution_changes_entrypoint_only (h : Host) (folder : WorkspaceFolder)
    (runOptions : DockerRunOptions) (helperOptions : option NetCoreTaskOptions) (cache : C)
    (resolved : DockerRunOptions) (helperOptions' : NetCoreTaskOptions) (cache' : C) :
  resolveDockerRunOptions h folder runOptions helperOptions cache
  = Ok (resolved, helperOptions', cache') ->
  (forall project,
     appProject helperOptions' = Some project ->
     inferAppProject h folder helperOptions' = Ok project) ->
  exists cache'',
    resolveDockerRunOptions h folder resolved (Some helperOptions') cache'
    = Ok (set_command (set_entrypoint resolved (Some "ping")) (Some "-t localhost"),
          helperOptions', cache'').
Proof.
  destruct runOptions as [cmd cname entry e efiles hosts img lbls net alias o prts vols].
  unfold resolveDockerRunOptions at 1. intros Hr Hstable.
  apply bind_inv in Hr as (project & _ & Hr). cbv zeta in Hr.
  apply bind_inv in Hr as (appName & Hname & Hr).
  apply bind_inv in Hr as (ssl & Hssl & Hr).
  apply bind_inv in Hr as (userSecrets & Hsecrets & Hr).
  apply bind_inv in Hr as (vs & Hvs & Hr).
  cbv beta iota delta
    [set_volumes set_env set_command set_entrypoint set_image set_os set_labels
     set_containerName command containerName entrypoint env envFiles extraHosts image
     labels network networkAlias os ports volumes entrypointOf commandOf envOf] in Hr, Hvs.
  injection Hr as <- <- _.
  set (ho := mkNetCoreTaskOptions (Some project)
               (configureSsl (Js.or_obj helperOptions (mkNetCoreTaskOptions None None)))) in *.
  assert (Hproject : inferAppProject h folder ho = Ok project) by now apply Hstable.
  unfold resolveDockerRunOptions. cbv zeta. cbn [Js.or_obj].
  rewrite Hproject, bind_Ok.
  change (mkNetCoreTaskOptions (Some project) (configureSsl ho)) with ho.
  rewrite Hname, bind_Ok.
  rewrite Hssl, bind_Ok, Hsecrets, bind_Ok.
  cbv beta iota delta
    [set_volumes set_env set_command set_entrypoint set_image set_os set_labels
     set_containerName command containerName entrypoint env envFiles extraHosts image
     labels network networkAlias os ports volumes entrypointOf commandOf].
  cbn [Js.or_obj].
  assert (Hcname : Js.or_else (Some (Js.or_else cname (appName +:+ "-dev")))
                     (appName +:+ "-dev")
                   = Js.or_else cname (appName +:+ "-dev")).
  { apply or_else_some, or_else_nonempty, append_nonempty. discriminate. }
  rewrite Hcname.
  set (img1 := Js.or_else img
                 (Js.or_else (cache_get cache project ≫= cachedImage) (appName +:+ ":dev")))
    in *.
  assert (Himg : forall d, Js.or_else (Some img1) d = img1).
  { intros d. apply or_else_some. unfold img1.
    apply or_else_nonempty, or_else_nonempty, append_nonempty. discriminate. }
  rewrite Himg.
  set (win := isWindows (Some (Js.or_obj o Linux))) in *.
  change (match Js.or_obj o Linux with Linux => false | Windows => true end) with win.
  assert (Hentry : Js.truthy (Some (if Js.truthy entry || win then "ping" else "tail")) = true)
    by (destruct (Js.truthy entry || win); reflexivity).
  assert (Hcmd : Js.truthy (Some (if Js.truthy cmd || win
                                  then "-t localhost" else "-f /dev/null")) = true)
    by (destruct (Js.truthy cmd || win); reflexivity).
  rewrite Hentry, Hcmd. cbn [orb].
  rewrite (envOf_idempotent
             (mkRunOptions cmd cname entry e efiles hosts img lbls net alias o prts vols))
    by reflexivity.
  rewrite inferVolumes_as_fold in Hvs. rewrite inferVolumes_as_fold.
  cbn [os volumes Js.or_obj] in *.
  apply bind_inv in Hvs as (defaults & Hdefaults & Hvs). injection Hvs as <-.
  rewrite Hdefaults, bind_Ok, adds_idempotent.
  eexists. reflexivity.
Qed.

End SecondResolution.

(** ** Volumes of the run options *)

Section Volumes.

Import NetCoreTaskHelper.

Lemma find_over_app {A : Type} (f : A -> bool) (l1 l2 : list A) :
  List.find f (l1 ++ l2)
  = match List.find f l1 with
    | Some x => Some x
    | None => List.find f l2
    end.
Proof.
  induction l1 as [|a l1 IH]; simpl; [reflexivity|].
  destruct (f a); [reflexivity | exact IH].
Qed.

Lemma volumeAt_add (p : string) (vs : list DockerContainerVolume) (v : DockerContainerVolume) :
  volumeAt p (add vs v) = volumeAt p (vs ++ [v]).
Proof.
  unfold add, TaskHelper.addVolumeWithoutConflicts, volumeAt.
  destruct (List.find (fun u => String.eqb (containerPath u) (containerPath v)) vs)
    as [x|] eqn:Hf; simpl; [|reflexivity].
  apply find_some in Hf as [Hin Heq]. apply String.eqb_eq in Heq.
  rewrite find_over_app.
  destruct (List.find (fun u => String.eqb (containerPath u) p) vs) eqn:Hp; [reflexivity|].
  simpl. destruct (String.eqb (containerPath v) p) eqn:E; [|reflexivity].
  apply String.eqb_eq in E. rewrite find_none_iff in Hp. specialize (Hp x Hin).
  simpl in Hp. rewrite Heq, E, String.eqb_refl in Hp. discriminate.
Qed.

Lemma volumeAt_adds (p : string) (l vs : list DockerContainerVolume) :
  volumeAt p (fold_left add l vs) = volumeAt p (vs ++ l).
Proof.
  revert vs. induction l as [|v l IH]; intros vs; simpl; [now rewrite app_nil_r|].
  rewrite IH. unfold volumeAt in *. rewrite find_over_app, (find_over_app _ vs (v :: l)).
  pose proof (volumeAt_add p vs v) as Hadd. unfold volumeAt in Hadd.
  rewrite Hadd, find_over_app. simpl.
  destruct (List.find _ vs); [reflexivity|].
  destruct (String.eqb (containerPath v) p); reflexivity.
Qed.

(** X1. The volumes that [inferVolumes] returns map every container path at
    most once, also when the user's list maps a path twice. *)
Theorem inferVolumes_distinct_paths (h : Host) (folder : WorkspaceFolder)
    (runOptions : DockerRunOptions) (helperOptions : NetCoreTaskOptions)
    (ssl userSecrets : bool) (vs : list DockerContainerVolume) :
  inferVolumes h folder runOptions helperOptions ssl userSecrets = Ok vs ->
  List.NoDup (map containerPath vs).
Proof.
  rewrite inferVolumes_as_fold. intros Hvs.
  apply bind_inv in Hvs as (defaults & _ & Hvs). injection Hvs as <-.
  apply adds_distinct. constructor.
Qed.

Lemma inferVolumes_distinct_paths_witness :
  exists vs,
    inferVolumes Sample.host Sample.folder clashingRunOptions resolvedHelperOptions false false
    = Ok vs /\
    List.NoDup (map containerPath vs) /\
    map containerPath vs
    = ["/app"; "/logs"; "/src"; "/remote_debugger"; "/root/.nuget/packages";
       "/root/.nuget/fallbackpackages"].
Proof.
  eexists. split; [reflexivity|]. split; [|reflexivity].
  apply (inferVolumes_distinct_paths Sample.host Sample.folder clashingRunOptions
           resolvedHelperOptions false false).
  reflexivity.
Defined.

(** X2. Looking up a container path in the volumes that [inferVolumes]
    returns gives the first volume for this path among the user's volumes
    followed by the helper's own: the user's mapping wins over the helper's,
    and the first of two user mappings wins over the second. *)
Theorem inferVolumes_first_mapping_wins (h : Host) (folder : WorkspaceFolder)
    (runOptions : DockerRunOptions) (helperOptions : NetCoreTaskOptions)
    (ssl userSecrets : bool) (vs : list DockerContainerVolume) :
  inferVolumes h folder runOptions helperOptions ssl userSecrets = Ok vs ->
  exists defaults,
    defaultVolumes h folder (os runOptions) helperOptions ssl userSecrets = Ok defaults /\
    forall p,
      volumeAt p vs = volumeAt p (Js.or_obj (volumes runOptions) [] ++ defaults).
Proof.
  rewrite inferVolumes_as_fold. intros Hvs.
  apply bind_inv in Hvs as (defaults & Hdefaults & Hvs). injection Hvs as <-.
  exists defaults. split; [exact Hdefaults|].
  intros p. now rewrite volumeAt_adds.
Qed.

Lemma inferVolumes_first_mapping_wins_witness :
  exists vs,
    inferVolumes Sample.host Sample.folder clashingRunOptions resolvedHelperOptions false false
    = Ok vs /\
    volumeAt "/app" vs = Some (mkVolume "/data/site" "/app" (Some ro)) /\
    volumeAt "/src" vs = Some (mkVolume "/ws/myapp" "/src" (Some rw)).
Proof.
  eexists. split; [reflexivity|].
  destruct (inferVolumes_first_mapping_wins Sample.host Sample.folder clashingRunOptions
              resolvedHelperOptions false false _ eq_refl) as (defaults & Hdefaults & Hat).
  injection Hdefaults as <-.
  split; [rewrite (Hat "/app") | rewrite (Hat "/src")]; reflexivity.
Defined.

(** X3. [inferVolumes] returns volumes only when the project path is set
    and, on a Windows host, the environment defines [ProgramFiles].
    Without a project path it throws a [TypeError], whatever the host; on
    a Windows host without [ProgramFiles] it fails. *)
Theorem inferVolumes_needs_project_and_program_files (h : Host) (folder : WorkspaceFolder)
    (runOptions : DockerRunOptions) (helperOptions : NetCoreTaskOptions)
    (ssl userSecrets : bool) :
  (forall vs,
     inferVolumes h folder runOptions helperOptions ssl userSecrets = Ok vs ->
     appProject helperOptions <> None /\
     (os_platform h = "win32" -> process_env_ProgramFiles h <> None)) /\
  (appProject helperOptions = None ->
   exists message,
     inferVolumes h folder runOptions helperOptions ssl userSecrets
     = Err (TypeError message)) /\
  (os_platform h = "win32" -> process_env_ProgramFiles h = None ->
   exists e, inferVolumes h folder runOptions helperOptions ssl userSecrets = Err e).
Proof.
  assert (Hok : forall vs,
            inferVolumes h folder runOptions helperOptions ssl userSecrets = Ok vs ->
            appProject helperOptions <> None /\
            (os_platform h = "win32" -> process_env_ProgramFiles h <> None)).
  { intros vs Hvs. rewrite inferVolumes_as_fold in Hvs. unfold defaultVolumes in Hvs.
    apply bind_inv in Hvs as (defaults & Hdefaults & _).
    apply bind_inv in Hdefaults as (project & Hproject & Hdefaults).
    apply bind_inv in Hdefaults as (fallbackPath & Hfallback & _).
    split; [destruct (appProject helperOptions); [discriminate | discriminate]|].
    intros Hwin. apply String.eqb_eq in Hwin. rewrite Hwin in Hfallback.
    destruct (process_env_ProgramFiles h); [discriminate | discriminate]. }
  split; [exact Hok|]. split.
  - intros Hnone. rewrite inferVolumes_as_fold. unfold defaultVolumes. rewrite Hnone.
    eexists. reflexivity.
  - intros Hwin Hnone.
    destruct (inferVolumes h folder runOptions helperOptions ssl userSecrets) as [vs|e] eqn:Hvs;
      [|eauto].
    destruct (Hok vs eq_refl) as [_ Hdefined]. now destruct (Hdefined Hwin).
Qed.

End Volumes.

Lemma inferVolumes_needs_project_and_program_files_witness :
  exists message,
    NetCoreTaskHelper.inferVolumes Sample.host Sample.folder
      NetCoreScaffolding.emptyRunOptions (mkNetCoreTaskOptions None None) false false
    = Err (TypeError message).
Proof.
  apply (proj1 (proj2 (inferVolumes_needs_project_and_program_files Sample.host Sample.folder
                         NetCoreScaffolding.emptyRunOptions (mkNetCoreTaskOptions None None)
                         false false))).
  reflexivity.
Defined.

(** ** What the resolution of the run options returns *)

Section RunOptions.

Import NetCoreTaskHelper.

(** The resolved run options, field by field. *)
Lemma resolveDockerRunOptions_fields {C : Type} `{TaskCache C}
    (h : Host) (folder : WorkspaceFolder)
    (runOptions : DockerRunOptions) (helperOptions : option NetCoreTaskOptions) (cache : C)
    (resolved : DockerRunOptions) (helperOptions' : NetCoreTaskOptions) (cache' : C) :
  resolveDockerRunOptions h folder runOptions helperOptions cache
  = Ok (resolved, helperOptions', cache') ->
  exists s : RunResolution,
    inferAppProject h folder (Js.or_obj helperOptions (mkNetCoreTaskOptions None None))
    = Ok (resolvedProject s) /\
    helperOptions'
    = mkNetCoreTaskOptions (Some (resolvedProject s))
        (configureSsl (Js.or_obj helperOptions (mkNetCoreTaskOptions None None))) /\
    inferAppName h helperOptions' = Ok (resolvedAppName s) /\
    userSecretsOf h folder helperOptions' (resolvedSsl s) = Ok (resolvedUserSecrets s) /\
    defaultVolumes h folder (Some (Js.or_obj (os runOptions) Linux)) helperOptions'
      (resolvedSsl s) (resolvedUserSecrets s) = Ok (resolvedDefaults s) /\
    resolved
    = mkRunOptions
        (Some (if Js.truthy (command runOptions) || isWindows (os runOptions)
               then "-t localhost" else "-f /dev/null"))
        (Some (Js.or_else (containerName runOptions) (resolvedAppName s +:+ "-dev")))
        (Some (if Js.truthy (entrypoint runOptions) || isWindows (os runOptions)
               then "ping" else "tail"))
        (envOf runOptions (resolvedSsl s) (resolvedUserSecrets s))
        (envFiles runOptions) (extraHosts runOptions)
        (Some (Js.or_else (image runOptions)
                 (Js.or_else (cache_get cache (resolvedProject s) ≫= cachedImage)
                    (resolvedAppName s +:+ ":dev"))))
        (Some (Js.or_obj (labels runOptions) defaultLabels))
        (network runOptions) (networkAlias runOptions)
        (Some (Js.or_obj (os runOptions) Linux))
        (ports runOptions)
        (Some (fold_left add (Js.or_obj (volumes runOptions) [] ++ resolvedDefaults s) [])).
Proof.
  destruct runOptions as [cmd cname entry e efiles hosts img lbls net alias o prts vols].
  unfold resolveDockerRunOptions. intros Hr.
  apply bind_inv in Hr as (project & Hproject & Hr). cbv zeta in Hr.
  apply bind_inv in Hr as (appName & Hname & Hr).
  apply bind_inv in Hr as (ssl & Hssl & Hr).
  apply bind_inv in Hr as (userSecrets & Hsecrets & Hr).
  apply bind_inv in Hr as (vs & Hvs & Hr).
  rewrite inferVolumes_as_fold in Hvs.
  apply bind_inv in Hvs as (defaults & Hdefaults & Hvs). injection Hvs as <-.
  cbv beta iota delta
    [set_volumes set_env set_command set_entrypoint set_image set_os set_labels
     set_containerName command containerName entrypoint env envFiles extraHosts image
     labels network networkAlias os ports volumes entrypointOf commandOf envOf] in Hr, Hdefaults.
  injection Hr as <- <- _.
  exists (mkRunResolution project appName ssl userSecrets defaults).
  cbn [resolvedProject resolvedAppName resolvedSsl resolvedUserSecrets resolvedDefaults
       command containerName entrypoint env envFiles extraHosts image labels network
       networkAlias os ports volumes].
  repeat split; try assumption.
  unfold envOf. cbn [env Js.or_obj volumes].
  destruct o as [[|]|]; reflexivity.
Qed.

(** X4. Resolving the run options keeps what the user set: a non-empty
    container name or image, the labels, the target system, and, untouched,
    the environment files, extra hosts, network, network alias and ports.
    What the user left out is filled in: the result always has a non-empty
    container name and image, labels, a target system and volumes. *)
Theorem resolveDockerRunOptions_keeps_user_fields {C : Type} `{TaskCache C}
    (h : Host) (folder : WorkspaceFolder)
    (runOptions : DockerRunOptions) (helperOptions : option NetCoreTaskOptions) (cache : C)
    (resolved : DockerRunOptions) (helperOptions' : NetCoreTaskOptions) (cache' : C) :
  resolveDockerRunOptions h folder runOptions helperOptions cache
  = Ok (resolved, helperOptions', cache') ->
  (forall n, containerName runOptions = Some n -> n <> "" -> containerName resolved = Some n) /\
  (forall i, image runOptions = Some i -> i <> "" -> image resolved = Some i) /\
  (forall l, labels runOptions = Some l -> labels resolved = Some l) /\
  (forall o, os runOptions = Some o -> os resolved = Some o) /\
  envFiles resolved = envFiles runOptions /\
  extraHosts resolved = extraHosts runOptions /\
  network resolved = network runOptions /\
  networkAlias resolved = networkAlias runOptions /\
  ports resolved = ports runOptions /\
  (exists n i l o vs,
     containerName resolved = Some n /\ n <> "" /\
     image resolved = Some i /\ i <> "" /\
     labels resolved = Some l /\ os resolved = Some o /\
     volumes resolved = Some vs /\ vs <> []).
Proof.
  intros Hr. destruct (resolveDockerRunOptions_fields _ _ _ _ _ _ _ _ Hr)
    as (s & _ & Hho & _ & _ & Hdefaults & ->).
  cbn [command containerName entrypoint env envFiles extraHosts image labels network
       networkAlias os ports volumes].
  split; [intros n -> Hn; now rewrite or_else_some|].
  split; [intros i -> Hi; now rewrite or_else_some|].
  split; [intros l ->; reflexivity|].
  split; [intros o ->; reflexivity|].
  repeat (split; [reflexivity|]).
  eexists _, _, _, _, _. repeat split.
  - apply or_else_nonempty, append_nonempty. discriminate.
  - apply or_else_nonempty, or_else_nonempty, append_nonempty. discriminate.
  - unfold defaultVolumes in Hdefaults.
    apply bind_inv in Hdefaults as (project & _ & Hdefaults).
    apply bind_inv in Hdefaults as (fallback & _ & Hdefaults).
    injection Hdefaults as Hdefaults.
    intros Hnil.
    assert (Hin : exists d, In d (resolvedDefaults s)).
    { rewrite <- Hdefaults. eexists. left. reflexivity. }
    destruct Hin as (d & Hin).
    destruct (adds_maps (Js.or_obj (volumes runOptions) [] ++ resolvedDefaults s) [] d)
      as (x & Hx & _).
    + apply in_or_app. now right.
    + rewrite Hnil in Hx. destruct Hx.
Qed.

Lemma resolveDockerRunOptions_keeps_user_fields_witness :
  exists resolved helperOptions' cache',
    resolveDockerRunOptions Sample.host Sample.folder namedRunOptions
      (Some Sample.helperOptions) noEntries
    = Ok (resolved, helperOptions', cache') /\
    containerName resolved = Some "api" /\
    image resolved = Some "registry/api:1" /\
    ports resolved = None.
Proof.
  destruct (resolveDockerRunOptions Sample.host Sample.folder namedRunOptions
              (Some Sample.helperOptions) noEntries)
    as [[[resolved helperOptions'] cache']|e] eqn:E; [|vm_compute in E; discriminate].
  exists resolved, helperOptions', cache'. split; [reflexivity|].
  destruct (resolveDockerRunOptions_keeps_user_fields Sample.host Sample.folder
              namedRunOptions (Some Sample.helperOptions) noEntries
              resolved helperOptions' cache' E)
    as (Hname & Himage & _ & _ & _ & _ & _ & _ & Hports & _).
  split; [apply Hname; [reflexivity | discriminate]|].
  split; [apply Himage; [reflexivity | discriminate]|].
  exact Hports.
Defined.

(** X5. Resolving the run options never drops or changes a variable of the
    user's environment that has a non-empty value, adds no variable other
    than [ASPNETCORE_ENVIRONMENT] and [ASPNETCORE_URLS], and either leaves
    the environment as it was or defines a non-empty
    [ASPNETCORE_ENVIRONMENT]. *)
Theorem resolveDockerRunOptions_keeps_user_environment {C : Type} `{TaskCache C}
    (h : Host) (folder : WorkspaceFolder)
    (runOptions : DockerRunOptions) (helperOptions : option NetCoreTaskOptions) (cache : C)
    (resolved : DockerRunOptions) (helperOptions' : NetCoreTaskOptions) (cache' : C) :
  resolveDockerRunOptions h folder runOptions helperOptions cache
  = Ok (resolved, helperOptions', cache') ->
  (forall k v,
     Dict.get (Js.or_obj (env runOptions) []) k = Some v -> v <> "" ->
     exists e, env resolved = Some e /\ Dict.get e k = Some v) /\
  (forall e k,
     env resolved = Some e ->
     k <> "ASPNETCORE_ENVIRONMENT" -> k <> "ASPNETCORE_URLS" ->
     Dict.get e k = Dict.get (Js.or_obj (env runOptions) []) k) /\
  (env resolved = env runOptions \/
   exists e v,
     env resolved = Some e /\ Dict.get e "ASPNETCORE_ENVIRONMENT" = Some v /\ v <> "").
Proof.
  intros Hr. destruct (resolveDockerRunOptions_fields _ _ _ _ _ _ _ _ Hr)
    as (s & _ & _ & _ & _ & _ & ->).
  cbn [env]. unfold envOf.
  set (e0 := Js.or_obj (env runOptions) []).
  set (v1 := Js.or_else (Dict.get e0 "ASPNETCORE_ENVIRONMENT") "Development").
  set (e1 := Dict.set e0 "ASPNETCORE_ENVIRONMENT" v1).
  set (v2 := Js.or_else (Dict.get e1 "ASPNETCORE_URLS") "http://+:80;https://+:443").
  assert (Hv1 : v1 <> "") by (apply or_else_nonempty; discriminate).
  assert (Hkeep1 : forall k v, Dict.get e0 k = Some v -> v <> "" -> Dict.get e1 k = Some v).
  { intros k v Hget Hv. unfold e1.
    destruct (String.eqb "ASPNETCORE_ENVIRONMENT" k) eqn:E.
    - apply String.eqb_eq in E. subst k. rewrite dict_get_set. unfold v1.
      rewrite Hget. now rewrite or_else_some.
    - apply String.eqb_neq in E. now rewrite dict_get_set_other. }
  assert (Hkeep2 : forall k v, Dict.get e1 k = Some v -> v <> "" ->
                     Dict.get (Dict.set e1 "ASPNETCORE_URLS" v2) k = Some v).
  { intros k v Hget Hv.
    destruct (String.eqb "ASPNETCORE_URLS" k) eqn:E.
    - apply String.eqb_eq in E. subst k. rewrite dict_get_set. unfold v2.
      rewrite Hget. now rewrite or_else_some.
    - apply String.eqb_neq in E. now rewrite dict_get_set_other. }
  destruct (resolvedUserSecrets s); [destruct (resolvedSsl s)|].
  - split; [|split].
    + intros k v Hget Hv. eexists. split; [reflexivity|]. auto.
    + intros e k [= <-] Hk1 Hk2.
      rewrite dict_get_set_other by congruence. unfold e1.
      now rewrite dict_get_set_other by congruence.
    + right. eexists _, v1. split; [reflexivity|]. split; [|exact Hv1].
      rewrite dict_get_set_other by discriminate. apply dict_get_set.
  - split; [|split].
    + intros k v Hget Hv. eexists. split; [reflexivity|]. auto.
    + intros e k [= <-] Hk1 Hk2. unfold e1.
      now rewrite dict_get_set_other by congruence.
    + right. eexists _, v1. split; [reflexivity|]. split; [apply dict_get_set | exact Hv1].
  - split; [|split].
    + intros k v Hget Hv. unfold e0 in Hget.
      destruct (env runOptions) as [e|]; [|discriminate]. now exists e.
    + intros e k He _ _. unfold e0. now rewrite He.
    + now left.
Qed.

Lemma resolveDockerRunOptions_keeps_user_environment_witness :
  exists resolved helperOptions' cache',
    resolveDockerRunOptions secretsHost Sample.folder envRunOptions
      (Some Sample.helperOptions) noEntries
    = Ok (resolved, helperOptions', cache') /\
    exists e, env resolved = Some e /\
              Dict.get e "LOG_LEVEL" = Some "debug" /\
              Dict.get e "ASPNETCORE_ENVIRONMENT" = Some "Staging".
Proof.
  destruct (resolveDockerRunOptions secretsHost Sample.folder envRunOptions
              (Some Sample.helperOptions) noEntries)
    as [[[resolved helperOptions'] cache']|e] eqn:E; [|vm_compute in E; discriminate].
  exists resolved, helperOptions', cache'. split; [reflexivity|].
  destruct (resolveDockerRunOptions_keeps_user_environment secretsHost Sample.folder
              envRunOptions (Some Sample.helperOptions) noEntries
              resolved helperOptions' cache' E) as (Hkeep & _ & _).
  destruct (Hkeep "LOG_LEVEL" "debug" eq_refl) as (e1 & He1 & Hlog); [discriminate|].
  destruct (Hkeep "ASPNETCORE_ENVIRONMENT" "Staging" eq_refl) as (e2 & He2 & Henv);
    [discriminate|].
  exists e1. split; [exact He1|]. split; [exact Hlog|].
  rewrite He1 in He2. injection He2 as <-. exact Henv.
Defined.

(** X6. A run task that is resolved after the build task of the same
    project, and names no image of its own, runs the image that the build
    tagged, provided that the task cache gives back what was stored. *)
Theorem run_uses_built_image {C : Type} `{TaskCache C}
    (h : Host) (folder : WorkspaceFolder)
    (buildOptions buildOptions' : DockerBuildOptions) (runOptions resolved : DockerRunOptions)
    (buildHelper runHelper : option NetCoreTaskOptions)
    (buildHelper' runHelper' : NetCoreTaskOptions) (cache cache1 cache2 : C) :
  cache_keeps (C := C) ->
  resolveDockerBuildOptions h folder buildOptions buildHelper cache
  = Ok (buildOptions', buildHelper', cache1) ->
  resolveDockerRunOptions h folder runOptions runHelper cache1
  = Ok (resolved, runHelper', cache2) ->
  appProject runHelper' = appProject buildHelper' ->
  Js.truthy (image runOptions) = false ->
  image resolved = tag buildOptions' /\
  exists t, tag buildOptions' = Some t /\ t <> "" /\
            (forall u, tag buildOptions = Some u -> u <> "" -> t = u).
Proof.
  intros Hcache Hb Hr Hsame Himage.
  destruct (resolveDockerRunOptions_fields _ _ _ _ _ _ _ _ Hr)
    as (s & _ & -> & _ & _ & _ & ->).
  unfold resolveDockerBuildOptions in Hb.
  apply bind_inv in Hb as (project & _ & Hb). cbv zeta in Hb.
  apply bind_inv in Hb as (appName & _ & Hb).
  injection Hb as <- <- <-.
  cbn [appProject tag image] in *. injection Hsame as ->.
  rewrite Hcache. cbn [mbind option_bind cachedImage].
  assert (Hne : Js.or_else (tag buildOptions) (appName +:+ ":dev") <> "")
    by (apply or_else_nonempty, append_nonempty; discriminate).
  split.
  - f_equal. unfold Js.or_else at 1. unfold Js.truthy in Himage.
    destruct (image runOptions) as [i|].
    + apply negb_false_iff in Himage. rewrite Himage. now apply or_else_some.
    + now apply or_else_some.
  - eexists. split; [reflexivity|]. split; [exact Hne|].
    intros u -> Hu. now apply or_else_some.
Qed.

Lemma run_uses_built_image_witness :
  exists buildOptions' buildHelper' cache1 resolved runHelper' cache2,
    resolveDockerBuildOptions Sample.host Sample.folder taggedBuildOptions
      (Some Sample.helperOptions) noEntries
    = Ok (buildOptions', buildHelper', cache1) /\
    resolveDockerRunOptions Sample.host Sample.folder NetCoreScaffolding.emptyRunOptions
      (Some Sample.helperOptions) cache1
    = Ok (resolved, runHelper', cache2) /\
    image resolved = Some "registry/api:2".
Proof.
  destruct (resolveDockerBuildOptions Sample.host Sample.folder taggedBuildOptions
              (Some Sample.helperOptions) noEntries)
    as [[[buildOptions' buildHelper'] cache1]|e] eqn:Eb; [|vm_compute in Eb; discriminate].
  destruct (resolveDockerRunOptions Sample.host Sample.folder
              NetCoreScaffolding.emptyRunOptions (Some Sample.helperOptions) cache1)
    as [[[resolved runHelper'] cache2]|e] eqn:Er.
  - exists buildOptions', buildHelper', cache1, resolved, runHelper', cache2.
    split; [reflexivity|]. split; [exact Er|].
    assert (Hkeeps : cache_keeps (C := list (string * CacheEntry)))
      by (intros c k v; cbn; now rewrite String.eqb_refl).
    assert (Hsame : appProject runHelper' = appProject buildHelper').
    { unfold resolveDockerRunOptions in Er. unfold resolveDockerBuildOptions in Eb.
      cbn in Eb. injection Eb as _ <- _.
      apply bind_inv in Er as (project & Hproject & Er). cbv zeta in Er.
      apply bind_inv in Er as (appName & _ & Er).
      apply bind_inv in Er as (ssl & _ & Er).
      apply bind_inv in Er as (us & _ & Er).
      apply bind_inv in Er as (vs & _ & Er).
      injection Er as _ <- _. cbn in Hproject. injection Hproject as <-. reflexivity. }
    destruct (run_uses_built_image Sample.host Sample.folder taggedBuildOptions buildOptions'
                NetCoreScaffolding.emptyRunOptions resolved (Some Sample.helperOptions)
                (Some Sample.helperOptions) buildHelper' runHelper' noEntries cache1 cache2
                Hkeeps Eb Er Hsame eq_refl) as (Himage & t & Htag & _ & Huser).
    rewrite Himage, Htag. f_equal. apply Huser; [reflexivity | discriminate].
  - exfalso. unfold resolveDockerBuildOptions in Eb. cbn in Eb. injection Eb as _ _ <-.
    vm_compute in Er. discriminate.
Defined.

(** X7. Resolving the build options keeps a non-empty context, Dockerfile,
    tag and target and the labels that the user gave, leaves the build
    arguments and the pull flag untouched, and fills in the rest; resolving
    the result again, with the helper options it returned, changes nothing
    when the project path resolves to itself. *)
Theorem resolveDockerBuildOptions_keeps_and_is_stable {C : Type} `{TaskCache C}
    (h : Host) (folder : WorkspaceFolder)
    (buildOptions : DockerBuildOptions) (helperOptions : option NetCoreTaskOptions) (cache : C)
    (resolved : DockerBuildOptions) (helperOptions' : NetCoreTaskOptions) (cache' : C) :
  resolveDockerBuildOptions h folder buildOptions helperOptions cache
  = Ok (resolved, helperOptions', cache') ->
  (forall x, context buildOptions = Some x -> x <> "" -> context resolved = Some x) /\
  (forall x, dockerfile buildOptions = Some x -> x <> "" -> dockerfile resolved = Some x) /\
  (forall x, tag buildOptions = Some x -> x <> "" -> tag resolved = Some x) /\
  (forall x, target buildOptions = Some x -> x <> "" -> target resolved = Some x) /\
  (forall l, buildLabels buildOptions = Some l -> buildLabels resolved = Some l) /\
  args resolved = args buildOptions /\
  pull resolved = pull buildOptions /\
  Js.truthy (context resolved) = true /\
  Js.truthy (tag resolved) = true /\
  Js.truthy (target resolved) = true /\
  buildLabels resolved <> None /\
  dockerfile resolved <> None /\
  ((forall project,
      appProject helperOptions' = Some project ->
      inferAppProject h folder helperOptions' = Ok project) ->
   exists cache'',
     resolveDockerBuildOptions h folder resolved (Some helperOptions') cache'
     = Ok (resolved, helperOptions', cache'')).
Proof.
  unfold resolveDockerBuildOptions at 1. intros Hb.
  apply bind_inv in Hb as (project & _ & Hb). cbv zeta in Hb.
  apply bind_inv in Hb as (appName & Hname & Hb).
  injection Hb as <- <- _.
  cbn [args context dockerfile buildLabels tag target pull].
  assert (Htruthy : forall x d, d <> "" -> Js.truthy (Some (Js.or_else x d)) = true).
  { intros x d Hd. unfold Js.truthy. apply negb_true_iff, String.eqb_neq.
    now apply or_else_nonempty. }
  split; [intros x -> Hx; now rewrite or_else_some|].
  split; [intros x -> Hx; now rewrite or_else_some|].
  split; [intros x -> Hx; now rewrite or_else_some|].
  split; [intros x -> Hx; now rewrite or_else_some|].
  split; [intros l ->; reflexivity|].
  split; [reflexivity|]. split; [reflexivity|].
  split; [apply Htruthy; discriminate|].
  split; [apply Htruthy, append_nonempty; discriminate|].
  split; [apply Htruthy; discriminate|].
  split; [discriminate|]. split; [discriminate|].
  intros Hstable. unfold resolveDockerBuildOptions. cbn [Js.or_obj configureSsl].
  rewrite (Hstable project eq_refl), bind_Ok. cbv zeta. rewrite Hname, bind_Ok.
  cbn [args context dockerfile buildLabels tag target pull Js.or_obj].
  assert (Hfix : forall x d, Js.or_else (Some (Js.or_else x d)) d = Js.or_else x d).
  { intros x d. unfold Js.or_else. destruct x as [x|].
    - destruct (String.eqb x "") eqn:E.
      + destruct (String.eqb d ""); reflexivity.
      + now rewrite E.
    - destruct (String.eqb d ""); reflexivity. }
  rewrite !Hfix.
  eexists. reflexivity.
Qed.

Lemma resolveDockerBuildOptions_keeps_and_is_stable_witness :
  exists resolved helperOptions' cache',
    resolveDockerBuildOptions Sample.host Sample.folder taggedBuildOptions
      (Some Sample.helperOptions) noEntries
    = Ok (resolved, helperOptions', cache') /\
    tag resolved = Some "registry/api:2" /\
    Js.truthy (target resolved) = true.
Proof.
  destruct (resolveDockerBuildOptions Sample.host Sample.folder taggedBuildOptions
              (Some Sample.helperOptions) noEntries)
    as [[[resolved helperOptions'] cache']|e] eqn:E; [|vm_compute in E; discriminate].
  exists resolved, helperOptions', cache'. split; [reflexivity|].
  destruct (resolveDockerBuildOptions_keeps_and_is_stable Sample.host Sample.folder
              taggedBuildOptions (Some Sample.helperOptions) noEntries
              resolved helperOptions' cache' E)
    as (_ & _ & Htag & _ & _ & _ & _ & _ & _ & Htarget & _).
  split; [apply Htag; [reflexivity | discriminate] | exact Htarget].
Defined.

End RunOptions.

(** ** Paths and names *)

Section PathsAndNames.

Import NetCoreTaskHelper.


Lemma lower_lower (c : ascii) : Str.lower (Str.lower c) = Str.lower c.
Proof. destruct c as [[] [] [] [] [] [] [] []]; reflexivity. Qed.

Lemma is_space_lower (c : ascii) : Str.is_space (Str.lower c) = Str.is_space c.
Proof. destruct c as [[] [] [] [] [] [] [] []]; reflexivity. Qed.

Lemma length_toLowerCase (s : string) : String.length (Str.toLowerCase s) = String.length s.
Proof. induction s as [|c s IH]; simpl; [reflexivity | now rewrite IH]. Qed.













Lemma spaces_toLowerCase (s : string) : spaces (Str.toLowerCase s) = spaces s.
Proof.
  induction s as [|c s IH]; simpl; [reflexivity|]. now rewrite is_space_lower, IH.
Qed.

Lemma toLowerCase_twice (s : string) : Str.toLowerCase (Str.toLowerCase s) = Str.toLowerCase s.
Proof.
  induction s as [|c s IH]; simpl; [reflexivity|]. now rewrite lower_lower, IH.
Qed.

Lemma spaces_le_length (s : string) : spaces s <= String.length s.
Proof.
  induction s as [|c s IH]; simpl; [lia|]. destruct (Str.is_space c); lia.
Qed.

Lemma remove_first_space_counts (s : string) :
  spaces (Str.remove_first_space s) = pred (spaces s) /\
  String.length (Str.remove_first_space s) = String.length s - Nat.min 1 (spaces s).
Proof.
  induction s as [|c s [IHs IHl]]; [split; reflexivity|].
  cbn [spaces Str.remove_first_space String.length].
  destruct (Str.is_space c) eqn:E.
  - split; [reflexivity | lia].
  - cbn [spaces String.length]. rewrite E, IHs, IHl.
    pose proof (spaces_le_length s). split; lia.
Qed.

Lemma remove_first_space_none (s : string) : spaces s = 0 -> Str.remove_first_space s = s.
Proof.
  induction s as [|c s IH]; [reflexivity|].
  cbn [spaces Str.remove_first_space]. destruct (Str.is_space c); [discriminate|].
  intros Hs. now rewrite (IH Hs).
Qed.

Lemma remove_first_space_first (before after : string) (c : ascii) :
  spaces before = 0 -> Str.is_space c = true ->
  Str.remove_first_space (before +:+ String c after) = before +:+ after.
Proof.
  intros Hbefore Hc. induction before as [|b before IH].
  { change (Str.remove_first_space (String c after) = after).
    cbn [Str.remove_first_space]. now rewrite Hc. }
  change (String b before +:+ String c after) with (String b (before +:+ String c after)).
  change (String b before +:+ after) with (String b (before +:+ after)).
  cbn [spaces] in Hbefore. cbn [Str.remove_first_space].
  destruct (Str.is_space b); [discriminate|]. now rewrite (IH Hbefore).
Qed.

(** X9. The application name that [inferAppName] derives from the project
    file's name is in lower case and has lost one white-space character,
    the first, and no other: a name without white space is only put in
    lower case; of a name with white space, the text before the first
    white-space character and the text after it are put together, in
    lower case, so that a project name with two white-space characters
    gives a name that still holds one. *)
Theorem inferAppName_lower_case_first_space (h : Host) (helperOptions : NetCoreTaskOptions)
    (name : string) :
  inferAppName h helperOptions = Ok name ->
  exists project,
    appProject helperOptions = Some project /\
    Str.toLowerCase name = name /\
    (spaces (path_parse_name h project) = 0 ->
     name = Str.toLowerCase (path_parse_name h project)) /\
    (forall before c after,
       path_parse_name h project = before +:+ String c after ->
       spaces before = 0 -> Str.is_space c = true ->
       name = Str.toLowerCase (before +:+ after)) /\
    spaces name = pred (spaces (path_parse_name h project)) /\
    String.length name
    = String.length (path_parse_name h project)
      - Nat.min 1 (spaces (path_parse_name h project)).
Proof.
  unfold inferAppName. destruct (appProject helperOptions) as [project|]; [|discriminate].
  intros [= <-]. exists project. split; [reflexivity|].
  destruct (remove_first_space_counts (path_parse_name h project)) as [Hs Hl].
  split; [apply toLowerCase_twice|].
  split; [intros Hnone; now rewrite (remove_first_space_none _ Hnone)|].
  split; [intros before c after -> Hbefore Hc; now rewrite remove_first_space_first|].
  split; [now rewrite spaces_toLowerCase | now rewrite length_toLowerCase].
Qed.

Lemma inferAppName_lower_case_first_space_witness :
  inferAppName Sample.host (mkNetCoreTaskOptions (Some "/ws/My Web Api.csproj") None)
  = Ok (Str.toLowerCase ("My" +:+ "Web Api")) /\
  spaces "myweb api" = 1 /\
  inferAppName Sample.host (mkNetCoreTaskOptions (Some latinProject) None)
  = Ok (String (ascii_of_nat 233) "coleweb app").
Proof.
  destruct (inferAppName_lower_case_first_space Sample.host
              (mkNetCoreTaskOptions (Some "/ws/My Web Api.csproj") None) "myweb api" eq_refl)
    as (project & Hproject & _ & _ & Hfirst & Hspaces & _).
  injection Hproject as <-. split; [|split; [exact Hspaces|]].
  - rewrite <- (Hfirst "My" " "%char "Web Api" eq_refl eq_refl eq_refl). reflexivity.
  - destruct (inferAppName Sample.host (mkNetCoreTaskOptions (Some latinProject) None))
      as [name|e] eqn:Hname; [|vm_compute in Hname; discriminate].
    destruct (inferAppName_lower_case_first_space Sample.host _ name Hname)
      as (project & Hproject & _ & _ & Hlatin & _).
    injection Hproject as <-.
    rewrite (Hlatin (String (ascii_of_nat 201) "COLE") (ascii_of_nat 160) "Web App"
               eq_refl eq_refl eq_refl).
    reflexivity.
Defined.

End PathsAndNames.

(** ** The profile that decides SSL *)

Section FirstProfile.

Import NetCoreTaskHelper.

Lemma find_skips (p : Json.value -> result bool) (before rest : list Json.value) :
  Forall (fun x => p x = Ok false) before ->
  Json.find p (before ++ rest) = Json.find p rest.
Proof.
  induction 1 as [|x before Hx _ IH]; [reflexivity|].
  simpl. rewrite Hx, bind_Ok. exact IH.
Qed.

(** X10. When the launch settings are read, the first profile whose
    command is [Project] decides whether SSL is inferred: the answer is
    whether its application URL mentions [https://], in any character case,
    whatever the profiles before it (with another command) and after it
    hold. *)
Theorem inferSsl_first_project_profile (h : Host) (folder : WorkspaceFolder)
    (helperOptions : NetCoreTaskOptions) (project : string)
    (settings before after profile : list (string * Json.value)) (name : string) :
  appProject helperOptions = Some project ->
  fse_pathExists h (launchSettingsPath h project) = true ->
  fse_readJson h (launchSettingsPath h project) = Ok (Json.VObj settings) ->
  Json.lookup settings "profiles" = Json.VObj (before ++ (name, Json.VObj profile) :: after) ->
  Forall (fun kv => otherCommand (snd kv)) before ->
  Json.lookup profile "commandName" = Json.VStr "Project" ->
  inferSsl h folder helperOptions
  = Ok (Json.truthy (Json.lookup profile "applicationUrl")
        && httpsRegex_test (Json.toString (Json.lookup profile "applicationUrl"))).
Proof.
  intros Hproject Hexists Hread Hprofiles Hbefore Hcommand.
  unfold inferSsl. rewrite (task_inferSsl_try _ _ _ Hproject), Hexists, Hread, bind_Ok.
  unfold sslOfSettings. cbn [Json.truthy Json.getProp]. rewrite bind_Ok, Hprofiles.
  cbn [Json.truthy Json.objectValues]. rewrite bind_Ok, map_app. cbn [map snd].
  rewrite find_skips.
  - cbn [Json.find Json.getProp]. rewrite !bind_Ok, Hcommand, String.eqb_refl.
    cbn [Json.truthy]. rewrite bind_Ok. cbn [Json.getProp]. rewrite bind_Ok. reflexivity.
  - clear -Hbefore. induction Hbefore as [|kv before (n & Hn & Hne) _ IH]; constructor.
    + rewrite Hn, bind_Ok. f_equal. destruct n; try reflexivity.
      apply String.eqb_neq. congruence.
    + exact IH.
Qed.

Lemma inferSsl_first_project_profile_witness :
  inferSsl launchSettingsHost Sample.folder
    (mkNetCoreTaskOptions (Some Sample.projectPath) None)
  = Ok false.
Proof.
  refine (inferSsl_first_project_profile launchSettingsHost Sample.folder
            (mkNetCoreTaskOptions (Some Sample.projectPath) None) Sample.projectPath
            sampleLaunchSettings
            [("IIS Express",
              Json.VObj [("commandName", Json.VStr "IISExpress");
                         ("applicationUrl", Json.VStr "https://localhost:44300")])]
            [("WebApi (https)",
              Json.VObj [("commandName", Json.VStr "Project");
                         ("applicationUrl", Json.VStr "HTTPS://localhost:5001")])]
            [("commandName", Json.VStr "Project");
             ("applicationUrl", Json.VStr "http://localhost:5000")]
            "WebApi" eq_refl eq_refl eq_refl eq_refl _ eq_refl).
  constructor; [|constructor].
  exists (Json.VStr "IISExpress"). split; [reflexivity | discriminate].
Defined.

End FirstProfile.

(** ** The debug host over time *)

Section DebugHostOverTime.

Import DockerDebugConfigurationProvider.

Variable removeSucceeds : list string -> string -> bool.

Lemma fire_host sc n host :
  well_formed host -> sessionName sc = Some n ->
  fireDidTerminateDebugSession removeSucceeds sc host
  = mkDebugHost (List.filter (fun l => negb (watches n l)) (listeners host))
      (nextDisposable host)
      (removeCalls host ++ repeat n (length (List.filter (watches n) (listeners host)))).
Proof.
  intros Hwf Hn. destruct (fire_named removeSucceeds sc n host Hwf Hn) as [Hl Hc].
  assert (Hnext : nextDisposable (fireDidTerminateDebugSession removeSucceeds sc host)
                  = nextDisposable host).
  { unfold fireDidTerminateDebugSession. now rewrite (deliver_named _ _ _ _ _ Hn). }
  destruct (fireDidTerminateDebugSession removeSucceeds sc host) as [L nx calls].
  simpl in *. now subst.
Qed.

Lemma fire_well_formed sc host :
  well_formed host -> well_formed (fireDidTerminateDebugSession removeSucceeds sc host).
Proof.
  intros Hwf. destruct (sessionName sc) as [n|] eqn:Hn.
  - rewrite (fire_host sc n host Hwf Hn). destruct Hwf as [Hnd Hlt].
    unfold well_formed. simpl. split.
    + clear Hlt. induction (listeners host) as [|a L IH]; simpl; [constructor|].
      simpl in Hnd. apply List.NoDup_cons_iff in Hnd as [Hnotin Hnd].
      destruct (negb (watches n a)); simpl; [|now apply IH].
      constructor; [|now apply IH].
      intros Hin. apply Hnotin. apply in_map_iff in Hin as (x & Hx & Hin).
      apply in_map_iff. exists x. split; [exact Hx|].
      now apply List.filter_In in Hin as [Hin _].
    + apply List.Forall_forall. intros x Hx. apply List.filter_In in Hx as [Hx _].
      rewrite List.Forall_forall in Hlt. now apply Hlt.
  - now rewrite fire_unnamed.
Qed.

Lemma handle_well_formed event host :
  well_formed host -> well_formed (handle removeSucceeds host event).
Proof.
  destruct event; simpl; [apply register_well_formed | apply fire_well_formed].
Qed.

Lemma count_occ_repeat (n m : string) (k : nat) :
  count_occ string_dec (repeat m k) n = if String.eqb n m then k else 0.
Proof.
  induction k as [|k IH]; simpl; [now destruct (String.eqb n m)|].
  destruct (string_dec m n) as [->|Hne].
  - rewrite IH, String.eqb_refl. reflexivity.
  - rewrite IH. destruct (String.eqb n m) eqn:E; [|reflexivity].
    apply String.eqb_eq in E. congruence.
Qed.

(** One event: the calls for [n] and the listeners waiting for [n] grow
    together by two when cleanup for [n] is registered and stay together
    otherwise. *)
Lemma handle_accounting event host n :
  well_formed host ->
  removals n (handle removeSucceeds host event) + waiting n (handle removeSucceeds host event)
  = removals n host + waiting n host + (if registers n event then 2 else 0).
Proof.
  intros Hwf. unfold removals, waiting. destruct event as [c|sc]; simpl.
  - destruct (cleanupName c) as [m|] eqn:Hc.
    + destruct (register_listeners removeSucceeds c m host Hc) as (HL & _ & HC).
      rewrite HL, HC, count_occ_app, List.filter_app, List.length_app. simpl.
      unfold watches at 2. simpl.
      destruct (string_dec m n) as [->|Hne].
      * rewrite String.eqb_refl. simpl. lia.
      * destruct (String.eqb n m) eqn:E; [apply String.eqb_eq in E; congruence|].
        simpl. lia.
    + unfold registerRemoveContainerAfterDebugging. rewrite Hc. lia.
  - destruct (sessionName sc) as [m|] eqn:Hs.
    + rewrite (fire_host sc m host Hwf Hs). simpl.
      rewrite count_occ_app, count_occ_repeat.
      destruct (String.eqb n m) eqn:E.
      * apply String.eqb_eq in E. subst m. rewrite filter_watches_none. simpl. lia.
      * apply String.eqb_neq in E. rewrite (filter_watches_others n m _ E). lia.
    + rewrite fire_unnamed by exact Hs. lia.
Qed.

Lemma handleAll_accounting events host n :
  well_formed host ->
  well_formed (handleAll removeSucceeds events host) /\
  removals n (handleAll removeSucceeds events host)
  + waiting n (handleAll removeSucceeds events host)
  = removals n host + waiting n host
    + 2 * length (List.filter (registers n) events).
Proof.
  revert host. induction events as [|event events IH]; intros host Hwf.
  - split; [exact Hwf | simpl; lia].
  - change (handleAll removeSucceeds (event :: events) host)
      with (handleAll removeSucceeds events (handle removeSucceeds host event)).
    destruct (IH (handle removeSucceeds host event) (handle_well_formed event host Hwf))
      as [Hwf' Hcount].
    split; [exact Hwf'|]. rewrite Hcount, (handle_accounting event host n Hwf).
    cbn [List.filter]. destruct (registers n event); simpl; lia.
Qed.

(** X11. Whatever configurations are resolved and whatever sessions end,
    in any order, starting with no listener: the listeners keep distinct
    disposables, and for every container name the [removeContainer] calls
    made for it plus the listeners still waiting for it are twice the
    cleanups registered for it.  So every cleanup removes its container
    once when it is registered and at most once more. *)
Theorem cleanup_accounting (events : list DebugEvent) (n : string) :
  well_formed (handleAll removeSucceeds events freshHost) /\
  removals n (handleAll removeSucceeds events freshHost)
  + waiting n (handleAll removeSucceeds events freshHost)
  = 2 * length (List.filter (registers n) events).
Proof.
  assert (Hfresh : well_formed freshHost) by (split; constructor).
  destruct (handleAll_accounting events freshHost n Hfresh) as [Hwf Hcount].
  split; [exact Hwf|]. rewrite Hcount. reflexivity.
Qed.

(** X12. The end of a session is handled once: when the same session
    configuration is reported again, nothing is removed and no listener
    changes; and after the end of a session that names a container no
    listener waits for this container. *)
Theorem terminate_twice (host : DebugHost)
    (sessionConfiguration : option ResolvedDebugConfiguration) :
  well_formed host ->
  let after := fireDidTerminateDebugSession removeSucceeds sessionConfiguration host in
  fireDidTerminateDebugSession removeSucceeds sessionConfiguration after = after /\
  forall n, sessionName sessionConfiguration = Some n -> waiting n after = 0.
Proof.
  intros Hwf after.
  pose proof (fire_well_formed sessionConfiguration host Hwf) as Hwf'. fold after in Hwf'.
  destruct (sessionName sessionConfiguration) as [n|] eqn:Hn.
  - assert (Hafter : after
                     = mkDebugHost (List.filter (fun l => negb (watches n l)) (listeners host))
                         (nextDisposable host)
                         (removeCalls host
                          ++ repeat n (length (List.filter (watches n) (listeners host)))))
      by (apply fire_host; assumption).
    assert (Hnone : waiting n after = 0).
    { unfold waiting. rewrite Hafter. simpl. now rewrite filter_watches_none. }
    split; [|intros m [= <-]; exact Hnone].
    rewrite (fire_host sessionConfiguration n after Hwf' Hn).
    unfold waiting in Hnone. apply length_zero_iff_nil in Hnone. rewrite Hnone. simpl.
    rewrite app_nil_r.
    assert (Hsame : List.filter (fun l => negb (watches n l)) (listeners after)
                    = listeners after).
    { apply filter_all. intros x Hx. rewrite Hafter in Hx. simpl in Hx.
      now apply List.filter_In in Hx as [_ Hx]. }
    rewrite Hsame. now destruct after.
  - split; [|discriminate]. unfold after. now rewrite !fire_unnamed.
Qed.

End DebugHostOverTime.

Lemma terminate_twice_witness :
  let registered :=
    handleAll (fun _ _ => true) [Registered (resolvedFor "c1"); Registered (resolvedFor "c2")]
      freshHost in
  let after :=
    DockerDebugConfigurationProvider.fireDidTerminateDebugSession (fun _ _ => true)
      (Some (resolvedFor "c1")) registered in
  removeCalls after = ["c1"; "c2"; "c1"] /\
  DockerDebugConfigurationProvider.fireDidTerminateDebugSession (fun _ _ => true)
    (Some (resolvedFor "c1")) after = after.
Proof.
  intros registered after. split; [reflexivity|].
  apply (terminate_twice (fun _ _ => true) registered (Some (resolvedFor "c1"))).
  split; [repeat constructor; simpl; intuition discriminate | repeat constructor].
Defined.

(** ** Resolution of a debug configuration *)

Section Resolution.

Import DockerDebugConfigurationProvider DebugResolution.

Variable removeSucceeds : list string -> string -> bool.
Variables Configuration RunDefinition : Type.
Variable getAssociatedDockerRunTask : Configuration -> result (option RunDefinition).
Variable helpers : string -> option (DebugHelper Configuration RunDefinition).

Lemma cleanupName_sessionName (c : ResolvedDebugConfiguration) (n : string) :
  cleanupName c = Some n -> sessionName (Some c) = Some n.
Proof.
  unfold cleanupName, sessionName. simpl.
  destruct (dockerOptions c) as [o|]; [|discriminate]. simpl.
  destruct (removeContainerAfterDebug o) as [[|]|]; try discriminate;
    destruct (Js.truthy (containerNameToKill o)); try discriminate; auto.
Qed.

(** X13. A resolution that throws, or that resolves to nothing, calls
    [removeContainer] for no container and registers no listener.  One that
    returns a configuration returns what the platform's helper gave, which
    has a debug type and a request, with its cleanup registered.  For a
    platform without helper the error names the platform. *)
Theorem resolveDebugConfigurationInternal_outcome
    (context : DockerDebugContext RunDefinition) (originalConfiguration : Configuration)
    (host : DebugHost) :
  let outcome :=
    resolveDebugConfigurationInternal removeSucceeds
      getAssociatedDockerRunTask helpers context originalConfiguration host in
  match fst outcome with
  | Ok (Some resolved) =>
      Js.truthy (resolvedType resolved) = true /\
      Js.truthy (resolvedRequest resolved) = true /\
      snd outcome = registerRemoveContainerAfterDebugging removeSucceeds resolved host /\
      exists helper associated,
        helpers (platformText (platform context)) = Some helper /\
        getAssociatedDockerRunTask originalConfiguration = Ok associated /\
        helper (mkContext (contextFolder context) (platform context)
                  (platform context) associated) originalConfiguration
        = Ok (Some resolved)
  | Ok None => snd outcome = host
  | Err e =>
      snd outcome = host /\
      (forall associated,
         getAssociatedDockerRunTask originalConfiguration = Ok associated ->
         helpers (platformText (platform context)) = None ->
         exists message,
           e = Error message /\ names message (platformText (platform context)))
  end.
Proof.
  unfold resolveDebugConfigurationInternal, getHelper. cbv zeta.
  cbn [contextFolder platform telemetryPlatform runDefinition].
  destruct (getAssociatedDockerRunTask originalConfiguration) as [associated|e]; simpl.
  2:{ split; [reflexivity|]. intros a [=]. }
  destruct (helpers (platformText (platform context))) as [helper|] eqn:Hhelper; simpl.
  2:{ split; [reflexivity|]. intros a _ _. eexists. split; [reflexivity|].
      now exists "The platform '", "' is not currently supported for Docker debugging.". }
  destruct (helper _ originalConfiguration) as [[resolved|]|e] eqn:Hresolved; simpl.
  - unfold validateResolvedConfiguration.
    destruct (Js.truthy (resolvedType resolved)) eqn:Htype; simpl.
    + destruct (Js.truthy (resolvedRequest resolved)) eqn:Hrequest; simpl.
      * rewrite Htype, Hrequest. repeat split. exists helper, associated. auto.
      * split; [reflexivity|]. intros a _ [=].
    + split; [reflexivity|]. intros a _ [=].
  - reflexivity.
  - split; [reflexivity|]. intros a _ [=].
Qed.

(** X14. When a configuration is resolved and the debug session that runs
    it ends, the container it names has been removed once at the
    resolution and, at the end of the session, once for every listener
    that waited for it: the one of this resolution and those that earlier
    resolutions left.  All these listeners are gone, and the others stay.
    When no earlier listener waited for the container, it has been
    removed twice, once before the session and once after it, and the
    debug host has the listeners it had before. *)
Theorem debug_session_cleans_up
    (context : DockerDebugContext RunDefinition) (originalConfiguration : Configuration)
    (host host' : DebugHost) (resolved : ResolvedDebugConfiguration) (n : string) :
  well_formed host ->
  resolveDebugConfigurationInternal removeSucceeds
    getAssociatedDockerRunTask helpers context originalConfiguration host
  = (Ok (Some resolved), host') ->
  cleanupName resolved = Some n ->
  let after := fireDidTerminateDebugSession removeSucceeds (Some resolved) host' in
  removeCalls host' = removeCalls host ++ [n] /\
  removeCalls after = removeCalls host ++ [n] ++ repeat n (S (waiting n host)) /\
  listeners after = List.filter (fun l => negb (watches n l)) (listeners host) /\
  waiting n after = 0 /\
  well_formed after /\
  ((forall l, In l (listeners host) -> watched l <> n) ->
   removeCalls after = removeCalls host ++ [n; n] /\
   listeners after = listeners host).
Proof.
  intros Hwf Hresolve Hname after.
  assert (Hhost' : host' = registerRemoveContainerAfterDebugging removeSucceeds resolved host).
  { unfold resolveDebugConfigurationInternal in Hresolve. cbv zeta in Hresolve.
    destruct (getAssociatedDockerRunTask originalConfiguration); [|discriminate].
    destruct (getHelper _ _) as [helper|]; [|discriminate].
    destruct (helper _ _) as [[r|]|]; try discriminate.
    destruct (validateResolvedConfiguration r); [|discriminate].
    now injection Hresolve as -> <-. }
  pose proof (register_well_formed removeSucceeds resolved host Hwf) as Hwf'.
  rewrite <- Hhost' in Hwf'.
  destruct (register_listeners removeSucceeds resolved n host Hname) as (HL & _ & HC).
  rewrite <- Hhost' in HL, HC.
  destruct (fire_named removeSucceeds (Some resolved) n host' Hwf'
              (cleanupName_sessionName resolved n Hname)) as [Hl Hc].
  fold after in Hl, Hc.
  assert (Hmine : watches n (mkListener (nextDisposable host) n) = true)
    by apply String.eqb_refl.
  assert (Hcalls : removeCalls after
                   = removeCalls host ++ [n] ++ repeat n (S (waiting n host))).
  { rewrite Hc, HC, HL, List.filter_app, List.length_app. simpl. rewrite Hmine. simpl.
    unfold waiting. rewrite Nat.add_1_r, <- app_assoc. reflexivity. }
  assert (Hlisteners : listeners after
                       = List.filter (fun l => negb (watches n l)) (listeners host)).
  { rewrite Hl, HL, List.filter_app. simpl. rewrite Hmine. simpl. apply app_nil_r. }
  split; [exact HC|]. split; [exact Hcalls|]. split; [exact Hlisteners|].
  split; [|split].
  - unfold waiting. rewrite Hlisteners, filter_watches_none. reflexivity.
  - apply fire_well_formed. exact Hwf'.
  - intros Hothers.
    assert (Hnone : forall x, In x (listeners host) -> watches n x = false).
    { intros x Hx. unfold watches. apply String.eqb_neq. intros ->. now apply (Hothers x Hx). }
    split.
    + rewrite Hcalls. unfold waiting. now rewrite (filter_none _ _ Hnone).
    + rewrite Hlisteners. apply filter_all. intros x Hx. now rewrite (Hnone x Hx).
Qed.

End Resolution.

Lemma debug_session_cleans_up_witness :
  let outcome :=
    DebugResolution.resolveDebugConfigurationInternal (fun _ _ => true)
      (fun _ : unit => Ok (None : option unit)) sampleHelpers sampleContext tt freshHost in
  fst outcome = Ok (Some (resolvedFor "c1")) /\
  removeCalls
    (DockerDebugConfigurationProvider.fireDidTerminateDebugSession (fun _ _ => true)
       (Some (resolvedFor "c1")) (snd outcome))
  = ["c1"; "c1"].
Proof.
  intros outcome. split; [reflexivity|].
  refine (proj1 (proj2 (debug_session_cleans_up (fun _ _ => true) unit unit
                          (fun _ => Ok None) sampleHelpers sampleContext tt freshHost
                          (snd outcome) (resolvedFor "c1") "c1" _ eq_refl eq_refl))).
  split; constructor.
Defined.

(** ** The tree of local items *)

Section LocalItems.

Import LocalRootTreeItemBase.

Variable TItem : Type.
Variable treeId : TItem -> string.
Variable getPropertyValue : TItem -> string -> option string.
Variable config : string -> Json.value.
Variable sortByTreeId : list TItem -> list TItem.
Variables labelSettingInfo groupBySettingInfo : ITreeSettingInfo.
Variable descriptionSettingInfo : ITreeArraySettingInfo.
Variable sortByProperties : list string.

(** *** Groups *)

Lemma mapGet_None (groupMap : list (string * list TItem)) (name : string) :
  mapGet TItem groupMap name = None <-> ~ In name (map fst groupMap).
Proof.
  induction groupMap as [|[n l] gm IH]; simpl; [split; [intros _ [] | reflexivity]|].
  destruct (String.eqb n name) eqn:E.
  - apply String.eqb_eq in E. split; [discriminate | intros H; exfalso; apply H; now left].
  - apply String.eqb_neq in E. rewrite IH.
    split; [intros H [Heq|Hin]; [contradiction | now apply H] | intros H Hin; apply H; now right].
Qed.

Lemma mapPush_names (groupMap : list (string * list TItem)) (name : string) (item : TItem) :
  map fst (mapPush TItem groupMap name item) = map fst groupMap.
Proof.
  induction groupMap as [|[n l] gm IH]; simpl; [reflexivity|].
  destruct (String.eqb n name); simpl; [reflexivity | now rewrite IH].
Qed.

Lemma mapPush_in (groupMap : list (string * list TItem)) (name : string) (item : TItem)
    (n : string) (l : list TItem) :
  List.NoDup (map fst groupMap) ->
  In (n, l) (mapPush TItem groupMap name item) ->
  (n = name /\ exists l0, In (n, l0) groupMap /\ l = l0 ++ [item]) \/
  (n <> name /\ In (n, l) groupMap).
Proof.
  induction groupMap as [|[n0 l0] gm IH]; simpl; [intros _ []|].
  intros Hnd. apply List.NoDup_cons_iff in Hnd as [Hnotin Hnd].
  destruct (String.eqb n0 name) eqn:E; simpl.
  - apply String.eqb_eq in E. subst n0. intros [[= <- <-]|Hin].
    + left. split; [reflexivity|]. exists l0. split; [now left | reflexivity].
    + right. split; [|now right]. intros ->. apply Hnotin.
      apply in_map_iff. now exists (name, l).
  - apply String.eqb_neq in E. intros [[= <- <-]|Hin].
    + right. split; [exact E | now left].
    + destruct (IH Hnd Hin) as [(-> & l1 & Hl1 & ->)|[Hne Hin']].
      * left. split; [reflexivity|]. exists l1. split; [now right | reflexivity].
      * right. split; [exact Hne | now right].
Qed.

Lemma ungrouped_inGroup (groupBy : string) (item : TItem) (n : string) :
  ungrouped getPropertyValue groupBy item = true -> n <> "" ->
  inGroup getPropertyValue groupBy n item = false.
Proof.
  unfold ungrouped, inGroup, Js.truthy. intros Hu Hn.
  destruct (getPropertyValue item groupBy) as [m|]; [|reflexivity].
  apply negb_true_iff, negb_false_iff, String.eqb_eq in Hu. subst m.
  apply String.eqb_neq. congruence.
Qed.

Lemma grouped_name (groupBy : string) (item : TItem) :
  ungrouped getPropertyValue groupBy item = false ->
  exists m, getPropertyValue item groupBy = Some m /\ m <> "" /\
            Js.or_else (getPropertyValue item groupBy) "" = m.
Proof.
  unfold ungrouped, Js.truthy, Js.or_else. intros Hu.
  destruct (getPropertyValue item groupBy) as [m|]; [|discriminate].
  destruct (String.eqb m "") eqn:E; [discriminate|].
  exists m. split; [reflexivity|]. split; [|reflexivity]. now apply String.eqb_neq.
Qed.

Lemma groupItem_grouped (groupBy : string) (done : list TItem)
    (acc : list TItem * list (string * list TItem)) (item : TItem) :
  grouped getPropertyValue groupBy done acc ->
  grouped getPropertyValue groupBy (done ++ [item])
    (groupItem TItem getPropertyValue groupBy acc item).
Proof.
  destruct acc as [noGroup groupMap]. intros (Hno & Hnd & Hgroups & Hall).
  simpl in Hno, Hnd, Hgroups, Hall.
  unfold groupItem.
  destruct (ungrouped getPropertyValue groupBy item) eqn:Hu.
  - unfold ungrouped in Hu. rewrite Hu. fold (ungrouped getPropertyValue groupBy item) in Hu.
    unfold grouped. simpl. split; [|split; [|split]].
    + rewrite List.filter_app. simpl. rewrite Hu. now rewrite Hno.
    + exact Hnd.
    + intros n l Hin. destruct (Hgroups n l Hin) as (Hn & Hl & Heq).
      split; [exact Hn|]. split; [exact Hl|].
      rewrite List.filter_app. simpl. rewrite (ungrouped_inGroup _ _ _ Hu Hn).
      now rewrite app_nil_r.
    + intros x Hx Hxu. apply in_app_or in Hx as [Hx|[<-|[]]]; [now apply Hall | congruence].
  - destruct (grouped_name _ _ Hu) as (m & Hm & Hne & Hor).
    unfold ungrouped in Hu. rewrite Hu. fold (ungrouped getPropertyValue groupBy item) in Hu.
    rewrite Hor.
    assert (Hitem : inGroup getPropertyValue groupBy m item = true)
      by (unfold inGroup; rewrite Hm; apply String.eqb_refl).
    assert (Hother : forall n, n <> m -> inGroup getPropertyValue groupBy n item = false).
    { intros n Hn. unfold inGroup. rewrite Hm. apply String.eqb_neq. congruence. }
    assert (Hfilter : List.filter (ungrouped getPropertyValue groupBy) (done ++ [item])
                      = List.filter (ungrouped getPropertyValue groupBy) done).
    { rewrite List.filter_app. simpl. rewrite Hu. apply app_nil_r. }
    destruct (mapGet TItem groupMap m) as [l0|] eqn:Hget; unfold grouped; simpl.
    + split; [now rewrite Hfilter|]. split; [now rewrite mapPush_names|]. split.
      * intros n l Hin.
        destruct (mapPush_in _ _ _ _ _ Hnd Hin) as [(-> & l1 & Hl1 & ->)|[Hn Hin']].
        -- destruct (Hgroups m l1 Hl1) as (_ & _ & Heq).
           split; [exact Hne|]. split; [now destruct l1|].
           rewrite List.filter_app. simpl. rewrite Hitem. now rewrite <- Heq.
        -- destruct (Hgroups n l Hin') as (Hn' & Hl & Heq).
           split; [exact Hn'|]. split; [exact Hl|].
           rewrite List.filter_app. simpl. rewrite (Hother n Hn). now rewrite app_nil_r.
      * intros x Hx Hxu. rewrite mapPush_names.
        apply in_app_or in Hx as [Hx|[<-|[]]]; [now apply Hall|].
        rewrite Hor. destruct (in_dec string_dec m (map fst groupMap)) as [Hin|Hnot];
          [exact Hin|]. apply mapGet_None in Hnot. congruence.
    + apply mapGet_None in Hget.
      split; [now rewrite Hfilter|]. split; [|split].
      * rewrite map_app. simpl. apply List.NoDup_app; [exact Hnd | repeat constructor; intros [] |].
        intros x Hx [<-|[]]. contradiction.
      * intros n l Hin. apply in_app_or in Hin as [Hin|[[= <- <-]|[]]].
        -- destruct (Hgroups n l Hin) as (Hn' & Hl & Heq).
           split; [exact Hn'|]. split; [exact Hl|].
           rewrite List.filter_app. simpl. rewrite Hother, app_nil_r; [exact Heq|].
           intros ->. apply Hget. apply in_map_iff. now exists (m, l).
        -- split; [exact Hne|]. split; [discriminate|].
           rewrite List.filter_app. simpl. rewrite Hitem.
           rewrite (filter_none (inGroup getPropertyValue groupBy m) done); [reflexivity|].
           intros x Hx. destruct (inGroup getPropertyValue groupBy m x) eqn:Hin; [|reflexivity].
           exfalso. apply Hget.
           assert (Hxu : ungrouped getPropertyValue groupBy x = false).
           { unfold inGroup in Hin. unfold ungrouped, Js.truthy.
             destruct (getPropertyValue x groupBy) as [k|]; [|discriminate].
             apply String.eqb_eq in Hin. subst k. apply negb_false_iff, negb_true_iff.
             now apply String.eqb_neq. }
           pose proof (Hall x Hx Hxu) as Hentry.
           unfold inGroup in Hin. unfold Js.or_else in Hentry.
           destruct (getPropertyValue x groupBy) as [k|]; [|discriminate].
           apply String.eqb_eq in Hin. subst k.
           apply String.eqb_neq in Hne. now rewrite Hne in Hentry.
      * intros x Hx Hxu. rewrite map_app. apply in_or_app.
        apply in_app_or in Hx as [Hx|[<-|[]]]; [left; now apply Hall|].
        right. rewrite Hor. now left.
Qed.

Lemma groupItems_loop (groupBy : string) (rest done : list TItem)
    (acc : list TItem * list (string * list TItem)) :
  grouped getPropertyValue groupBy done acc ->
  grouped getPropertyValue groupBy (done ++ rest)
    (fold_left (groupItem TItem getPropertyValue groupBy) rest acc).
Proof.
  revert done acc. induction rest as [|item rest IH]; intros done acc Hacc; simpl.
  - now rewrite app_nil_r.
  - replace (done ++ item :: rest) with ((done ++ [item]) ++ rest)
      by (now rewrite <- app_assoc).
    apply IH. now apply groupItem_grouped.
Qed.

(** X15. [groupItems] hands on every item exactly once.  With the setting
    [None] the items are handed on as they are.  Otherwise the items
    without group name come first, in their order, followed by one entry
    for each group name that occurs: the names of the entries are
    distinct and not empty, and the entry of a name holds, in their order,
    exactly the items with this name. *)
Theorem groupItems_partition (groupBy : string) (items : list TItem) :
  groupBy <> "None" ->
  groupItems TItem getPropertyValue "None" items = map Item items /\
  exists groups : list (string * list TItem),
    groupItems TItem getPropertyValue groupBy items
    = map Item (List.filter (ungrouped getPropertyValue groupBy) items)
      ++ map (fun entry => Group (fst entry) (snd entry)) groups /\
    List.NoDup (map fst groups) /\
    (forall name members,
       In (name, members) groups ->
       name <> "" /\ members <> [] /\
       members = List.filter (inGroup getPropertyValue groupBy name) items) /\
    (forall item,
       In item items -> ungrouped getPropertyValue groupBy item = false ->
       In (Js.or_else (getPropertyValue item groupBy) "") (map fst groups)).
Proof.
  intros Hnone. split; [unfold groupItems; simpl; now rewrite app_nil_r|].
  unfold groupItems. apply String.eqb_neq in Hnone. rewrite Hnone.
  assert (Hstart : grouped getPropertyValue groupBy [] ([], [])).
  { unfold grouped. simpl. split; [reflexivity|]. split; [constructor|].
    split; [intros n l [] | intros item []]. }
  pose proof (groupItems_loop groupBy items [] _ Hstart) as Hloop. simpl in Hloop.
  destruct (fold_left (groupItem TItem getPropertyValue groupBy) items ([], []))
    as [noGroup groupMap].
  destruct Hloop as (Hno & Hnd & Hgroups & Hall). simpl in Hno, Hnd, Hgroups, Hall.
  exists groupMap. rewrite Hno. auto.
Qed.

(** *** Settings *)

Lemma strings_map (l : list string) : strings (map Json.VStr l) = Some l.
Proof. induction l as [|s l IH]; simpl; [reflexivity | now rewrite IH]. Qed.

Lemma strings_inv (values : list Json.value) (l : list string) :
  strings values = Some l -> values = map Json.VStr l.
Proof.
  revert l. induction values as [|v values IH]; intros l; simpl.
  - now intros [= <-].
  - destruct v; try discriminate. destruct (strings values) as [l'|]; [|discriminate].
    simpl. intros [= <-]. simpl. now rewrite (IH l' eq_refl).
Qed.

Lemma find_strictEquals (props : list string) (s : string) :
  (exists p, List.find (fun property => strictEquals property (Json.VStr s)) props = Some p)
  <-> In s props.
Proof.
  split.
  - intros [p Hp]. apply find_some in Hp as [Hin Heq]. simpl in Heq.
    apply String.eqb_eq in Heq. now subst.
  - intros Hin.
    destruct (List.find (fun property => strictEquals property (Json.VStr s)) props)
      eqn:Hf; [eauto|].
    rewrite find_none_iff in Hf. specialize (Hf s Hin). simpl in Hf.
    rewrite String.eqb_refl in Hf. discriminate.
Qed.

(** X16. The tree settings are validated when they are read.
    [getTreeSetting] returns the configured value when it is a non-empty
    string among the known properties, and the default in every other
    case; [getTreeArraySetting] returns the configured array when all its
    elements are known properties, and the default otherwise, also when
    one element only is unknown or is no string. *)
Theorem tree_settings_validated (setting : string) (settingInfo : ITreeSettingInfo)
    (arraySettingInfo : ITreeArraySettingInfo) :
  (forall s, config setting = Json.VStr s -> s <> "" -> In s (properties settingInfo) ->
     getTreeSetting config setting settingInfo = s) /\
  ((forall s, config setting = Json.VStr s -> s = "" \/ ~ In s (properties settingInfo)) ->
   getTreeSetting config setting settingInfo = defaultProperty settingInfo) /\
  (forall l, config setting = Json.VArr (map Json.VStr l) ->
     Forall (fun s => In s (arrayProperties arraySettingInfo)) l ->
     getTreeArraySetting config setting arraySettingInfo = l) /\
  ((forall l, config setting = Json.VArr (map Json.VStr l) ->
      ~ Forall (fun s => In s (arrayProperties arraySettingInfo)) l) ->
   getTreeArraySetting config setting arraySettingInfo
   = arrayDefaultProperty arraySettingInfo).
Proof.
  split; [|split; [|split]].
  - intros s Hc Hs Hin. unfold getTreeSetting. rewrite Hc.
    destruct (proj2 (find_strictEquals (properties settingInfo) s) Hin) as [p ->].
    simpl. apply String.eqb_neq in Hs. now rewrite Hs.
  - intros Hbad. unfold getTreeSetting.
    destruct (List.find _ (properties settingInfo)) as [p|] eqn:Hf; [|reflexivity].
    destruct (config setting) as [| | | |s| |] eqn:Hc; try reflexivity.
    destruct (Hbad s eq_refl) as [->|Hnot]; [reflexivity|].
    exfalso. apply Hnot. apply find_strictEquals. eauto.
  - intros l Hc Hall. unfold getTreeArraySetting. rewrite Hc, strings_map.
    replace (forallb _ (map Json.VStr l)) with true; [reflexivity|].
    symmetry. apply forallb_forall. intros v Hv.
    apply in_map_iff in Hv as (s & <- & Hs).
    rewrite List.Forall_forall in Hall.
    destruct (proj2 (find_strictEquals (arrayProperties arraySettingInfo) s) (Hall s Hs))
      as [p ->]. reflexivity.
  - intros Hbad. unfold getTreeArraySetting.
    destruct (config setting) as [| | | | |values|] eqn:Hc; try reflexivity.
    destruct (forallb _ values) eqn:Hall; [|reflexivity].
    destruct (strings values) as [l|] eqn:Hs; [|reflexivity].
    apply strings_inv in Hs. subst values. exfalso. apply (Hbad l eq_refl).
    apply List.Forall_forall. intros s Hin.
    rewrite forallb_forall in Hall. specialize (Hall (Json.VStr s) (in_map _ _ _ Hin)).
    apply find_strictEquals.
    destruct (List.find _ (arrayProperties arraySettingInfo)) as [p|]; [eauto | discriminate].
Qed.

(** *** Polling *)

Lemma someDiffers_ids (before array1 array2 : list TItem) :
  length array1 = length array2 ->
  exists differs,
    someDiffers TItem treeId (length before) array1 (before ++ array2) = Ok differs /\
    (differs = false <-> map treeId array1 = map treeId array2).
Proof.
  revert before array2. induction array1 as [|x l1 IH]; intros before [|y l2] Hlen;
    try discriminate.
  - exists false. now split.
  - simpl. rewrite nth_error_app2 by lia. rewrite Nat.sub_diag. simpl.
    destruct (String.eqb (treeId x) (treeId y)) eqn:E; simpl.
    + apply String.eqb_eq in E. injection Hlen as Hlen.
      destruct (IH (before ++ [y]) l2 Hlen) as (differs & Hd & Hiff).
      rewrite List.length_app in Hd. simpl in Hd. rewrite Nat.add_1_r in Hd.
      rewrite <- app_assoc in Hd. simpl in Hd.
      exists differs. split; [exact Hd|]. rewrite Hiff, E.
      split; [now intros -> | now intros [= ->]].
    + apply String.eqb_neq in E. exists true. split; [reflexivity|].
      split; [discriminate | intros [= Hxy _]; contradiction].
Qed.

(** X17. [areArraysEqual] never throws, because it reads the second array
    only when both have the same length, and it answers whether both
    arrays are absent or both hold the same tree ids in the same order;
    other changes of the items are not seen. *)
Theorem areArraysEqual_compares_tree_ids (array1 array2 : option (ItemArray TItem)) :
  (forall a1 a2, array1 = Some a1 -> array2 = Some a2 -> ref a1 = ref a2 ->
     elems a1 = elems a2) ->
  exists equal,
    areArraysEqual TItem treeId array1 array2 = Ok equal /\
    (equal = true <-> idsOf treeId array1 = idsOf treeId array2).
Proof.
  intros Hsame. unfold areArraysEqual, idsOf.
  destruct array1 as [a1|], array2 as [a2|]; simpl.
  - destruct (Nat.eqb (ref a1) (ref a2)) eqn:Href.
    + apply Nat.eqb_eq in Href. exists true. split; [reflexivity|].
      now rewrite (Hsame a1 a2 eq_refl eq_refl Href).
    + destruct (Nat.eqb (length (elems a1)) (length (elems a2))) eqn:Hlen; simpl.
      * apply Nat.eqb_eq in Hlen.
        destruct (someDiffers_ids [] (elems a1) (elems a2) Hlen) as (differs & Hd & Hiff).
        simpl in Hd. rewrite Hd, bind_Ok. exists (negb differs). split; [reflexivity|].
        rewrite negb_true_iff, Hiff. split; [now intros -> | now intros [= ->]].
      * apply Nat.eqb_neq in Hlen. exists false. split; [reflexivity|].
        split; [discriminate|]. intros [= Hids]. exfalso. apply Hlen.
        now rewrite <- (length_map treeId (elems a1)), Hids, length_map.
  - exists false. split; [reflexivity | split; discriminate].
  - exists false. split; [reflexivity | split; discriminate].
  - exists true. now split.
Qed.

(** X18. [hasChanged] never throws.  It answers false exactly when Docker
    gives the tree ids that are shown, in the same order after sorting, or
    when Docker cannot be asked and nothing is shown; and it keeps what
    Docker gave as the polled items. *)
Theorem hasChanged_detects_tree_ids (docker : Docker TItem) (state : RootState TItem) :
  arrays_known state ->
  let polled := LocalRootTreeItemBase.hasChanged TItem treeId sortByTreeId docker state in
  exists changed,
    fst polled = Ok changed /\
    (changed = false
     <-> idsOf treeId (currentItems state)
         = option_map (map treeId) (sortedAnswer sortByTreeId docker)) /\
    option_map elems (itemsFromPolling (snd polled)) = sortedAnswer sortByTreeId docker /\
    currentItems (snd polled) = currentItems state /\
    arrays_known (snd polled).
Proof.
  intros [Hcurrent Hpolled] polled. subst polled.
  unfold LocalRootTreeItemBase.hasChanged, getSortedItems, sortedAnswer.
  destruct (dockerodeInitError docker) as [e|].
  - simpl. destruct (currentItems state) as [a|] eqn:Hc; simpl.
    + exists true. repeat split; try discriminate. intros a' [= <-]. now apply Hcurrent.
    + exists false. repeat split; discriminate.
  - destruct (getItems docker) as [items|e].
    + cbn [fst snd currentItems itemsFromPolling nextRef option_map elems].
      set (fresh := mkArray (nextRef state) (sortByTreeId (Js.or_obj items []))).
      destruct (areArraysEqual_compares_tree_ids (currentItems state) (Some fresh))
        as (equal & Hequal & Hiff).
      { intros a1 a2 Ha1 [= <-] Href. specialize (Hcurrent a1 Ha1). simpl in Href. lia. }
      rewrite Hequal, bind_Ok. exists (negb equal). split; [reflexivity|].
      split; [|split; [reflexivity|split; [reflexivity|]]].
      * rewrite negb_false_iff, Hiff. reflexivity.
      * unfold arrays_known. subst fresh. simpl.
        split; [intros a Ha; specialize (Hcurrent a Ha); lia|].
        intros a [= <-]. simpl. lia.
    + simpl. destruct (currentItems state) as [a|] eqn:Hc; simpl.
      * exists true. repeat split; try discriminate. intros a' [= <-]. now apply Hcurrent.
      * exists false. repeat split; discriminate.
Qed.

(** X19. After [loadMoreChildrenImpl] no polled items are kept, and the
    flag [_failedToConnect] is set exactly when no items are shown.  When
    polled items are there, they are shown, and Docker is not asked again:
    the children, the telemetry and the root afterwards are the same
    whatever Docker would answer.  When Docker cannot be asked, the
    children are the connection error and the links. *)
Theorem loadMoreChildrenImpl_shows_polled_items (docker : Docker TItem) (inDevContainer : bool)
    (state : RootState TItem) :
  let load :=
    loadMoreChildrenImpl TItem getPropertyValue config sortByTreeId labelSettingInfo
      descriptionSettingInfo groupBySettingInfo sortByProperties in
  let after := snd (load docker inDevContainer state) in
  itemsFromPolling after = None /\
  (failedToConnect after = true <-> currentItems after = None) /\
  (forall polled, itemsFromPolling state = Some polled ->
     currentItems after = Some polled /\
     forall docker', load docker' inDevContainer state = load docker inDevContainer state) /\
  (itemsFromPolling state = None ->
   option_map elems (currentItems after) = sortedAnswer sortByTreeId docker) /\
  (currentItems after = None ->
   exists e, fst (fst (load docker inDevContainer state))
             = getDockerErrorTreeItems TItem inDevContainer e).
Proof.
  intros load after. subst load after. unfold loadMoreChildrenImpl.
  destruct (itemsFromPolling state) as [polled|] eqn:Hp.
  - destruct (Nat.eqb (length (elems polled)) 0); simpl;
      (split; [reflexivity|]); (split; [split; discriminate|]);
      (split; [intros p [= <-]; split; reflexivity|]);
      (split; discriminate).
  - unfold getSortedItems, sortedAnswer.
    destruct (dockerodeInitError docker) as [e|].
    + simpl. rewrite Hp. split; [reflexivity|]. split; [split; reflexivity|].
      split; [discriminate|]. split; [reflexivity|]. eauto.
    + destruct (getItems docker) as [items|e].
      * cbn [elems].
        destruct (Nat.eqb (length (sortByTreeId (Js.or_obj items []))) 0); simpl;
          (split; [reflexivity|]); (split; [split; discriminate|]);
          (split; [discriminate|]); (split; [reflexivity | discriminate]).
      * simpl. rewrite Hp. split; [reflexivity|]. split; [split; reflexivity|].
        split; [discriminate|]. split; [reflexivity|]. eauto.
Qed.

End LocalItems.

Lemma groupItems_partition_witness :
  LocalRootTreeItemBase.groupItems (string * string) sampleProperty "Image" sampleItems
  = [Item ("c2", ""); Group "nginx" [("c1", "nginx"); ("c4", "nginx")];
     Group "redis" [("c3", "redis")]] /\
  exists groups : list (string * list (string * string)),
    LocalRootTreeItemBase.groupItems (string * string) sampleProperty "Image" sampleItems
    = map Item (List.filter (ungrouped sampleProperty "Image") sampleItems)
      ++ map (fun entry => Group (fst entry) (snd entry)) groups /\
    List.NoDup (map fst groups).
Proof.
  split; [reflexivity|].
  destruct (groupItems_partition (string * string) sampleProperty "Image" sampleItems)
    as (_ & groups & Heq & Hnd & _); [discriminate|].
  exists groups. split; [exact Heq | exact Hnd].
Defined.

Lemma areArraysEqual_compares_tree_ids_witness :
  LocalRootTreeItemBase.areArraysEqual (string * string) sampleTreeId
    (Some (mkArray 0 sampleItems))
    (Some (mkArray 1 [("c1", "httpd"); ("c2", "httpd"); ("c3", "httpd"); ("c4", "httpd")]))
  = Ok true.
Proof.
  destruct (areArraysEqual_compares_tree_ids (string * string) sampleTreeId
              (Some (mkArray 0 sampleItems))
              (Some (mkArray 1 [("c1", "httpd"); ("c2", "httpd"); ("c3", "httpd");
                                ("c4", "httpd")])))
    as (equal & Hequal & Hiff).
  - intros a1 a2 [= <-] [= <-]. discriminate.
  - rewrite Hequal. f_equal. apply Hiff. reflexivity.
Defined.

Lemma hasChanged_detects_tree_ids_witness :
  fst (LocalRootTreeItemBase.hasChanged (string * string) sampleTreeId (fun l => l)
         (mkDocker None (Ok (Some [("c1", "nginx")]))) sampleRoot)
  = Ok true.
Proof.
  destruct (hasChanged_detects_tree_ids (string * string) sampleTreeId (fun l => l)
              (mkDocker None (Ok (Some [("c1", "nginx")]))) sampleRoot)
    as (changed & Hchanged & Hiff & _).
  - split; [intros a [= <-]; simpl; lia | discriminate].
  - rewrite Hchanged. f_equal. destruct changed; [reflexivity|].
    exfalso. destruct Hiff as [Hids _]. specialize (Hids eq_refl). discriminate.
Defined.

(** ** Listing the registries page by page *)

Section Paging.

Import SubscriptionTreeItem.

Variable Registry : Type.
Variable list_ : result (RegistryListResult Registry).
Variable listNext : string -> result (RegistryListResult Registry).

Lemma loadAllChildren_pages (pages : list (list Registry)) (link : option string) :
  serves list_ listNext link pages ->
  exists final,
    loadAllChildren list_ listNext (length pages) false link = (Ok (concat pages), final) /\
    hasMoreChildrenImpl final = false.
Proof.
  induction 1 as [link page last Hfetch Hlast | link page next pages Hfetch Hnext _ IH].
  - exists last. simpl. unfold loadMoreChildrenImpl.
    rewrite Hfetch. cbn [registries nextLink]. unfold hasMoreChildrenImpl. rewrite Hlast.
    split; [now rewrite app_nil_r | reflexivity].
  - destruct IH as (final & Hall & Hfinal). exists final.
    cbn [length loadAllChildren]. unfold loadMoreChildrenImpl at 1.
    rewrite Hfetch. cbn [registries nextLink].
    assert (Hmore : hasMoreChildrenImpl (Some next) = true).
    { unfold hasMoreChildrenImpl, Js.truthy. apply negb_true_iff. now apply String.eqb_neq. }
    rewrite Hmore, Hall. split; [reflexivity | exact Hfinal].
Qed.

(** X20. When the service answers page by page, loading the children
    with [clearCache] and then for as long as [hasMoreChildrenImpl] holds
    gives the registries of all the pages, in order, each once, and ends
    with nothing more to load; the link kept from an earlier listing does
    not matter. *)
Theorem loadAllChildren_lists_every_page (pages : list (list Registry))
    (staleLink : option string) :
  serves list_ listNext None pages ->
  exists final,
    loadAllChildren list_ listNext (length pages) true staleLink
    = (Ok (concat pages), final) /\
    hasMoreChildrenImpl final = false.
Proof.
  intros Hserves.
  destruct (loadAllChildren_pages pages None Hserves) as (final & Hall & Hfinal).
  exists final. split; [|exact Hfinal]. rewrite <- Hall.
  destruct pages as [|page pages]; [inversion Hserves|]. reflexivity.
Qed.

End Paging.

Lemma loadAllChildren_lists_every_page_witness :
  fst (loadAllChildren sampleFirstPage samplePages 3 true (Some "page3"))
  = Ok ["adatum"; "alpine"; "contoso"; "fabrikam"; "tailspin"].
Proof.
  destruct (loadAllChildren_lists_every_page string sampleFirstPage samplePages
              [["adatum"; "alpine"]; ["contoso"]; ["fabrikam"; "tailspin"]] (Some "page3"))
    as (final & Hall & _).
  - apply serves_more with (next := "page2"); [reflexivity | discriminate|].
    apply serves_more with (next := "page3"); [reflexivity | discriminate|].
    apply serves_last with (last := None); reflexivity.
  - simpl length in Hall. rewrite Hall. reflexivity.
Defined.

(** ** The server-ready action *)

Section ServerReady.

Import ServerReadyAction.

(** X21. [resolveDockerServerReadyAction] throws exactly when more than
    one of [launchBrowser], [serverReadyAction] and
    [dockerServerReadyAction] is set.  It returns an action only when
    neither [launchBrowser] nor [serverReadyAction] is set and either the
    user gave one or one is to be created; every field of the action is
    then the user's when that is not empty, and the default's otherwise. *)
Theorem resolveDockerServerReadyAction_decides (debugConfiguration : BrowserConfiguration)
    (defaultDockerSRA : DockerServerReadyAction) (createIfUserUndefined : bool) :
  let resolved :=
    resolveDockerServerReadyAction debugConfiguration defaultDockerSRA createIfUserUndefined in
  let provided := dockerServerReadyAction debugConfiguration in
  ((exists e, resolved = Err e)
   <-> (launchBrowserDefined debugConfiguration = true /\
        serverReadyActionDefined debugConfiguration = true)
       \/ ((launchBrowserDefined debugConfiguration = true \/
            serverReadyActionDefined debugConfiguration = true) /\ provided <> None)) /\
  (forall action, resolved = Ok (Some action) ->
     launchBrowserDefined debugConfiguration = false /\
     serverReadyActionDefined debugConfiguration = false /\
     (provided <> None \/ createIfUserUndefined = true) /\
     forall (field : DockerServerReadyAction -> option string),
       In field [sraContainerName; sraPattern; sraAction; sraUriFormat; sraWebRoot] ->
       field action
       = if Js.truthy (provided ≫= field) then provided ≫= field
         else field defaultDockerSRA) /\
  (resolved = Ok None
   <-> (provided = None /\
        (xorb (launchBrowserDefined debugConfiguration)
           (serverReadyActionDefined debugConfiguration) = true
         \/ (launchBrowserDefined debugConfiguration = false /\
             serverReadyActionDefined debugConfiguration = false /\
             createIfUserUndefined = false)))).
Proof.
  intros resolved provided. subst resolved provided.
  unfold resolveDockerServerReadyAction.
  destruct debugConfiguration as [[|] [|] [user|]], createIfUserUndefined;
    cbn [launchBrowserDefined serverReadyActionDefined dockerServerReadyAction isSome
         List.filter length Nat.ltb Nat.leb Nat.eqb andb negb Js.or_obj xorb];
    (split; [split; [intros [e He]; try discriminate; auto;
                     try (right; split; [auto | discriminate])
                    | intros [[H1 H2]|[[H1|H1] H2]]; try discriminate; try contradiction;
                      eauto]
            |split]);
    try (intros action [=]; fail);
    try (split; [intros [=] | intros [H1 [H2|(H2 & H3 & H4)]]; discriminate]; fail);
    try (split; [reflexivity | intros [H1 H2]; discriminate]; fail);
    try (split; [intros _; split; [reflexivity|]; auto | reflexivity]; fail);
    try (split; [intros [=] | intros [H1 _]; discriminate]; fail).
  all: try (intros action [= <-]; split; [reflexivity|]; split; [reflexivity|];
            split; [first [left; discriminate | right; reflexivity]|];
            intros field [<-|[<-|[<-|[<-|[<-|[]]]]]]; reflexivity).
  all: try (split; [intros _; split; [reflexivity|];
                    first [left; reflexivity | right; auto] | reflexivity]).
Qed.

End ServerReady.

(** ** What a resolved debug configuration stands on *)

Section ResolvedLaunch.

Import CoreClr.

Variable h : Host.
Variable sv : Services.

(** X22. When [resolveDockerDebugConfiguration] returns a configuration,
    Docker was prepared with the launch options that passed the
    prerequisite check, and these name an application folder, a project
    file, a build context and a Dockerfile that exist, a non-empty tag and
    a non-empty container name, and they say whether user secrets are
    configured (they are when SSL is); the configuration is a [coreclr] launch
    with the name of the user's configuration and the program that Docker
    reported. *)
Theorem resolved_configuration_stands_on_existing_files
    (folder : option WorkspaceFolder) (debugConfiguration : DockerDebugConfiguration)
    (resolved : ResolvedConfiguration) :
  resolveDockerDebugConfiguration h sv folder debugConfiguration = Ok (Some resolved) ->
  exists (launchOptions : LaunchOptions) (result : LaunchResult),
    checkPrerequisite sv launchOptions = Ok true /\
    prepareForLaunch sv launchOptions = Ok result /\
    dirExists sv (launchAppFolder launchOptions) = true /\
    fileExists sv (launchAppProject launchOptions) = true /\
    dirExists sv (launchContext (build launchOptions)) = true /\
    fileExists sv (launchDockerfile (build launchOptions)) = true /\
    launchTag (build launchOptions) <> "" /\
    launchContainerName (run launchOptions) <> "" /\
    (exists secrets,
       launchConfigureDotNetUserSecrets (run launchOptions) = Some secrets /\
       (launchConfigureAspNetCoreSsl (run launchOptions) = true -> secrets = true)) /\
    outType resolved = "coreclr" /\
    outRequest resolved = "launch" /\
    outName resolved = name debugConfiguration /\
    outProgram resolved = program result /\
    pipeTransport resolved = result.
Proof.
  destruct folder as [folder|]; [|discriminate].
  rewrite resolve_steps. intros Hr.
  apply bind_inv in Hr as ([appFolder resolvedAppFolder] & HappFolder & Hr).
  apply bind_inv in Hr as ([appProject resolvedAppProject] & HappProject & Hr).
  apply bind_inv in Hr as ([[appOutput ssl] userSecrets] & Hmiddle & Hr).
  apply bind_inv in Hr as (buildOptions & Hbuild & Hr). cbv zeta in Hr.
  apply bind_inv in Hr as (satisfied & Hcheck & Hr).
  destruct satisfied; [|discriminate]. cbn [negb] in Hr.
  apply bind_inv in Hr as (result & Hprepare & Hr). injection Hr as <-.
  rewrite inferAppFolder_eq in HappFolder.
  destruct (dirExists sv (resolvedAppFolderOf h sv folder debugConfiguration)) eqn:Hfolder;
    [|discriminate].
  injection HappFolder as <- <-.
  destruct (inferAppProject_checked h sv folder debugConfiguration _ _ HappProject)
    as [_ Hproject].
  unfold inferBuildOptions in Hbuild.
  apply bind_inv in Hbuild as (resolvedContext & Hcontext & Hbuild).
  apply bind_inv in Hbuild as (dockerfile & Hdockerfile & Hbuild). cbv zeta in Hbuild.
  injection Hbuild as <-.
  rewrite inferContext_eq in Hcontext.
  destruct (dirExists sv (contextOf h sv folder debugConfiguration)) eqn:Hctx; [|discriminate].
  injection Hcontext as <-.
  rewrite inferDockerfile_eq in Hdockerfile.
  destruct (fileExists sv (dockerfileOf h sv folder debugConfiguration)) eqn:Hdf;
    [|discriminate].
  injection Hdockerfile as <-.
  unfold middleSteps in Hmiddle.
  apply bind_inv in Hmiddle as (output & _ & Hmiddle).
  apply bind_inv in Hmiddle as (ssl' & _ & Hmiddle).
  apply bind_inv in Hmiddle as (secrets & Hsecrets & Hmiddle).
  injection Hmiddle as _ <- <-.
  assert (Hdecided : exists b, secrets = Some b /\ (ssl' = true -> b = true)).
  { unfold inferUserSecrets in Hsecrets. destruct ssl'.
    - injection Hsecrets as <-. now exists true.
    - rewrite Hproject in Hsecrets. apply bind_inv in Hsecrets as (contents & _ & Hsecrets).
      injection Hsecrets as <-. eexists. split; [reflexivity | discriminate]. }
  eexists _, result. split; [exact Hcheck|]. split; [exact Hprepare|].
  cbn [launchAppFolder launchAppProject build run launchContext launchDockerfile launchTag
       launchContainerName launchConfigureDotNetUserSecrets launchConfigureAspNetCoreSsl
       inferRunOptions].
  repeat (split; [first [assumption | reflexivity | idtac]|]); try reflexivity.
  - unfold buildField. destruct (dockerBuild debugConfiguration) as [b|].
    + destruct (Js.truthy (tag b)) eqn:Htag.
      * unfold Js.truthy in Htag. destruct (tag b) as [t|]; [|discriminate].
        apply negb_true_iff, String.eqb_neq in Htag. exact Htag.
      * apply append_nonempty. discriminate.
    + apply append_nonempty. discriminate.
  - apply or_else_nonempty, append_nonempty. discriminate.
Qed.

End ResolvedLaunch.

Lemma resolved_configuration_stands_on_existing_files_witness :
  exists resolved,
    CoreClr.resolveDockerDebugConfiguration Sample.host launchServices (Some Sample.folder)
      namedDebugConfiguration = Ok (Some resolved) /\
    CoreClr.outType resolved = "coreclr" /\
    CoreClr.outProgram resolved = "/app/bin/WebApi.dll".
Proof.
  eexists. split; [reflexivity|].
  destruct (resolved_configuration_stands_on_existing_files Sample.host launchServices
              (Some Sample.folder) namedDebugConfiguration _ eq_refl)
    as (launchOptions & result & _ & Hprepare & _ & _ & _ & _ & _ & _ & _ & Htype & _ & _
        & Hprogram & _).
  split; [exact Htype|]. rewrite Hprogram. injection Hprepare as <-. reflexivity.
Defined.

(** ** Scaffolded run tasks *)

Section Scaffolded.

Import NetCoreScaffolding.

(** X23. A run task that the later revision scaffolds keeps, when it is
    resolved, the entry point and the command that were scaffolded for its
    platform: [ping -t localhost] and the target system Windows for
    Windows, [tail -f /dev/null] and Linux otherwise. *)
Theorem scaffolded_run_task_keeps_entrypoint (h : Host) (im : Imports)
    (unresolveFilePath : string -> WorkspaceFolder -> string)
    (folder : WorkspaceFolder) (options : option NetCoreTaskScaffoldingOptions)
    (context : DockerRunTaskContext)
    (tasks : list DockerRunTaskDefinition) (task : DockerRunTaskDefinition)
    (resolved : DockerRunOptions) :
  provideDockerRunTasks h unresolveFilePath folder options = Ok tasks ->
  In task tasks ->
  resolveDockerRunOptions h im context task = Ok resolved ->
  let platform := Js.or_obj (options ≫= platformOS) Linux in
  entrypoint resolved = Some (match platform with Windows => "ping" | Linux => "tail" end) /\
  command resolved
  = Some (match platform with Windows => "-t localhost" | Linux => "-f /dev/null" end) /\
  os resolved = Some platform.
Proof.
  intros Htasks Hin Hresolved platform.
  destruct (later_revision_keeps_entrypoint h im context task resolved Hresolved)
    as [Hentry Hcommand].
  assert (Hos : os resolved = Some (Js.or_obj (os (dockerRun task)) Linux)).
  { unfold resolveDockerRunOptions in Hresolved.
    apply bind_inv in Hresolved as (project & _ & Hr). cbv zeta in Hr.
    apply bind_inv in Hr as (ssl & _ & Hr).
    apply bind_inv in Hr as (userSecrets & _ & Hr).
    apply bind_inv in Hr as (newVolumes & _ & Hr).
    injection Hr as <-. reflexivity. }
  unfold provideDockerRunTasks in Htasks.
  apply bind_inv in Htasks as (project & _ & Htasks). cbv zeta in Htasks.
  injection Htasks as <-. destruct Hin as [<-|[]].
  rewrite Hentry, Hcommand, Hos. subst platform.
  destruct options as [[project' [[|]|]]|]; repeat split; reflexivity.
Qed.

End Scaffolded.

Lemma scaffolded_run_task_keeps_entrypoint_witness :
  NetCoreScaffolding.provideDockerRunTasks Sample.host (fun p _ => p) Sample.folder
    (Some windowsScaffolding) = Ok [scaffoldedWindowsTask] /\
  exists resolved,
    NetCoreScaffolding.resolveDockerRunOptions Sample.host sampleImports
      (NetCoreScaffolding.mkRunContext Sample.folder None) scaffoldedWindowsTask
    = Ok resolved /\
    entrypoint resolved = Some "ping" /\
    os resolved = Some Windows.
Proof.
  split; [reflexivity|].
  destruct (NetCoreScaffolding.resolveDockerRunOptions Sample.host sampleImports
              (NetCoreScaffolding.mkRunContext Sample.folder None) scaffoldedWindowsTask)
    as [resolved|e] eqn:Hresolved; [|vm_compute in Hresolved; discriminate].
  exists resolved. split; [reflexivity|].
  destruct (scaffolded_run_task_keeps_entrypoint Sample.host sampleImports (fun p _ => p)
              Sample.folder (Some windowsScaffolding)
              (NetCoreScaffolding.mkRunContext Sample.folder None)
              [scaffoldedWindowsTask] scaffoldedWindowsTask resolved
              eq_refl (or_introl eq_refl) Hresolved) as (Hentry & _ & Hos).
  split; [exact Hentry | exact Hos].
Defined.

(** ** The launcher command of the Python debugger *)

Section Launcher.

Import PythonLauncher.

Lemma split_nonempty (s : string) : split s <> [].
Proof.
  destruct s as [|c s]; simpl; [discriminate|].
  destruct (Str.is_space c); [discriminate|]. destruct (split s); discriminate.
Qed.

Lemma join_cons (part : string) (parts : list string) :
  parts <> [] -> join (part :: parts) = part +:+ " " +:+ join parts.
Proof. destruct parts; [contradiction | reflexivity]. Qed.

Lemma join_split (s : string) : join (split s) = spaced s.
Proof.
  induction s as [|c s IH]; [reflexivity|].
  cbn [split spaced]. destruct (Str.is_space c).
  - rewrite join_cons by apply split_nonempty. now rewrite IH.
  - pose proof (split_nonempty s) as Hne.
    destruct (split s) as [|part parts]; [contradiction|].
    rewrite <- IH. destruct parts; reflexivity.
Qed.

Lemma split_one (s part : string) : split s = [part] -> part = s /\ spaces s = 0.
Proof.
  revert part. induction s as [|c s IH]; intros part; [now intros [= <-]|].
  cbn [split spaces]. destruct (Str.is_space c).
  - intros [= _ Hs]. now pose proof (split_nonempty s).
  - pose proof (split_nonempty s) as Hne.
    destruct (split s) as [|p ps]; [contradiction|].
    intros [= <- ->]. destruct (IH p eq_refl) as [-> Hs]. now split.
Qed.

Lemma split_single (s : string) : spaces s = 0 -> split s = [s].
Proof.
  induction s as [|c s IH]; [reflexivity|].
  cbn [spaces split]. destruct (Str.is_space c); [discriminate|].
  intros Hs. now rewrite (IH Hs).
Qed.

Lemma startsWith_append (pat rest : string) : startsWith pat (pat +:+ rest) = true.
Proof.
  induction pat as [|c pat IH]; [reflexivity|].
  change (String c pat +:+ rest) with (String c (pat +:+ rest)).
  cbn [startsWith]. now rewrite Ascii.eqb_refl, IH.
Qed.

Lemma drop_append (pat rest : string) : drop (String.length pat) (pat +:+ rest) = rest.
Proof. induction pat as [|c pat IH]; [reflexivity | exact IH]. Qed.

Lemma slashes_append (a b : string) : slashes (a +:+ b) = slashes a +:+ slashes b.
Proof.
  induction a as [|c a IH]; [reflexivity|].
  change (String c a +:+ b) with (String c (a +:+ b)). cbn [slashes]. now rewrite IH.
Qed.

Lemma split_join (parts : list string) :
  parts <> [] -> Forall (fun part => spaces part = 0) parts -> split (join parts) = parts.
Proof.
  assert (Hcut : forall a b, spaces a = 0 -> split (a +:+ " " +:+ b) = a :: split b).
  { induction a as [|c a IH]; intros b Ha; [reflexivity|].
    change (String c a +:+ " " +:+ b) with (String c (a +:+ " " +:+ b)).
    cbn [split]. cbn [spaces] in Ha.
    destruct (Str.is_space c); [discriminate|]. now rewrite IH. }
  induction parts as [|part parts IH]; [contradiction|]. intros _ Hparts.
  apply Forall_cons_iff in Hparts as [Hpart Hparts].
  destruct parts as [|part' parts]; [now apply split_single|].
  rewrite join_cons by discriminate. rewrite (Hcut _ _ Hpart). f_equal.
  apply IH; [discriminate | exact Hparts].
Qed.

(** X24. The entry point and the command are the launcher command cut at
    its first white space (a white-space character is one that [\s]
    matches): when the launcher command is made of parts
    without white space, with a space between them, the entry point is
    the first part and the command is the other parts, with a space
    between them, each of them relocated.  Relocating keeps a part that
    does not mention the launcher folder, and moves a part that starts
    with the launcher folder to [/pydbg], with slashes for its
    backslashes.  When no part of the launcher command mentions the
    launcher folder, the entry point, a space and the command are the
    launcher command again, with a space for every white-space character;
    a launcher command without white space is the entry point, with an
    empty command. *)
Theorem launcher_command_round_trip (launcherCommand launcherFolder : string) :
  spaces (inferEntrypoint launcherCommand) = 0 /\
  (forall parts,
     parts <> [] -> Forall (fun part => spaces part = 0) parts ->
     launcherCommand = join parts ->
     inferEntrypoint launcherCommand = hd "" parts /\
     inferCommand launcherCommand launcherFolder
     = join (map (relocate launcherFolder) (tl parts))) /\
  (forall part, includes launcherFolder part = false -> relocate launcherFolder part = part) /\
  (forall rest,
     relocate launcherFolder (launcherFolder +:+ rest) = "/pydbg" +:+ slashes rest) /\
  (Forall (fun part => includes launcherFolder part = false) (split launcherCommand) ->
   (spaces launcherCommand = 0 ->
    inferEntrypoint launcherCommand = launcherCommand /\
    inferCommand launcherCommand launcherFolder = "") /\
   (spaces launcherCommand <> 0 ->
    inferEntrypoint launcherCommand +:+ " " +:+ inferCommand launcherCommand launcherFolder
    = spaced launcherCommand)).
Proof.
  split; [|split; [|split; [|split]]].
  - unfold inferEntrypoint. induction launcherCommand as [|c s IH]; [reflexivity|].
    cbn [split]. destruct (Str.is_space c) eqn:E; [reflexivity|].
    pose proof (split_nonempty s) as Hne.
    destruct (split s) as [|part parts]; [contradiction|].
    cbn [spaces]. now rewrite E.
  - intros parts Hne Hparts ->. unfold inferEntrypoint, inferCommand.
    rewrite (split_join parts Hne Hparts).
    destruct parts as [|part parts]; [contradiction|]. split; reflexivity.
  - intros part Hpart. unfold relocate. now rewrite Hpart.
  - intros rest. unfold relocate.
    assert (Hinc : includes launcherFolder (launcherFolder +:+ rest) = true).
    { destruct (launcherFolder +:+ rest) eqn:E; cbn [includes];
        rewrite <- E, startsWith_append; reflexivity. }
    rewrite Hinc.
    assert (Hrep : replaceFirst launcherFolder "/pydbg" (launcherFolder +:+ rest)
                   = "/pydbg" +:+ rest).
    { destruct (launcherFolder +:+ rest) eqn:E; cbn [replaceFirst];
        rewrite <- E, startsWith_append, drop_append; reflexivity. }
    rewrite Hrep. apply slashes_append.
  - intros Hparts. unfold inferEntrypoint, inferCommand.
    assert (Hsame : map (relocate launcherFolder) (split launcherCommand)
                    = split launcherCommand).
    { induction Hparts as [|part parts Hpart _ IH]; [reflexivity|].
      cbn [map]. unfold relocate at 1. now rewrite Hpart, IH. }
    rewrite Hsame. split.
    + intros Hnone. rewrite (split_single _ Hnone). now split.
    + intros Hsome. rewrite <- join_split.
      pose proof (split_nonempty launcherCommand) as Hne.
      destruct (split launcherCommand) as [|part parts] eqn:Hsplit; [contradiction|].
      destruct parts as [|part' parts]; [|reflexivity].
      exfalso. apply Hsome. now apply (split_one launcherCommand part).
Qed.

End Launcher.

Lemma launcher_command_round_trip_witness :
  PythonLauncher.inferEntrypoint
    "python3 C:\ext\launcher\ptvsd_launcher.py --wait C:\ext\launcher\run.py app.py"
  = "python3" /\
  PythonLauncher.inferCommand
    "python3 C:\ext\launcher\ptvsd_launcher.py --wait C:\ext\launcher\run.py app.py"
    "C:\ext\launcher"
  = "/pydbg/ptvsd_launcher.py --wait /pydbg/run.py app.py".
Proof.
  destruct (launcher_command_round_trip
              "python3 C:\ext\launcher\ptvsd_launcher.py --wait C:\ext\launcher\run.py app.py"
              "C:\ext\launcher") as (_ & Hparts & Hkept & Hmoved & _).
  destruct (Hparts ["python3"; "C:\ext\launcher" +:+ "\ptvsd_launcher.py"; "--wait";
                    "C:\ext\launcher" +:+ "\run.py"; "app.py"])
    as [Hentry Hcommand].
  - discriminate.
  - vm_compute. repeat constructor.
  - reflexivity.
  - split; [exact Hentry|]. rewrite Hcommand. cbn [tl map].
    rewrite !Hmoved, !Hkept by reflexivity. reflexivity.
Defined.

(** ** The names in launch.json *)

Section LaunchNames.

Import DebugHelper.

(** X25. [addDebugConfiguration] keeps the names in launch.json distinct:
    when they were distinct they still are after a configuration is
    added, whether it was new or not; and adding the same configuration
    again changes nothing and returns false. *)
Theorem addDebugConfiguration_keeps_names_distinct
    (debugConfiguration : DebugConfiguration) (launch : WorkspaceLaunch) :
  List.NoDup (map cfgName (persisted launch)) ->
  let added := snd (addDebugConfiguration debugConfiguration launch) in
  List.NoDup (map cfgName (persisted added)) /\
  (exists c, In c (persisted added) /\ cfgName c = cfgName debugConfiguration) /\
  addDebugConfiguration debugConfiguration added = (false, added).
Proof.
  intros Hnd added. subst added.
  unfold addDebugConfiguration, update_configurations, persisted, Js.or_obj in *.
  set (cs := match configurations launch with Some a => a | None => [] end) in *.
  destruct (existsb (fun c => String.eqb (cfgName c) (cfgName debugConfiguration)) cs)
    eqn:Hex; cbn [snd configurations].
  - fold cs. rewrite Hex. split; [exact Hnd|]. split; [|reflexivity].
    apply existsb_exists in Hex as (c & Hin & Heq). exists c.
    split; [exact Hin | now apply String.eqb_eq].
  - assert (Hfresh : ~ In (cfgName debugConfiguration) (map cfgName cs)).
    { intros Hin. apply in_map_iff in Hin as (c & Heq & Hin).
      assert (Htrue : existsb (fun c => String.eqb (cfgName c) (cfgName debugConfiguration)) cs
                      = true).
      { apply existsb_exists. exists c. split; [exact Hin | now apply String.eqb_eq]. }
      congruence. }
    split; [|split].
    + rewrite map_app. apply List.NoDup_app; [exact Hnd | repeat constructor; intros [] |].
      intros x Hx [<-|[]]. contradiction.
    + exists debugConfiguration. split; [apply in_or_app; right; now left | reflexivity].
    + rewrite existsb_app. cbn [existsb]. now rewrite String.eqb_refl, orb_true_r.
Qed.

Lemma addDebugConfiguration_keeps_names_distinct_witness :
  let added :=
    snd (DebugHelper.addDebugConfiguration launchPython (mkLaunch (Some [attachNode]))) in
  persisted added = [attachNode; launchPython] /\
  DebugHelper.addDebugConfiguration launchPython added = (false, added).
Proof.
  intros added. split; [reflexivity|].
  apply (addDebugConfiguration_keeps_names_distinct launchPython
           (mkLaunch (Some [attachNode]))).
  repeat constructor; simpl; intuition discriminate.
Defined.

End LaunchNames.
